(** * SimpleOVR_D3D11: the setup script and stereo frame loop of WinMain

    A shallow embedding of [SimpleOVR_D3D11.cpp].  The program is one
    sequential script of calls into three external libraries (Win32,
    LibOVR 0.4.3, Direct3D 11).  It is modelled as a function from an
    environment (what those libraries answer) to the ordered trace of
    calls the program makes, together with its exit status.

    - C [int] values are integers with 32-bit wrap-around written out.
    - The Oculus math types ([float], [OVR::Vector3f], [OVR::Quatf],
      [OVR::Matrix4f]) and the SDK functions on them are not part of the
      repository: they are the fields of the interface [OVR_SDK], and
      every theorem holds for every implementation of it.
    - Interface pointers are [option handle]; [None] is [nullptr].  Each
      pointer variable of the source is assigned by exactly one creation
      call, so a Direct3D object is named after that call's output.
    - The source looks at the result of no creation call.  [WinMain] below
      is the run in which each of them hands back its object;
      [Unchecked.WinMain] is the program with creation calls that may
      fail, where a call through a pointer that stayed null is undefined
      behaviour.  [WinMain_refines] relates the two. *)

From Stdlib Require Import ZArith List Lia Bool QArith String Permutation.
Import ListNotations.
Open Scope Z_scope.

(** ** C integers *)

Module CInt.

Definition INT_MAX : Z := 2147483647.
Definition INT_MIN : Z := -2147483648.

(** Two's-complement reduction of an integer to a 32-bit [int]. *)
Definition wrap (z : Z) : Z := (z + 2 ^ 31) mod 2 ^ 32 - 2 ^ 31.

Definition is_int (z : Z) : Prop := INT_MIN <= z <= INT_MAX.

Definition add (a b : Z) : Z := wrap (a + b).

(** C++ integer division truncates toward zero. *)
Definition div (a b : Z) : Z := wrap (Z.quot a b).

(** [std::max] on [int]. *)
Definition max (a b : Z) : Z := if a <? b then b else a.

(** Conversion of an [int] to [UINT]. *)
Definition to_UINT (z : Z) : Z := z mod 2 ^ 32.

End CInt.

(** ** Plain C structs of the SDK headers *)

Record ovrSizei := { w : Z; h : Z }.
Record ovrVector2i := { x : Z; y : Z }.
Record ovrRecti := { Pos : ovrVector2i; Size : ovrSizei }.

Inductive ovrEyeType := ovrEye_Left | ovrEye_Right.

(** The numeric value of an eye, used by the source as an array index. *)
Definition eye_index (e : ovrEyeType) : nat :=
  match e with ovrEye_Left => 0%nat | ovrEye_Right => 1%nat end.

(** A C array of two elements, [a[0]] and [a[1]]. *)
Record array2 (A : Type) := Array2 { elt0 : A; elt1 : A }.
Arguments Array2 {A} _ _.
Arguments elt0 {A} _.
Arguments elt1 {A} _.

(** [a[i]]; the source only ever indexes with 0 and 1. *)
Definition at2 {A} (a : array2 A) (i : nat) : A :=
  match i with O => elt0 a | _ => elt1 a end.

Record ovrFovPort (float : Type) :=
  { UpTan : float; DownTan : float; LeftTan : float; RightTan : float }.
Arguments UpTan {float} _.
Arguments DownTan {float} _.
Arguments LeftTan {float} _.
Arguments RightTan {float} _.

(** ** The Oculus SDK math, as an interface

    [float_lit q] is the value of a C float literal written as the decimal
    [q]; [float_of_int] is [static_cast<float>] on an [int]. *)

Class OVR_SDK := {
  float : Type;
  float_lit : Q -> float;
  float_of_int : Z -> float;

  Vector3f : Type;
  Vector3f_ctor : float -> float -> float -> Vector3f;
  Vector3f_add : Vector3f -> Vector3f -> Vector3f;

  Anglef : Type;
  Anglef_ctor : float -> Anglef;
  Anglef_Get : Anglef -> float;

  Quatf : Type;
  Quatf_axis_angle : Vector3f -> float -> Quatf;
  Quatf_mul : Quatf -> Quatf -> Quatf;
  Quatf_Rotate : Quatf -> Vector3f -> Vector3f;

  Matrix4f : Type;
  ovrMatrix4f_Projection : ovrFovPort float -> float -> float -> bool -> Matrix4f;
  Matrix4f_LookAtRH : Vector3f -> Vector3f -> Vector3f -> Matrix4f;
  Matrix4f_mul : Matrix4f -> Matrix4f -> Matrix4f;
  Matrix4f_Transposed : Matrix4f -> Matrix4f
}.

(** The free implementation of the interface: every SDK value is the tree
    of calls that produced it.  It is used to run the program on concrete
    inputs. *)
Module Sym.

Inductive sfloat :=
| Lit (q : Q)
| OfInt (z : Z)
| AngleGet (a : sfloat).

Inductive svec :=
| Vec (x y z : sfloat)
| Add (a b : svec)
| Rotate (q : squat) (v : svec)
with squat :=
| Quat (x y z w : sfloat)
| AxisAngle (axis : svec) (angle : sfloat)
| QMul (a b : squat).

Inductive smat :=
| Projection (fov : ovrFovPort sfloat) (znear zfar : sfloat) (rightHanded : bool)
| LookAtRH (eye at_ up : svec)
| Mul (a b : smat)
| Transposed (a : smat).

#[export] Instance sdk : OVR_SDK := {|
  float := sfloat;
  float_lit := Lit;
  float_of_int := OfInt;
  Vector3f := svec;
  Vector3f_ctor := Vec;
  Vector3f_add := Add;
  Anglef := sfloat;
  Anglef_ctor := fun a => a;
  Anglef_Get := AngleGet;
  Quatf := squat;
  Quatf_axis_angle := AxisAngle;
  Quatf_mul := QMul;
  Quatf_Rotate := Rotate;
  Matrix4f := smat;
  ovrMatrix4f_Projection := Projection;
  Matrix4f_LookAtRH := LookAtRH;
  Matrix4f_mul := Mul;
  Matrix4f_Transposed := Transposed
|}.

End Sym.


(** ** A writer monad for the trace of calls *)

Definition W (E A : Type) : Type := (A * list E)%type.

Definition ret {E A} (a : A) : W E A := (a, []).

Definition bind {E A B} (m : W E A) (k : A -> W E B) : W E B :=
  let r := k (fst m) in (fst r, snd m ++ snd r).

Definition emit {E} (e : E) : W E unit := (tt, [e]).

(** A call whose answer [r] comes from outside the program. *)
Definition call {E A} (e : E) (r : A) : W E A := (r, [e]).

Definition result {E A} (m : W E A) : A := fst m.
Definition trace {E A} (m : W E A) : list E := snd m.

Declare Scope prog_scope.
Delimit Scope prog_scope with prog.
Notation "x <- m ;; k" := (bind m (fun x => k))
  (at level 61, m at next level, right associativity) : prog_scope.
Notation "m ;; k" := (bind m (fun _ => k))
  (at level 61, right associativity) : prog_scope.

(** ** Win32 messages *)

(** [MSG]; only the [message] field is read by the program. *)
Record MSG := { message : Z; wParam : Z; lParam : Z }.

(** Message identifiers, from WinUser.h. *)
Definition WM_QUIT : Z := 18.
Definition WM_KEYDOWN : Z := 256.

Definition EXIT_SUCCESS : Z := 0.
Definition EXIT_FAILURE : Z := 1.

(** ** Direct3D objects and descriptors *)

(** One name per object the program obtains, after the pointer variable
    that receives it. *)
Inductive handle :=
| SwapChainObj
| DeviceObj
| ContextObj
| BackBufferObj
| BackBufferRenderTargetViewObj
| DepthStencilTextureObj
| DepthStencilViewObj
| EyeTextureObj
| EyeTextureShaderResourceViewObj
| EyeTextureRenderTargetViewObj
| IntermediaryTextureObj
| IntermediaryTextureShaderResourceViewObj
| IntermediaryTextureRenderTargetViewObj
| BlobVertexShaderObj
| VertexShaderObj
| BlobPixelShaderObj
| PixelShaderObj
| InputLayoutObj
| VertexBufferObj
| ConstantBufferObj.

Definition handle_eq_dec (a b : handle) : {a = b} + {a <> b}.
Proof. decide equality. Defined.

Definition ptr : Type := option handle.
Definition nullptr : ptr := None.

Inductive DXGI_FORMAT :=
| DXGI_FORMAT_UNKNOWN
| DXGI_FORMAT_R8G8B8A8_UNORM
| DXGI_FORMAT_D24_UNORM_S8_UINT
| DXGI_FORMAT_R32G32B32_FLOAT.

Inductive D3D11_USAGE := D3D11_USAGE_DEFAULT | D3D11_USAGE_DYNAMIC.

(** Bind flags; an or-ed mask is the list of its flags. *)
Inductive D3D11_BIND_FLAG :=
| D3D11_BIND_VERTEX_BUFFER
| D3D11_BIND_CONSTANT_BUFFER
| D3D11_BIND_SHADER_RESOURCE
| D3D11_BIND_RENDER_TARGET
| D3D11_BIND_DEPTH_STENCIL.

Inductive D3D11_CPU_ACCESS_FLAG := D3D11_CPU_ACCESS_WRITE.

Inductive D3D11_DSV_DIMENSION :=
| D3D11_DSV_DIMENSION_UNKNOWN
| D3D11_DSV_DIMENSION_TEXTURE2DMS.

(** [D3D11_TEXTURE2D_DESC]; [Width], [Height] and the counts are [UINT].
    The source clears each descriptor with [ZeroMemory] before it assigns
    fields, so a field it does not assign is zero (for [Usage],
    [D3D11_USAGE_DEFAULT]; for flags, the empty mask). *)
Record D3D11_TEXTURE2D_DESC := {
  Width : Z;
  Height : Z;
  MipLevels : Z;
  ArraySize : Z;
  Format : DXGI_FORMAT;
  SampleDesc_Count : Z;
  SampleDesc_Quality : Z;
  Usage : D3D11_USAGE;
  BindFlags : list D3D11_BIND_FLAG;
  CPUAccessFlags : list D3D11_CPU_ACCESS_FLAG;
  MiscFlags : Z
}.

Record D3D11_DEPTH_STENCIL_VIEW_DESC := {
  dsv_Format : DXGI_FORMAT;
  ViewDimension : D3D11_DSV_DIMENSION
}.

Record D3D11_BUFFER_DESC := {
  ByteWidth : Z;
  buf_Usage : D3D11_USAGE;
  buf_BindFlags : list D3D11_BIND_FLAG;
  buf_CPUAccessFlags : list D3D11_CPU_ACCESS_FLAG
}.

(** The fields of [DXGI_SWAP_CHAIN_DESC] the program sets to something
    other than zero, and [Windowed]. *)
Record DXGI_SWAP_CHAIN_DESC := {
  BufferCount : Z;
  BufferDesc_Format : DXGI_FORMAT;
  BufferDesc_Width : Z;
  BufferDesc_Height : Z;
  RefreshRate_Numerator : Z;
  RefreshRate_Denominator : Z;
  scd_SampleDesc_Count : Z;
  Windowed : bool
}.

Inductive ovrRenderAPIType := ovrRenderAPI_D3D11.

(** [ovrD3D11Texture]: the header and the two Direct3D pointers. *)
Record ovrD3D11Texture := {
  Header_API : ovrRenderAPIType;
  Header_TextureSize : ovrSizei;
  Header_RenderViewport : ovrRecti;
  pTexture : ptr;
  pSRView : ptr
}.

Definition set_RenderViewport (t : ovrD3D11Texture) (vp : ovrRecti) : ovrD3D11Texture :=
  {| Header_API := Header_API t;
     Header_TextureSize := Header_TextureSize t;
     Header_RenderViewport := vp;
     pTexture := pTexture t;
     pSRView := pSRView t |}.

Record ovrD3D11Config := {
  cfg_API : ovrRenderAPIType;
  RTSize : ovrSizei;
  Multisample : Z;
  pDevice : ptr;
  pDeviceContext : ptr;
  pBackBufferRT : ptr;
  pSwapChain : ptr
}.

Inductive ovrTrackingCaps := ovrTrackingCap_Orientation | ovrTrackingCap_Position.

Inductive ovrDistortionCaps :=
| ovrDistortionCap_Chromatic
| ovrDistortionCap_TimeWarp
| ovrDistortionCap_Vignette
| ovrDistortionCap_Overdrive.

Inductive ovrHmdCaps :=
| ovrHmdCap_LowPersistence
| ovrHmdCap_DynamicPrediction
| ovrHmdCap_NoMirrorToWindow.

Inductive D3D11_CLEAR_FLAG := D3D11_CLEAR_DEPTH | D3D11_CLEAR_STENCIL.

(** ** The embedded shader sources *)

Definition VertexShaderCode : string :=
  ("struct VS_INPUT {" ++
   "	float3 coord : POSITION;" ++
   "};" ++
   "struct PS_INPUT {" ++
   "	float4 pos : SV_Position;" ++
   "};" ++
   "cbuffer Constants {" ++
   "	float4x4 mvp;" ++
   "};" ++
   "PS_INPUT main(VS_INPUT v) {" ++
   "	PS_INPUT pi;" ++
   "	pi.pos = mul(mvp, float4(v.coord, 1.0));" ++
   "	return pi;" ++
   "}")%string.

Definition PixelShaderCode : string :=
  ("struct PS_INPUT {" ++
   "	float4 pos : SV_Position;" ++
   "};" ++
   "float4 main(PS_INPUT pi) :SV_Target{" ++
   "	return float4(1, 0.8f, 0.8f, 1);" ++
   "}")%string.

Definition ClassName : string := "SimpleOVR_D3D11"%string.

Inductive WINDOW_STYLE := WS_OVERLAPPEDWINDOW | WS_VISIBLE.
Inductive D3D_FEATURE_LEVEL := D3D_FEATURE_LEVEL_11_0 | D3D_FEATURE_LEVEL_10_1.
Inductive D3D11_MAP := D3D11_MAP_WRITE_DISCARD.
Inductive D3D_PRIMITIVE_TOPOLOGY := D3D_PRIMITIVE_TOPOLOGY_TRIANGLELIST.

(** [sizeof(float)] and [sizeof(Vertex)] ([float Position[3]]). *)
Definition sizeof_float : Z := 4.
Definition sizeof_Vertex : Z := 3 * sizeof_float.

(** ** The program *)

Section Program.

Context {sdk : OVR_SDK}.

(** [const int MultisampleCount = 4; // Set to 1 to disable multisampling].
    The program text is the same for every value of this constant, which
    is therefore a parameter of the model. *)
Variable MultisampleCount : Z.

Definition PixelsPerDisplayPixel : float := float_lit 1.

Definition RightVector : Vector3f := Vector3f_ctor (float_lit 1) (float_lit 0) (float_lit 0).
Definition UpVector : Vector3f := Vector3f_ctor (float_lit 0) (float_lit 1) (float_lit 0).
Definition ForwardVector : Vector3f := Vector3f_ctor (float_lit 0) (float_lit 0) (float_lit (-1)).

Definition BodyPosition : Vector3f :=
  Vector3f_ctor (float_lit (1 # 2)) (float_lit (1 # 2)) (float_lit 0).
Definition BodyYaw : Anglef := Anglef_ctor (float_lit (9 # 10)).

(** The fields of [ovrHmdDesc] the program reads. *)
Record ovrHmdDesc := {
  DefaultEyeFov : array2 (ovrFovPort float);
  Resolution : ovrSizei;
  EyeRenderOrder : array2 ovrEyeType
}.

(** The fields of [ovrEyeRenderDesc] the program reads. *)
Record ovrEyeRenderDesc := {
  Fov : ovrFovPort float;
  HmdToEyeViewOffset : Vector3f
}.

Record ovrPosef := { Orientation : Quatf; Position : Vector3f }.

(** [OVR::Posef], and its converting constructor from [ovrPosef]. *)
Record Posef := { Rotation : Quatf; Translation : Vector3f }.

Definition Posef_of_ovrPosef (p : ovrPosef) : Posef :=
  {| Rotation := Orientation p; Translation := Position p |}.

Record D3D11_VIEWPORT := {
  TopLeftX : float;
  TopLeftY : float;
  vp_Width : float;
  vp_Height : float;
  MinDepth : float;
  MaxDepth : float
}.

Record Vertex := { vtx_Position : list float }.

(** The calls the program makes, in the order of the trace.  Methods are
    recorded with the pointer they are called through ([this]); creation
    calls with the object they hand back ([out]); the single HMD session
    is left implicit in the [ovrHmd_] calls.  Arguments that are the same
    constant at every call and that no property reads (element counts of
    1, subresource indices of 0, null optional pointers) are not
    recorded. *)
Inductive event :=
(* Win32 *)
| SetProcessDPIAware
| MessageBox (text caption : string)
| LoadCursor
| RegisterClassEx (lpszClassName : string)
| CreateWindowW (lpClassName lpWindowName : string) (dwStyle : list WINDOW_STYLE)
    (X Y nWidth nHeight : Z)
| PeekMessage (removed : option MSG)
| TranslateMessage (msg : MSG)
| DispatchMessage (msg : MSG)
(* LibOVR *)
| ovr_Initialize
| ovr_Shutdown
| ovrHmd_Create (index : Z)
| ovrHmd_Destroy
| ovrHmd_ConfigureTracking (supported required : list ovrTrackingCaps)
| ovrHmd_GetFovTextureSize (eye : ovrEyeType) (fov : ovrFovPort float)
    (pixelsPerDisplayPixel : float)
| ovrHmd_ConfigureRendering (apiConfig : ovrD3D11Config)
    (distortionCaps : list ovrDistortionCaps) (eyeFovIn : array2 (ovrFovPort float))
| ovrHmd_SetEnabledCaps (hmdCaps : list ovrHmdCaps)
| ovrHmd_AttachToWindow
| ovrHmd_RecenterPose
| ovrHmd_DismissHSWDisplay
| ovrHmd_BeginFrame (frameIndex : Z)
| ovrHmd_GetEyePoses (frameIndex : Z) (hmdToEyeViewOffset : array2 Vector3f)
| ovrHmd_EndFrame (renderPose : array2 ovrPosef) (eyeTexture : array2 ovrD3D11Texture)
(* Direct3D 11 *)
| D3D11CreateDeviceAndSwapChain (levels : list D3D_FEATURE_LEVEL)
    (scd : DXGI_SWAP_CHAIN_DESC)
| GetBuffer (this : ptr) (buffer : Z) (out : handle)
| CreateRenderTargetView (this : ptr) (resource : ptr) (out : handle)
| CreateTexture2D (this : ptr) (desc : D3D11_TEXTURE2D_DESC) (out : handle)
| CreateDepthStencilView (this : ptr) (resource : ptr)
    (desc : D3D11_DEPTH_STENCIL_VIEW_DESC) (out : handle)
| CreateShaderResourceView (this : ptr) (resource : ptr) (out : handle)
| Release (this : ptr)
| D3DCompile (src : string) (entry target : string) (out : handle)
| CreateVertexShader (this : ptr) (bytecode : ptr) (out : handle)
| CreatePixelShader (this : ptr) (bytecode : ptr) (out : handle)
| CreateInputLayout (this : ptr) (semanticName : string) (format : DXGI_FORMAT)
    (numElements : Z) (bytecode : ptr) (out : handle)
| CreateBuffer (this : ptr) (desc : D3D11_BUFFER_DESC)
    (initialData : option (list Vertex)) (out : handle)
| IASetInputLayout (this : ptr) (layout : ptr)
| IASetVertexBuffers (this : ptr) (buffer : ptr) (stride offset : Z)
| IASetPrimitiveTopology (this : ptr) (topology : D3D_PRIMITIVE_TOPOLOGY)
| VSSetShader (this : ptr) (shader : ptr)
| PSSetShader (this : ptr) (shader : ptr)
| VSSetConstantBuffers (this : ptr) (buffer : ptr)
| ClearRenderTargetView (this : ptr) (view : ptr) (color : list float)
| ClearDepthStencilView (this : ptr) (view : ptr) (flags : list D3D11_CLEAR_FLAG)
    (depth : float) (stencil : Z)
| OMSetRenderTargets (this : ptr) (view : ptr) (depthStencilView : ptr)
| RSSetViewports (this : ptr) (vp : D3D11_VIEWPORT)
| Map (this : ptr) (resource : ptr) (mapType : D3D11_MAP)
| memcpy (src : Matrix4f) (count : Z)
| Unmap (this : ptr) (resource : ptr)
| Draw (this : ptr) (vertexCount startVertexLocation : Z)
| ResolveSubresource (this : ptr) (dst : ptr) (src : ptr) (format : DXGI_FORMAT).

(** What the outside world answers. *)
Record Env := {
  (** [ovrHmd_Create(0)]: the device, or [None] for [nullptr]. *)
  hmd : option ovrHmdDesc;
  (** [ovrHmd_GetFovTextureSize]. *)
  fovTextureSize : ovrEyeType -> ovrFovPort float -> float -> ovrSizei;
  (** The [eyeRenderDescOut] of [ovrHmd_ConfigureRendering]. *)
  eyeRenderDesc : array2 (ovrFovPort float) -> array2 ovrEyeRenderDesc;
  (** The messages [PeekMessage] hands out before it reports an empty
      queue, in the n-th iteration of the frame loop. *)
  messages : nat -> list MSG;
  (** The poses [ovrHmd_GetEyePoses] writes in the n-th iteration. *)
  eyePoses : nat -> array2 ovrPosef
}.

Variable env : Env.

Local Open Scope prog_scope.

(** A creation call that hands back its object.  The call that hands back
    nothing is [Unchecked.create] and [Unchecked.create_through]. *)
Definition create (mk : handle -> event) (obj : handle) : W event ptr :=
  call (mk obj) (Some obj).

Definition is_nonnull (p : ptr) : bool :=
  match p with Some _ => true | None => false end.

Definition when (b : bool) (m : W event unit) : W event unit :=
  if b then m else ret tt.

(** *** The scene: globals, [SetupScene], [DestroyScene] *)

Record SceneGlobals := {
  g_d3dInputLayout : ptr;
  g_d3dVertexShader : ptr;
  g_d3dPixelShader : ptr;
  g_d3dConstantBuffer : ptr;
  g_d3dVertexBuffer : ptr
}.

Definition vertices : list Vertex :=
  [ {| vtx_Position := [float_lit (-1); float_lit (-1); float_lit (-1 # 2)] |};
    {| vtx_Position := [float_lit (-1); float_lit 1; float_lit (-3 # 2)] |};
    {| vtx_Position := [float_lit 1; float_lit (-1); float_lit (-1 # 2)] |} ].

Definition SetupScene (d3dDevice d3dContext : ptr) : W event (ptr * SceneGlobals) :=
  d3dBlobVertexShader <-
    create (D3DCompile VertexShaderCode "main" "vs_4_0") BlobVertexShaderObj;;
  d3dVertexShader <-
    create (CreateVertexShader d3dDevice d3dBlobVertexShader) VertexShaderObj;;
  d3dBlobPixelShader <-
    create (D3DCompile PixelShaderCode "main" "ps_4_0") BlobPixelShaderObj;;
  d3dPixelShader <-
    create (CreatePixelShader d3dDevice d3dBlobPixelShader) PixelShaderObj;;
  d3dInputLayout <-
    create (CreateInputLayout d3dDevice "POSITION" DXGI_FORMAT_R32G32B32_FLOAT 1
              d3dBlobVertexShader) InputLayoutObj;;
  let vbDesc := {| ByteWidth := sizeof_Vertex * Z.of_nat (List.length vertices);
                   buf_Usage := D3D11_USAGE_DEFAULT;
                   buf_BindFlags := [D3D11_BIND_VERTEX_BUFFER];
                   buf_CPUAccessFlags := [] |} in
  d3dVertexBuffer <-
    create (CreateBuffer d3dDevice vbDesc (Some vertices)) VertexBufferObj;;
  let cbDesc := {| ByteWidth := sizeof_float * 16;
                   buf_Usage := D3D11_USAGE_DYNAMIC;
                   buf_BindFlags := [D3D11_BIND_CONSTANT_BUFFER];
                   buf_CPUAccessFlags := [D3D11_CPU_ACCESS_WRITE] |} in
  d3dConstantBuffer <-
    create (CreateBuffer d3dDevice cbDesc None) ConstantBufferObj;;
  let stride := sizeof_Vertex in
  let offset := 0 in
  emit (IASetInputLayout d3dContext d3dInputLayout);;
  emit (IASetVertexBuffers d3dContext d3dVertexBuffer stride offset);;
  emit (IASetPrimitiveTopology d3dContext D3D_PRIMITIVE_TOPOLOGY_TRIANGLELIST);;
  emit (VSSetShader d3dContext d3dVertexShader);;
  emit (PSSetShader d3dContext d3dPixelShader);;
  emit (VSSetConstantBuffers d3dContext d3dConstantBuffer);;
  emit (Release d3dBlobPixelShader);;
  emit (Release d3dBlobVertexShader);;
  ret (d3dConstantBuffer,
       {| g_d3dInputLayout := d3dInputLayout;
          g_d3dVertexShader := d3dVertexShader;
          g_d3dPixelShader := d3dPixelShader;
          g_d3dConstantBuffer := d3dConstantBuffer;
          g_d3dVertexBuffer := d3dVertexBuffer |}).

Definition DestroyScene (G : SceneGlobals) : W event unit :=
  emit (Release (g_d3dConstantBuffer G));;
  emit (Release (g_d3dVertexBuffer G));;
  emit (Release (g_d3dInputLayout G));;
  emit (Release (g_d3dVertexShader G));;
  emit (Release (g_d3dPixelShader G)).

(** *** WinMain: local variables *)

(** The local variables of [WinMain] that are live in the frame loop and
    in the cleanup part, and the scene's globals. *)
Record Locals := {
  vrHmd : ovrHmdDesc;
  renderTargetSize : ovrSizei;
  vrEyeRenderViewport : array2 ovrRecti;
  vrEyeFov : array2 (ovrFovPort float);
  vrEyeRenderDesc : array2 ovrEyeRenderDesc;
  vrEyeTexture : array2 ovrD3D11Texture;
  vrHmdToEyeViewOffset : array2 Vector3f;
  d3dSwapChain : ptr;
  d3dDevice : ptr;
  d3dContext : ptr;
  d3dBackBufferRenderTargetView : ptr;
  d3dDepthStencilTexture : ptr;
  d3dDepthStencilView : ptr;
  d3dEyeTexture : ptr;
  d3dEyeTextureRenderTargetView : ptr;
  d3dEyeTextureShaderResourceView : ptr;
  d3dIntermediaryTexture : ptr;
  d3dIntermediaryTextureRenderTargetView : ptr;
  d3dIntermediaryTextureShaderResourceView : ptr;
  d3dConstantBuffer : ptr;
  globals : SceneGlobals
}.

(** *** WinMain: sizes and viewports (source lines 176-183) *)

Definition make_renderTargetSize (ovrEyeDimsLeft ovrEyeDimsRight : ovrSizei) : ovrSizei :=
  {| w := CInt.add (w ovrEyeDimsLeft) (w ovrEyeDimsRight);
     h := CInt.max (h ovrEyeDimsLeft) (h ovrEyeDimsRight) |}.

Definition make_vrEyeRenderViewport (renderTargetSize : ovrSizei) : array2 ovrRecti :=
  let vp0 := {| Pos := {| x := 0; y := 0 |};
                Size := {| w := CInt.div (w renderTargetSize) 2;
                           h := h renderTargetSize |} |} in
  let vp1 := {| Pos := {| x := CInt.div (CInt.add (w renderTargetSize) 1) 2; y := 0 |};
                Size := Size vp0 |} in
  Array2 vp0 vp1.

(** *** WinMain: texture descriptors (source lines 279-351) *)

Definition make_dtd (renderTargetSize : ovrSizei) : D3D11_TEXTURE2D_DESC := {|
  Width := CInt.to_UINT (w renderTargetSize);
  Height := CInt.to_UINT (h renderTargetSize);
  MipLevels := 1;
  ArraySize := 1;
  Format := DXGI_FORMAT_D24_UNORM_S8_UINT;
  SampleDesc_Count := CInt.to_UINT MultisampleCount;
  SampleDesc_Quality := 0;
  Usage := D3D11_USAGE_DEFAULT;
  BindFlags := [D3D11_BIND_DEPTH_STENCIL];
  CPUAccessFlags := [];
  MiscFlags := 0
|}.

Definition make_texdesc (renderTargetSize : ovrSizei) : D3D11_TEXTURE2D_DESC := {|
  Width := CInt.to_UINT (w renderTargetSize);
  Height := CInt.to_UINT (h renderTargetSize);
  MipLevels := 1;
  ArraySize := 1;
  Format := DXGI_FORMAT_R8G8B8A8_UNORM;
  SampleDesc_Count := CInt.to_UINT MultisampleCount;
  SampleDesc_Quality := 0;
  Usage := D3D11_USAGE_DEFAULT;
  BindFlags := [D3D11_BIND_SHADER_RESOURCE; D3D11_BIND_RENDER_TARGET];
  CPUAccessFlags := [];
  MiscFlags := 0
|}.

(** The inner [texdesc] of the multisampling branch. *)
Definition make_intermediary_texdesc (renderTargetSize : ovrSizei) : D3D11_TEXTURE2D_DESC := {|
  Width := CInt.to_UINT (w renderTargetSize);
  Height := CInt.to_UINT (h renderTargetSize);
  MipLevels := 1;
  ArraySize := 1;
  Format := DXGI_FORMAT_R8G8B8A8_UNORM;
  SampleDesc_Count := 1;
  SampleDesc_Quality := 0;
  Usage := D3D11_USAGE_DEFAULT;
  BindFlags := [D3D11_BIND_SHADER_RESOURCE; D3D11_BIND_RENDER_TARGET];
  CPUAccessFlags := [];
  MiscFlags := 0
|}.

Definition make_vrEyeTexture (renderTargetSize : ovrSizei)
    (vrEyeRenderViewport : array2 ovrRecti)
    (d3dEyeTexture d3dEyeTextureShaderResourceView : ptr)
    (d3dIntermediaryTexture d3dIntermediaryTextureShaderResourceView : ptr)
  : array2 ovrD3D11Texture :=
  let tex0 :=
    if 1 <? MultisampleCount then
      {| Header_API := ovrRenderAPI_D3D11;
         Header_TextureSize := renderTargetSize;
         Header_RenderViewport := at2 vrEyeRenderViewport 0;
         pTexture := d3dIntermediaryTexture;
         pSRView := d3dIntermediaryTextureShaderResourceView |}
    else
      {| Header_API := ovrRenderAPI_D3D11;
         Header_TextureSize := renderTargetSize;
         Header_RenderViewport := at2 vrEyeRenderViewport 0;
         pTexture := d3dEyeTexture;
         pSRView := d3dEyeTextureShaderResourceView |} in
  (* vrEyeTexture[1] = vrEyeTexture[0]; then its RenderViewport is assigned *)
  let tex1 := tex0 in
  let tex1 := set_RenderViewport tex1 (at2 vrEyeRenderViewport 1) in
  Array2 tex0 tex1.

(** *** WinMain: setup, from ConfigureTracking to SetupScene *)

Definition setup (vrHmd : ovrHmdDesc) : W event Locals :=
  emit (ovrHmd_ConfigureTracking
          [ovrTrackingCap_Orientation; ovrTrackingCap_Position] []);;
  ovrEyeDimsLeft <-
    (let fov := at2 (DefaultEyeFov vrHmd) 0 in
     call (ovrHmd_GetFovTextureSize ovrEye_Left fov PixelsPerDisplayPixel)
          (fovTextureSize env ovrEye_Left fov PixelsPerDisplayPixel));;
  ovrEyeDimsRight <-
    (let fov := at2 (DefaultEyeFov vrHmd) 0 in
     call (ovrHmd_GetFovTextureSize ovrEye_Right fov PixelsPerDisplayPixel)
          (fovTextureSize env ovrEye_Right fov PixelsPerDisplayPixel));;
  let renderTargetSize := make_renderTargetSize ovrEyeDimsLeft ovrEyeDimsRight in
  let vrEyeRenderViewport := make_vrEyeRenderViewport renderTargetSize in
  let vrEyeFov := Array2 (at2 (DefaultEyeFov vrHmd) 0) (at2 (DefaultEyeFov vrHmd) 1) in
  (* Windows-specific initialization part *)
  emit LoadCursor;;
  emit (RegisterClassEx ClassName);;
  emit (CreateWindowW ClassName "SimpleOVR - D3D11"
          [WS_OVERLAPPEDWINDOW; WS_VISIBLE] 0 0 1280 720);;
  (* D3D11 initialization *)
  let scd := {| BufferCount := 1;
                BufferDesc_Format := DXGI_FORMAT_R8G8B8A8_UNORM;
                BufferDesc_Width := CInt.to_UINT (w (Resolution vrHmd));
                BufferDesc_Height := CInt.to_UINT (h (Resolution vrHmd));
                RefreshRate_Numerator := 0;
                RefreshRate_Denominator := 1;
                scd_SampleDesc_Count := CInt.to_UINT MultisampleCount;
                Windowed := false |} in
  emit (D3D11CreateDeviceAndSwapChain
          [D3D_FEATURE_LEVEL_11_0; D3D_FEATURE_LEVEL_10_1] scd);;
  let d3dSwapChain := Some SwapChainObj in
  let d3dDevice := Some DeviceObj in
  let d3dContext := Some ContextObj in
  pBackBuffer <- create (GetBuffer d3dSwapChain 0) BackBufferObj;;
  d3dBackBufferRenderTargetView <-
    create (CreateRenderTargetView d3dDevice pBackBuffer) BackBufferRenderTargetViewObj;;
  emit (Release pBackBuffer);;
  let dtd := make_dtd renderTargetSize in
  d3dDepthStencilTexture <-
    create (CreateTexture2D d3dDevice dtd) DepthStencilTextureObj;;
  let dsvDesc := {| dsv_Format := Format dtd;
                    ViewDimension := D3D11_DSV_DIMENSION_TEXTURE2DMS |} in
  d3dDepthStencilView <-
    create (CreateDepthStencilView d3dDevice d3dDepthStencilTexture dsvDesc)
           DepthStencilViewObj;;
  let texdesc := make_texdesc renderTargetSize in
  d3dEyeTexture <- create (CreateTexture2D d3dDevice texdesc) EyeTextureObj;;
  d3dEyeTextureShaderResourceView <-
    create (CreateShaderResourceView d3dDevice d3dEyeTexture)
           EyeTextureShaderResourceViewObj;;
  d3dEyeTextureRenderTargetView <-
    create (CreateRenderTargetView d3dDevice d3dEyeTexture)
           EyeTextureRenderTargetViewObj;;
  intermediary <-
    (if 1 <? MultisampleCount then
       let texdesc := make_intermediary_texdesc renderTargetSize in
       d3dIntermediaryTexture <-
         create (CreateTexture2D d3dDevice texdesc) IntermediaryTextureObj;;
       d3dIntermediaryTextureShaderResourceView <-
         create (CreateShaderResourceView d3dDevice d3dIntermediaryTexture)
                IntermediaryTextureShaderResourceViewObj;;
       d3dIntermediaryTextureRenderTargetView <-
         create (CreateRenderTargetView d3dDevice d3dIntermediaryTexture)
                IntermediaryTextureRenderTargetViewObj;;
       ret (d3dIntermediaryTexture,
            d3dIntermediaryTextureRenderTargetView,
            d3dIntermediaryTextureShaderResourceView)
     else ret (nullptr, nullptr, nullptr));;
  let d3dIntermediaryTexture := fst (fst intermediary) in
  let d3dIntermediaryTextureRenderTargetView := snd (fst intermediary) in
  let d3dIntermediaryTextureShaderResourceView := snd intermediary in
  let vrEyeTexture :=
    make_vrEyeTexture renderTargetSize vrEyeRenderViewport
      d3dEyeTexture d3dEyeTextureShaderResourceView
      d3dIntermediaryTexture d3dIntermediaryTextureShaderResourceView in
  let vrRenderConfiguration :=
    {| cfg_API := ovrRenderAPI_D3D11;
       RTSize := Resolution vrHmd;
       Multisample := MultisampleCount;
       pDevice := d3dDevice;
       pDeviceContext := d3dContext;
       pBackBufferRT := d3dBackBufferRenderTargetView;
       pSwapChain := d3dSwapChain |} in
  vrEyeRenderDesc <-
    call (ovrHmd_ConfigureRendering vrRenderConfiguration
            [ovrDistortionCap_Chromatic; ovrDistortionCap_TimeWarp;
             ovrDistortionCap_Overdrive; ovrDistortionCap_Vignette] vrEyeFov)
         (eyeRenderDesc env vrEyeFov);;
  emit (ovrHmd_SetEnabledCaps
          [ovrHmdCap_LowPersistence; ovrHmdCap_DynamicPrediction;
           ovrHmdCap_NoMirrorToWindow]);;
  emit ovrHmd_AttachToWindow;;
  let vrHmdToEyeViewOffset :=
    Array2 (HmdToEyeViewOffset (at2 vrEyeRenderDesc 0))
           (HmdToEyeViewOffset (at2 vrEyeRenderDesc 1)) in
  scene <- SetupScene d3dDevice d3dContext;;
  ret {| vrHmd := vrHmd;
         renderTargetSize := renderTargetSize;
         vrEyeRenderViewport := vrEyeRenderViewport;
         vrEyeFov := vrEyeFov;
         vrEyeRenderDesc := vrEyeRenderDesc;
         vrEyeTexture := vrEyeTexture;
         vrHmdToEyeViewOffset := vrHmdToEyeViewOffset;
         d3dSwapChain := d3dSwapChain;
         d3dDevice := d3dDevice;
         d3dContext := d3dContext;
         d3dBackBufferRenderTargetView := d3dBackBufferRenderTargetView;
         d3dDepthStencilTexture := d3dDepthStencilTexture;
         d3dDepthStencilView := d3dDepthStencilView;
         d3dEyeTexture := d3dEyeTexture;
         d3dEyeTextureRenderTargetView := d3dEyeTextureRenderTargetView;
         d3dEyeTextureShaderResourceView := d3dEyeTextureShaderResourceView;
         d3dIntermediaryTexture := d3dIntermediaryTexture;
         d3dIntermediaryTextureRenderTargetView := d3dIntermediaryTextureRenderTargetView;
         d3dIntermediaryTextureShaderResourceView := d3dIntermediaryTextureShaderResourceView;
         d3dConstantBuffer := fst scene;
         globals := snd scene |}.

(** *** WinMain: the message pump (source lines 383-397)

    [pump msgs keepRunning] is the inner [while (PeekMessage(...))] loop
    when the queue hands out [msgs] and then reports that it is empty; it
    returns the new value of [keepRunning]. *)
Fixpoint pump (msgs : list MSG) (keepRunning : bool) : W event bool :=
  match msgs with
  | [] => emit (PeekMessage None);; ret keepRunning
  | msg :: rest =>
      emit (PeekMessage (Some msg));;
      let keepRunning := if message msg =? WM_QUIT then false else keepRunning in
      when (message msg =? WM_KEYDOWN)
        (emit ovrHmd_RecenterPose;; emit ovrHmd_DismissHSWDisplay);;
      emit (TranslateMessage msg);;
      emit (DispatchMessage msg);;
      pump rest keepRunning
  end.

(** *** WinMain: the rendering part (source lines 399-466) *)

(** The body of [for (int i = 0; i < 2; i++)]. *)
Definition render_eye (L : Locals) (vrEyeRenderPose : array2 ovrPosef) (i : nat)
  : W event unit :=
  let eye := eye_index (at2 (EyeRenderOrder (vrHmd L)) i) in
  let vp := {| vp_Width := float_of_int (w (Size (at2 (vrEyeRenderViewport L) eye)));
               vp_Height := float_of_int (h (Size (at2 (vrEyeRenderViewport L) eye)));
               TopLeftX := float_of_int (x (Pos (at2 (vrEyeRenderViewport L) eye)));
               TopLeftY := float_of_int (y (Pos (at2 (vrEyeRenderViewport L) eye)));
               MinDepth := float_lit 0;
               MaxDepth := float_lit 1 |} in
  emit (RSSetViewports (d3dContext L) vp);;
  let currentEyePose := Posef_of_ovrPosef (at2 vrEyeRenderPose eye) in
  let projection :=
    ovrMatrix4f_Projection (Fov (at2 (vrEyeRenderDesc L) eye))
      (float_lit (1 # 100)) (float_lit 10000) true in
  let quatBodyRotation := Quatf_axis_angle UpVector (Anglef_Get BodyYaw) in
  let worldPose :=
    {| Rotation := Quatf_mul quatBodyRotation (Rotation currentEyePose);
       Translation :=
         Vector3f_add BodyPosition
           (Quatf_Rotate quatBodyRotation (Translation currentEyePose)) |} in
  let up := Quatf_Rotate (Rotation worldPose) UpVector in
  let forward := Quatf_Rotate (Rotation worldPose) ForwardVector in
  let view :=
    Matrix4f_LookAtRH (Translation worldPose)
      (Vector3f_add (Translation worldPose) forward) up in
  let mvp := Matrix4f_mul projection view in
  let transposedMvp := Matrix4f_Transposed mvp in
  emit (Map (d3dContext L) (d3dConstantBuffer L) D3D11_MAP_WRITE_DISCARD);;
  emit (memcpy transposedMvp (sizeof_float * 16));;
  emit (Unmap (d3dContext L) (d3dConstantBuffer L));;
  emit (Draw (d3dContext L) 3 0).

(** One pass of the rendering part, in the n-th iteration of the loop. *)
Definition render_frame (L : Locals) (n : nat) : W event unit :=
  emit (ovrHmd_BeginFrame 0);;
  vrEyeRenderPose <-
    call (ovrHmd_GetEyePoses 0 (vrHmdToEyeViewOffset L)) (eyePoses env n);;
  let f := [float_lit (2 # 10); float_lit (3 # 10); float_lit (2 # 10); float_lit 1] in
  emit (ClearRenderTargetView (d3dContext L) (d3dEyeTextureRenderTargetView L) f);;
  emit (ClearDepthStencilView (d3dContext L) (d3dDepthStencilView L)
          [D3D11_CLEAR_DEPTH; D3D11_CLEAR_STENCIL] (float_lit 1) 0);;
  emit (OMSetRenderTargets (d3dContext L) (d3dEyeTextureRenderTargetView L)
          (d3dDepthStencilView L));;
  render_eye L vrEyeRenderPose 0;;
  render_eye L vrEyeRenderPose 1;;
  when (1 <? MultisampleCount)
    (emit (ResolveSubresource (d3dContext L) (d3dIntermediaryTexture L)
             (d3dEyeTexture L) DXGI_FORMAT_R8G8B8A8_UNORM));;
  emit (ovrHmd_EndFrame vrEyeRenderPose (vrEyeTexture L)).

(** *** WinMain: the frame loop (source lines 380-467)

    [frame_loop L fuel n keepRunning] runs [while (keepRunning)] from its
    n-th test of the flag on, for at most [fuel] iterations.  The result
    is [true] when the loop has been left and [false] when the iterations
    allowed by [fuel] are used up with the loop still running. *)
Fixpoint frame_loop (L : Locals) (fuel n : nat) (keepRunning : bool) : W event bool :=
  if keepRunning then
    match fuel with
    | O => ret false
    | S fuel' =>
        keepRunning <- pump (messages env n) keepRunning;;
        render_frame L n;;
        frame_loop L fuel' (S n) keepRunning
    end
  else ret true.

(** *** WinMain: the cleanup part (source lines 473-493) *)

Definition cleanup (L : Locals) : W event unit :=
  DestroyScene (globals L);;
  when (is_nonnull (d3dIntermediaryTextureShaderResourceView L))
    (emit (Release (d3dIntermediaryTextureShaderResourceView L)));;
  when (is_nonnull (d3dIntermediaryTextureRenderTargetView L))
    (emit (Release (d3dIntermediaryTextureRenderTargetView L)));;
  when (is_nonnull (d3dIntermediaryTexture L))
    (emit (Release (d3dIntermediaryTexture L)));;
  emit (Release (d3dDepthStencilView L));;
  emit (Release (d3dDepthStencilTexture L));;
  emit (Release (d3dEyeTextureRenderTargetView L));;
  emit (Release (d3dEyeTextureShaderResourceView L));;
  emit (Release (d3dEyeTexture L));;
  emit (Release (d3dBackBufferRenderTargetView L));;
  emit (Release (d3dSwapChain L));;
  emit (Release (d3dContext L));;
  emit (Release (d3dDevice L));;
  emit ovrHmd_Destroy;;
  emit ovr_Shutdown.

(** *** WinMain

    The result is the exit status, or [None] when [fuel] iterations of
    the frame loop did not see the loop end. *)
Definition WinMain (fuel : nat) : W event (option Z) :=
  emit SetProcessDPIAware;;
  emit ovr_Initialize;;
  vrHmd <- call (ovrHmd_Create 0) (hmd env);;
  match vrHmd with
  | None =>
      emit (MessageBox
              "Failed initializing HMD, make sure it is connected and turned on."
              "LibOVR error");;
      emit ovr_Shutdown;;
      ret (Some EXIT_FAILURE)
  | Some vrHmd =>
      L <- setup vrHmd;;
      left_loop <- frame_loop L fuel 0 true;;
      if left_loop then
        cleanup L;;
        ret (Some EXIT_SUCCESS)
      else ret None
  end.

End Program.

Arguments Locals {sdk}.
Arguments Env {sdk}.
Arguments event {sdk}.
Arguments ovrHmdDesc {sdk}.
Arguments ovrPosef {sdk}.
Arguments ovrEyeRenderDesc {sdk}.

(** The value of [MultisampleCount] in the source. *)
Definition MultisampleCount_source : Z := 4.

(** ** Reading a trace *)

Section Reading.

Context {sdk : OVR_SDK}.

(** The number of events of a trace that satisfy [p]. *)
Definition count (p : event -> bool) (t : list event) : nat :=
  List.length (filter p t).

Definition is_BeginFrame (e : event) : bool :=
  match e with ovrHmd_BeginFrame _ => true | _ => false end.

Definition is_EndFrame (e : event) : bool :=
  match e with ovrHmd_EndFrame _ _ => true | _ => false end.

Definition is_Draw (e : event) : bool :=
  match e with Draw _ _ _ => true | _ => false end.

Definition is_Resolve (e : event) : bool :=
  match e with ResolveSubresource _ _ _ _ => true | _ => false end.

Definition is_RecenterPose (e : event) : bool :=
  match e with ovrHmd_RecenterPose => true | _ => false end.

Definition is_DismissHSWDisplay (e : event) : bool :=
  match e with ovrHmd_DismissHSWDisplay => true | _ => false end.

Definition is_GetFovTextureSize (e : event) : bool :=
  match e with ovrHmd_GetFovTextureSize _ _ _ => true | _ => false end.

(** A message taken off the queue whose identifier is [id]. *)
Definition is_drained (id : Z) (e : event) : bool :=
  match e with
  | PeekMessage (Some msg) => message msg =? id
  | _ => false
  end.

(** The events of the frame loop: message pump and rendering part. *)
Definition is_loop_event (e : event) : bool :=
  match e with
  | PeekMessage _ | TranslateMessage _ | DispatchMessage _
  | ovrHmd_RecenterPose | ovrHmd_DismissHSWDisplay
  | ovrHmd_BeginFrame _ | ovrHmd_GetEyePoses _ _ | ovrHmd_EndFrame _ _
  | ClearRenderTargetView _ _ _ | ClearDepthStencilView _ _ _ _ _
  | OMSetRenderTargets _ _ _ | RSSetViewports _ _
  | Map _ _ _ | memcpy _ _ | Unmap _ _ | Draw _ _ _
  | ResolveSubresource _ _ _ _ => true
  | _ => false
  end.

(** The Direct3D objects a call hands to the program, in the order of
    its output parameters. *)
Definition acquires (e : event) : list handle :=
  match e with
  | D3D11CreateDeviceAndSwapChain _ _ => [SwapChainObj; DeviceObj; ContextObj]
  | GetBuffer _ _ out => [out]
  | CreateRenderTargetView _ _ out => [out]
  | CreateTexture2D _ _ out => [out]
  | CreateDepthStencilView _ _ _ out => [out]
  | CreateShaderResourceView _ _ out => [out]
  | D3DCompile _ _ _ out => [out]
  | CreateVertexShader _ _ out => [out]
  | CreatePixelShader _ _ out => [out]
  | CreateInputLayout _ _ _ _ _ out => [out]
  | CreateBuffer _ _ _ out => [out]
  | _ => []
  end.

(** The Direct3D object a call gives up. *)
Definition releases (e : event) : list handle :=
  match e with
  | Release (Some obj) => [obj]
  | _ => []
  end.

Definition acquisition_order (t : list event) : list handle := flat_map acquires t.
Definition release_order (t : list event) : list handle := flat_map releases t.

(** *** The message stream *)

Definition quit_in (msgs : list MSG) : bool :=
  existsb (fun msg => message msg =? WM_QUIT) msgs.

(** The first batch of messages that holds a WM_QUIT is the k-th. *)
Definition first_quit (env : Env) (k : nat) : Prop :=
  quit_in (messages env k) = true /\
  forall i, (i < k)%nat -> quit_in (messages env i) = false.

(** The calls made for one message taken off the queue. *)
Definition msg_events (msg : MSG) : list event :=
  [PeekMessage (Some msg)] ++
  (if message msg =? WM_KEYDOWN
   then [ovrHmd_RecenterPose; ovrHmd_DismissHSWDisplay] else []) ++
  [TranslateMessage msg; DispatchMessage msg].

(** *** The per-eye work, in the words of the specification

    Step 5 of the stereo frame submission sequence, for the eye [eye]:
    viewport, projection from the eye's field of view with near plane 0.01
    and far plane 10000, world pose from the body yaw 0.9 about the up axis
    and the body position (0.5, 0.5, 0), right-handed look-at view,
    projection times view, transposed, uploaded, and a draw of 3
    vertices. *)

Definition spec_viewport (r : ovrRecti) : D3D11_VIEWPORT :=
  {| TopLeftX := float_of_int (x (Pos r));
     TopLeftY := float_of_int (y (Pos r));
     vp_Width := float_of_int (w (Size r));
     vp_Height := float_of_int (h (Size r));
     MinDepth := float_lit 0;
     MaxDepth := float_lit 1 |}.

Definition spec_body_yaw : Quatf :=
  Quatf_axis_angle
    (Vector3f_ctor (float_lit 0) (float_lit 1) (float_lit 0))
    (Anglef_Get (Anglef_ctor (float_lit (9 # 10)))).

Definition spec_world_rotation (tracked : ovrPosef) : Quatf :=
  Quatf_mul spec_body_yaw (Orientation tracked).

Definition spec_world_translation (tracked : ovrPosef) : Vector3f :=
  Vector3f_add
    (Vector3f_ctor (float_lit (1 # 2)) (float_lit (1 # 2)) (float_lit 0))
    (Quatf_Rotate spec_body_yaw (Position tracked)).

Definition spec_view (tracked : ovrPosef) : Matrix4f :=
  Matrix4f_LookAtRH
    (spec_world_translation tracked)
    (Vector3f_add (spec_world_translation tracked)
       (Quatf_Rotate (spec_world_rotation tracked)
          (Vector3f_ctor (float_lit 0) (float_lit 0) (float_lit (-1)))))
    (Quatf_Rotate (spec_world_rotation tracked)
       (Vector3f_ctor (float_lit 0) (float_lit 1) (float_lit 0))).

Definition spec_transform (fov : ovrFovPort float) (tracked : ovrPosef) : Matrix4f :=
  Matrix4f_Transposed
    (Matrix4f_mul
       (ovrMatrix4f_Projection fov (float_lit (1 # 100)) (float_lit 10000) true)
       (spec_view tracked)).

Definition spec_eye_events (L : Locals) (poses : array2 ovrPosef) (eye : ovrEyeType)
  : list event :=
  [ RSSetViewports (d3dContext L)
      (spec_viewport (at2 (vrEyeRenderViewport L) (eye_index eye)));
    Map (d3dContext L) (d3dConstantBuffer L) D3D11_MAP_WRITE_DISCARD;
    memcpy (spec_transform (Fov (at2 (vrEyeRenderDesc L) (eye_index eye)))
              (at2 poses (eye_index eye))) 64;
    Unmap (d3dContext L) (d3dConstantBuffer L);
    Draw (d3dContext L) 3 0 ].

End Reading.

(** ** The shape of a run *)

Section Shape.

Context {sdk : OVR_SDK}.
Variable MultisampleCount : Z.
Variable env : Env.

(** The number of iterations of [while (keepRunning)] that [fuel] lets
    the loop make when it is entered at its n-th iteration: it stops one
    iteration after the first batch with a WM_QUIT. *)
Fixpoint iterations (fuel n : nat) : nat :=
  match fuel with
  | O => O
  | S fuel' =>
      if quit_in (messages env n) then 1%nat
      else S (iterations fuel' (S n))
  end.

(** Whether the loop is left within [fuel] iterations. *)
Fixpoint loop_left (fuel n : nat) : bool :=
  match fuel with
  | O => false
  | S fuel' =>
      if quit_in (messages env n) then true else loop_left fuel' (S n)
  end.

(** The calls of the n-th iteration: message pump, then rendering part. *)
Definition iteration_trace (L : Locals) (n : nat) : list event :=
  trace (pump (messages env n) true) ++ trace (render_frame MultisampleCount env L n).

(** The values of WinMain's locals after setup. *)
Definition locals (vrHmd : ovrHmdDesc) : Locals :=
  result (setup MultisampleCount env vrHmd).

(** The sizes the two [ovrHmd_GetFovTextureSize] calls return. *)
Definition ovrEyeDimsLeft (vrHmd : ovrHmdDesc) : ovrSizei :=
  fovTextureSize env ovrEye_Left (at2 (DefaultEyeFov vrHmd) 0) PixelsPerDisplayPixel.

Definition ovrEyeDimsRight (vrHmd : ovrHmdDesc) : ovrSizei :=
  fovTextureSize env ovrEye_Right (at2 (DefaultEyeFov vrHmd) 0) PixelsPerDisplayPixel.

End Shape.

(** ** A concrete run

    An HMD with mirrored per-eye fields of view that asks for the right
    eye to be rendered first, and a user who presses a key and closes the
    window during the second iteration of the loop. *)

Module Example.

#[local] Existing Instance Sym.sdk.

Definition fov_left : ovrFovPort Sym.sfloat :=
  {| UpTan := Sym.Lit (13 # 10); DownTan := Sym.Lit (13 # 10);
     LeftTan := Sym.Lit (11 # 10); RightTan := Sym.Lit (9 # 10) |}.

Definition fov_right : ovrFovPort Sym.sfloat :=
  {| UpTan := Sym.Lit (13 # 10); DownTan := Sym.Lit (13 # 10);
     LeftTan := Sym.Lit (9 # 10); RightTan := Sym.Lit (11 # 10) |}.

Definition device : ovrHmdDesc :=
  {| DefaultEyeFov := Array2 fov_left fov_right;
     Resolution := {| w := 1920; h := 1080 |};
     EyeRenderOrder := Array2 ovrEye_Right ovrEye_Left |}.

Definition identity_pose : ovrPosef :=
  {| Orientation := Sym.Quat (Sym.Lit 0) (Sym.Lit 0) (Sym.Lit 0) (Sym.Lit 1);
     Position := Sym.Vec (Sym.Lit 0) (Sym.Lit 0) (Sym.Lit 0) |}.

Definition key_then_quit : list MSG :=
  [ {| message := WM_KEYDOWN; wParam := 123; lParam := 0 |};
    {| message := WM_QUIT; wParam := 0; lParam := 0 |} ].

Definition session : Env :=
  {| hmd := Some device;
     fovTextureSize := fun _ _ _ => {| w := 1182; h := 1461 |};
     eyeRenderDesc := fun fovs =>
       Array2
         {| Fov := elt0 fovs;
            HmdToEyeViewOffset := Sym.Vec (Sym.Lit (32 # 1000)) (Sym.Lit 0) (Sym.Lit 0) |}
         {| Fov := elt1 fovs;
            HmdToEyeViewOffset := Sym.Vec (Sym.Lit (-32 # 1000)) (Sym.Lit 0) (Sym.Lit 0) |};
     messages := fun n => match n with 1%nat => key_then_quit | _ => [] end;
     eyePoses := fun _ => Array2 identity_pose identity_pose |}.

(** The same, with no HMD connected. *)
Definition no_device : Env :=
  {| hmd := None;
     fovTextureSize := fovTextureSize session;
     eyeRenderDesc := eyeRenderDesc session;
     messages := messages session;
     eyePoses := eyePoses session |}.

End Example.

(** An event classifier for step 5 of the frame: the per-eye calls. *)
Definition is_eye_event {sdk : OVR_SDK} (e : event) : bool :=
  match e with
  | RSSetViewports _ _ | Map _ _ _ | memcpy _ _ | Unmap _ _ | Draw _ _ _ => true
  | _ => false
  end.

(** The events of the rendering part of an iteration. *)
Definition is_render_event {sdk : OVR_SDK} (e : event) : bool :=
  match e with
  | ovrHmd_BeginFrame _ | ovrHmd_GetEyePoses _ _ | ovrHmd_EndFrame _ _
  | ClearRenderTargetView _ _ _ | ClearDepthStencilView _ _ _ _ _
  | OMSetRenderTargets _ _ _ | RSSetViewports _ _
  | Map _ _ _ | memcpy _ _ | Unmap _ _ | Draw _ _ _
  | ResolveSubresource _ _ _ _ => true
  | _ => false
  end.

(** A message that is a key-down. *)
Definition is_keydown (msg : MSG) : bool := message msg =? WM_KEYDOWN.

(** ** The window procedure (source lines 89-97)

    [WndProc] is called by the system, not by [WinMain]; its two calls
    have a trace type of their own.  [answer] is what [DefWindowProc]
    returns. *)

Definition WM_DESTROY : Z := 2.
Definition WM_CLOSE : Z := 16.

Inductive wnd_call :=
| PostQuitMessage (nExitCode : Z)
| DefWindowProc (hwnd msg wParam lParam : Z).

Definition WndProc (answer : Z -> Z -> Z -> Z -> Z) (hwnd msg wParam lParam : Z)
  : W wnd_call Z :=
  bind (if (msg =? WM_CLOSE) || (msg =? WM_DESTROY)
        then emit (PostQuitMessage 0) else ret tt)
       (fun _ => call (DefWindowProc hwnd msg wParam lParam)
                      (answer hwnd msg wParam lParam)).

(** ** The interface pointers a call goes through or is handed *)

Definition uses {sdk : OVR_SDK} (e : event) : list ptr :=
  match e with
  | ovrHmd_ConfigureRendering cfg _ _ =>
      [pDevice cfg; pDeviceContext cfg; pBackBufferRT cfg; pSwapChain cfg]
  | ovrHmd_EndFrame _ texs =>
      [pTexture (at2 texs 0); pSRView (at2 texs 0);
       pTexture (at2 texs 1); pSRView (at2 texs 1)]
  | GetBuffer this _ _ => [this]
  | CreateRenderTargetView this resource _ => [this; resource]
  | CreateTexture2D this _ _ => [this]
  | CreateDepthStencilView this resource _ _ => [this; resource]
  | CreateShaderResourceView this resource _ => [this; resource]
  | Release this => [this]
  | CreateVertexShader this bytecode _ => [this; bytecode]
  | CreatePixelShader this bytecode _ => [this; bytecode]
  | CreateInputLayout this _ _ _ bytecode _ => [this; bytecode]
  | CreateBuffer this _ _ _ => [this]
  | IASetInputLayout this layout => [this; layout]
  | IASetVertexBuffers this buffer _ _ => [this; buffer]
  | IASetPrimitiveTopology this _ => [this]
  | VSSetShader this shader => [this; shader]
  | PSSetShader this shader => [this; shader]
  | VSSetConstantBuffers this buffer => [this; buffer]
  | ClearRenderTargetView this view _ => [this; view]
  | ClearDepthStencilView this view _ _ _ => [this; view]
  | OMSetRenderTargets this view depthStencilView => [this; view; depthStencilView]
  | RSSetViewports this _ => [this]
  | Map this resource _ => [this; resource]
  | Unmap this resource => [this; resource]
  | Draw this _ _ => [this]
  | ResolveSubresource this dst src _ => [this; dst; src]
  | _ => []
  end.

(** [p] points to an object of [live]; a null pointer does not. *)
Definition is_live (live : list handle) (p : ptr) : bool :=
  match p with
  | Some obj => if in_dec handle_eq_dec obj live then true else false
  | None => false
  end.

(** The objects the program holds after a call, from those it held
    before. *)
Definition live_after {sdk : OVR_SDK} (live : list handle) (e : event) : list handle :=
  filter (fun obj => negb (if in_dec handle_eq_dec obj (releases e) then true else false))
         (acquires e ++ live).

(** Every pointer of every call points to an object acquired before the
    call and not released since. *)
Fixpoint scoped {sdk : OVR_SDK} (live : list handle) (t : list event) : bool :=
  match t with
  | [] => true
  | e :: t' => forallb (is_live live) (uses e) && scoped (live_after live e) t'
  end.

Fixpoint live_at_end {sdk : OVR_SDK} (live : list handle) (t : list event) : list handle :=
  match t with
  | [] => live
  | e :: t' => live_at_end (live_after live e) t'
  end.

(** ** The mapping of the constant buffer

    [map_ok mapped t]: along [t], starting with the buffer mapped or not,
    a buffer is mapped only when none is, [memcpy] and [Unmap] come only
    while one is mapped, [Unmap] names the resource that was mapped,
    draws, resolves and the end of a frame come only when none is, and
    none is left mapped. *)
Fixpoint map_ok {sdk : OVR_SDK} (mapped : option ptr) (t : list event) : bool :=
  match t with
  | [] => match mapped with None => true | Some _ => false end
  | e :: t' =>
      match e, mapped with
      | Map _ resource _, None => map_ok (Some resource) t'
      | Map _ _ _, Some _ => false
      | memcpy _ _, Some _ => map_ok mapped t'
      | memcpy _ _, None => false
      | Unmap _ resource, Some held =>
          match resource, held with
          | Some a, Some b => if handle_eq_dec a b then map_ok None t' else false
          | _, _ => false
          end
      | Unmap _ _, None => false
      | Draw _ _ _, Some _ => false
      | ResolveSubresource _ _ _ _, Some _ => false
      | ovrHmd_EndFrame _ _, Some _ => false
      | _, _ => map_ok mapped t'
      end
  end.

(** ** The messages of a trace *)

Definition drained {sdk : OVR_SDK} (t : list event) : list MSG :=
  flat_map (fun e => match e with PeekMessage (Some msg) => [msg] | _ => [] end) t.

Definition translated {sdk : OVR_SDK} (t : list event) : list MSG :=
  flat_map (fun e => match e with TranslateMessage msg => [msg] | _ => [] end) t.

Definition dispatched {sdk : OVR_SDK} (t : list event) : list MSG :=
  flat_map (fun e => match e with DispatchMessage msg => [msg] | _ => [] end) t.

(** The calls into Direct3D: the creation of the device, the shader
    compiler, and the methods of Direct3D objects. *)
Definition is_d3d_event {sdk : OVR_SDK} (e : event) : bool :=
  match e with
  | D3D11CreateDeviceAndSwapChain _ _ | D3DCompile _ _ _ _ => true
  | ovrHmd_ConfigureRendering _ _ _ | ovrHmd_EndFrame _ _ => false
  | _ => match uses e with [] => false | _ :: _ => true end
  end.

(** The pixel ([cx], [cy]) lies in the rectangle [r]. *)
Definition in_viewport (r : ovrRecti) (cx cy : Z) : bool :=
  (x (Pos r) <=? cx) && (cx <? x (Pos r) + w (Size r)) &&
  (y (Pos r) <=? cy) && (cy <? y (Pos r) + h (Size r)).

Definition is_ovr_Initialize {sdk : OVR_SDK} (e : event) : bool :=
  match e with ovr_Initialize => true | _ => false end.

Definition is_ovr_Shutdown {sdk : OVR_SDK} (e : event) : bool :=
  match e with ovr_Shutdown => true | _ => false end.

Definition is_ovrHmd_Destroy {sdk : OVR_SDK} (e : event) : bool :=
  match e with ovrHmd_Destroy => true | _ => false end.

(** The calls on the HMD session, from its creation to its destruction. *)
Definition is_session_call {sdk : OVR_SDK} (e : event) : bool :=
  match e with
  | ovrHmd_ConfigureTracking _ _ | ovrHmd_GetFovTextureSize _ _ _
  | ovrHmd_ConfigureRendering _ _ _ | ovrHmd_SetEnabledCaps _
  | ovrHmd_AttachToWindow | ovrHmd_RecenterPose | ovrHmd_DismissHSWDisplay
  | ovrHmd_BeginFrame _ | ovrHmd_GetEyePoses _ _ | ovrHmd_EndFrame _ _ => true
  | _ => false
  end.

(** ** The program when creation calls may fail

    The definitions above follow the run in which every creation call
    hands back its object.  The source checks none of these calls: when
    one fails, the pointer it should have written stays [nullptr], and
    the program goes on to pass it, or to call a method through it, which
    is undefined behaviour.  The definitions of this module follow the
    same source text without that assumption.  [created obj] tells
    whether the call that should create [obj] hands it back; a call
    through a null pointer is recorded and ends the run with the outcome
    [Undefined].  A null pointer that is only handed to a call is
    recorded in the call and the run goes on.  The calls that create
    nothing are as in [WinMain]: the status codes they return are dropped
    by the source, and [Map] is taken to hand back a mapping. *)

Module Unchecked.

Inductive outcome :=
| Returned (code : Z)
| Running
| Undefined.

Section Program.

Context {sdk : OVR_SDK}.
Variable MultisampleCount : Z.
Variable env : Env.
Variable created : handle -> bool.

(** A computation that has a value unless undefined behaviour was met. *)
Definition U (A : Type) : Type := (option A * list event)%type.

Definition ret {A} (a : A) : U A := (Some a, []).

Definition bind {A B} (m : U A) (k : A -> U B) : U B :=
  match fst m with
  | Some a => let r := k a in (fst r, snd m ++ snd r)
  | None => (None, snd m)
  end.

Definition emit (e : event) : U unit := (Some tt, [e]).

Definition call {A} (e : event) (r : A) : U A := (Some r, [e]).

(** A computation that calls through no pointer. *)
Definition lift {A} (m : W event A) : U A := (Some (fst m), snd m).

(** [p->method(...)], recorded as [e]. *)
Definition through (p : ptr) (e : event) : U unit :=
  match p with
  | Some _ => (Some tt, [e])
  | None => (None, [e])
  end.

(** A call that reads through [p] for its receiver and through [q] for
    an argument ([blob->GetBufferPointer()]). *)
Definition both (p q : ptr) : ptr :=
  match p, q with
  | Some a, Some _ => Some a
  | _, _ => nullptr
  end.

(** What a creation call writes to its output pointer. *)
Definition handed (obj : handle) : ptr :=
  if created obj then Some obj else nullptr.

(** A creation function that is no method. *)
Definition create (mk : handle -> event) (obj : handle) : U ptr :=
  call (mk obj) (handed obj).

(** A creation method, called through [p]. *)
Definition create_through (p : ptr) (mk : handle -> event) (obj : handle) : U ptr :=
  bind (through p (mk obj)) (fun _ => ret (handed obj)).

Definition when (b : bool) (m : U unit) : U unit :=
  if b then m else ret tt.

Declare Scope unchecked_scope.
Local Notation "x <- m ;; k" := (bind m (fun x => k))
  (at level 61, m at next level, right associativity) : unchecked_scope.
Local Notation "m ;; k" := (bind m (fun _ => k))
  (at level 61, right associativity) : unchecked_scope.
Local Open Scope unchecked_scope.

Definition SetupScene (d3dDevice d3dContext : ptr) : U (ptr * SceneGlobals) :=
  d3dBlobVertexShader <-
    create (D3DCompile VertexShaderCode "main" "vs_4_0") BlobVertexShaderObj;;
  d3dVertexShader <-
    create_through (both d3dDevice d3dBlobVertexShader)
      (CreateVertexShader d3dDevice d3dBlobVertexShader) VertexShaderObj;;
  d3dBlobPixelShader <-
    create (D3DCompile PixelShaderCode "main" "ps_4_0") BlobPixelShaderObj;;
  d3dPixelShader <-
    create_through (both d3dDevice d3dBlobPixelShader)
      (CreatePixelShader d3dDevice d3dBlobPixelShader) PixelShaderObj;;
  d3dInputLayout <-
    create_through (both d3dDevice d3dBlobVertexShader)
      (CreateInputLayout d3dDevice "POSITION" DXGI_FORMAT_R32G32B32_FLOAT 1
         d3dBlobVertexShader) InputLayoutObj;;
  let vbDesc := {| ByteWidth := sizeof_Vertex * Z.of_nat (List.length vertices);
                   buf_Usage := D3D11_USAGE_DEFAULT;
                   buf_BindFlags := [D3D11_BIND_VERTEX_BUFFER];
                   buf_CPUAccessFlags := [] |} in
  d3dVertexBuffer <-
    create_through d3dDevice (CreateBuffer d3dDevice vbDesc (Some vertices))
      VertexBufferObj;;
  let cbDesc := {| ByteWidth := sizeof_float * 16;
                   buf_Usage := D3D11_USAGE_DYNAMIC;
                   buf_BindFlags := [D3D11_BIND_CONSTANT_BUFFER];
                   buf_CPUAccessFlags := [D3D11_CPU_ACCESS_WRITE] |} in
  d3dConstantBuffer <-
    create_through d3dDevice (CreateBuffer d3dDevice cbDesc None) ConstantBufferObj;;
  let stride := sizeof_Vertex in
  let offset := 0 in
  through d3dContext (IASetInputLayout d3dContext d3dInputLayout);;
  through d3dContext (IASetVertexBuffers d3dContext d3dVertexBuffer stride offset);;
  through d3dContext
    (IASetPrimitiveTopology d3dContext D3D_PRIMITIVE_TOPOLOGY_TRIANGLELIST);;
  through d3dContext (VSSetShader d3dContext d3dVertexShader);;
  through d3dContext (PSSetShader d3dContext d3dPixelShader);;
  through d3dContext (VSSetConstantBuffers d3dContext d3dConstantBuffer);;
  through d3dBlobPixelShader (Release d3dBlobPixelShader);;
  through d3dBlobVertexShader (Release d3dBlobVertexShader);;
  ret (d3dConstantBuffer,
       {| g_d3dInputLayout := d3dInputLayout;
          g_d3dVertexShader := d3dVertexShader;
          g_d3dPixelShader := d3dPixelShader;
          g_d3dConstantBuffer := d3dConstantBuffer;
          g_d3dVertexBuffer := d3dVertexBuffer |}).

Definition DestroyScene (G : SceneGlobals) : U unit :=
  through (g_d3dConstantBuffer G) (Release (g_d3dConstantBuffer G));;
  through (g_d3dVertexBuffer G) (Release (g_d3dVertexBuffer G));;
  through (g_d3dInputLayout G) (Release (g_d3dInputLayout G));;
  through (g_d3dVertexShader G) (Release (g_d3dVertexShader G));;
  through (g_d3dPixelShader G) (Release (g_d3dPixelShader G)).

Definition setup (vrHmd : ovrHmdDesc) : U Locals :=
  emit (ovrHmd_ConfigureTracking
          [ovrTrackingCap_Orientation; ovrTrackingCap_Position] []);;
  ovrEyeDimsLeft <-
    (let fov := at2 (DefaultEyeFov vrHmd) 0 in
     call (ovrHmd_GetFovTextureSize ovrEye_Left fov PixelsPerDisplayPixel)
          (fovTextureSize env ovrEye_Left fov PixelsPerDisplayPixel));;
  ovrEyeDimsRight <-
    (let fov := at2 (DefaultEyeFov vrHmd) 0 in
     call (ovrHmd_GetFovTextureSize ovrEye_Right fov PixelsPerDisplayPixel)
          (fovTextureSize env ovrEye_Right fov PixelsPerDisplayPixel));;
  let renderTargetSize := make_renderTargetSize ovrEyeDimsLeft ovrEyeDimsRight in
  let vrEyeRenderViewport := make_vrEyeRenderViewport renderTargetSize in
  let vrEyeFov := Array2 (at2 (DefaultEyeFov vrHmd) 0) (at2 (DefaultEyeFov vrHmd) 1) in
  emit LoadCursor;;
  emit (RegisterClassEx ClassName);;
  emit (CreateWindowW ClassName "SimpleOVR - D3D11"
          [WS_OVERLAPPEDWINDOW; WS_VISIBLE] 0 0 1280 720);;
  let scd := {| BufferCount := 1;
                BufferDesc_Format := DXGI_FORMAT_R8G8B8A8_UNORM;
                BufferDesc_Width := CInt.to_UINT (w (Resolution vrHmd));
                BufferDesc_Height := CInt.to_UINT (h (Resolution vrHmd));
                RefreshRate_Numerator := 0;
                RefreshRate_Denominator := 1;
                scd_SampleDesc_Count := CInt.to_UINT MultisampleCount;
                Windowed := false |} in
  emit (D3D11CreateDeviceAndSwapChain
          [D3D_FEATURE_LEVEL_11_0; D3D_FEATURE_LEVEL_10_1] scd);;
  let d3dSwapChain := handed SwapChainObj in
  let d3dDevice := handed DeviceObj in
  let d3dContext := handed ContextObj in
  pBackBuffer <-
    create_through d3dSwapChain (GetBuffer d3dSwapChain 0) BackBufferObj;;
  d3dBackBufferRenderTargetView <-
    create_through d3dDevice (CreateRenderTargetView d3dDevice pBackBuffer)
      BackBufferRenderTargetViewObj;;
  through pBackBuffer (Release pBackBuffer);;
  let dtd := make_dtd MultisampleCount renderTargetSize in
  d3dDepthStencilTexture <-
    create_through d3dDevice (CreateTexture2D d3dDevice dtd) DepthStencilTextureObj;;
  let dsvDesc := {| dsv_Format := Format dtd;
                    ViewDimension := D3D11_DSV_DIMENSION_TEXTURE2DMS |} in
  d3dDepthStencilView <-
    create_through d3dDevice
      (CreateDepthStencilView d3dDevice d3dDepthStencilTexture dsvDesc)
      DepthStencilViewObj;;
  let texdesc := make_texdesc MultisampleCount renderTargetSize in
  d3dEyeTexture <-
    create_through d3dDevice (CreateTexture2D d3dDevice texdesc) EyeTextureObj;;
  d3dEyeTextureShaderResourceView <-
    create_through d3dDevice (CreateShaderResourceView d3dDevice d3dEyeTexture)
      EyeTextureShaderResourceViewObj;;
  d3dEyeTextureRenderTargetView <-
    create_through d3dDevice (CreateRenderTargetView d3dDevice d3dEyeTexture)
      EyeTextureRenderTargetViewObj;;
  intermediary <-
    (if 1 <? MultisampleCount then
       let texdesc := make_intermediary_texdesc renderTargetSize in
       d3dIntermediaryTexture <-
         create_through d3dDevice (CreateTexture2D d3dDevice texdesc)
           IntermediaryTextureObj;;
       d3dIntermediaryTextureShaderResourceView <-
         create_through d3dDevice
           (CreateShaderResourceView d3dDevice d3dIntermediaryTexture)
           IntermediaryTextureShaderResourceViewObj;;
       d3dIntermediaryTextureRenderTargetView <-
         create_through d3dDevice
           (CreateRenderTargetView d3dDevice d3dIntermediaryTexture)
           IntermediaryTextureRenderTargetViewObj;;
       ret (d3dIntermediaryTexture,
            d3dIntermediaryTextureRenderTargetView,
            d3dIntermediaryTextureShaderResourceView)
     else ret (nullptr, nullptr, nullptr));;
  let d3dIntermediaryTexture := fst (fst intermediary) in
  let d3dIntermediaryTextureRenderTargetView := snd (fst intermediary) in
  let d3dIntermediaryTextureShaderResourceView := snd intermediary in
  let vrEyeTexture :=
    make_vrEyeTexture MultisampleCount renderTargetSize vrEyeRenderViewport
      d3dEyeTexture d3dEyeTextureShaderResourceView
      d3dIntermediaryTexture d3dIntermediaryTextureShaderResourceView in
  let vrRenderConfiguration :=
    {| cfg_API := ovrRenderAPI_D3D11;
       RTSize := Resolution vrHmd;
       Multisample := MultisampleCount;
       pDevice := d3dDevice;
       pDeviceContext := d3dContext;
       pBackBufferRT := d3dBackBufferRenderTargetView;
       pSwapChain := d3dSwapChain |} in
  vrEyeRenderDesc <-
    call (ovrHmd_ConfigureRendering vrRenderConfiguration
            [ovrDistortionCap_Chromatic; ovrDistortionCap_TimeWarp;
             ovrDistortionCap_Overdrive; ovrDistortionCap_Vignette] vrEyeFov)
         (eyeRenderDesc env vrEyeFov);;
  emit (ovrHmd_SetEnabledCaps
          [ovrHmdCap_LowPersistence; ovrHmdCap_DynamicPrediction;
           ovrHmdCap_NoMirrorToWindow]);;
  emit ovrHmd_AttachToWindow;;
  let vrHmdToEyeViewOffset :=
    Array2 (HmdToEyeViewOffset (at2 vrEyeRenderDesc 0))
           (HmdToEyeViewOffset (at2 vrEyeRenderDesc 1)) in
  scene <- SetupScene d3dDevice d3dContext;;
  ret {| vrHmd := vrHmd;
         renderTargetSize := renderTargetSize;
         vrEyeRenderViewport := vrEyeRenderViewport;
         vrEyeFov := vrEyeFov;
         vrEyeRenderDesc := vrEyeRenderDesc;
         vrEyeTexture := vrEyeTexture;
         vrHmdToEyeViewOffset := vrHmdToEyeViewOffset;
         d3dSwapChain := d3dSwapChain;
         d3dDevice := d3dDevice;
         d3dContext := d3dContext;
         d3dBackBufferRenderTargetView := d3dBackBufferRenderTargetView;
         d3dDepthStencilTexture := d3dDepthStencilTexture;
         d3dDepthStencilView := d3dDepthStencilView;
         d3dEyeTexture := d3dEyeTexture;
         d3dEyeTextureRenderTargetView := d3dEyeTextureRenderTargetView;
         d3dEyeTextureShaderResourceView := d3dEyeTextureShaderResourceView;
         d3dIntermediaryTexture := d3dIntermediaryTexture;
         d3dIntermediaryTextureRenderTargetView := d3dIntermediaryTextureRenderTargetView;
         d3dIntermediaryTextureShaderResourceView := d3dIntermediaryTextureShaderResourceView;
         d3dConstantBuffer := fst scene;
         globals := snd scene |}.

Definition render_eye (L : Locals) (vrEyeRenderPose : array2 ovrPosef) (i : nat)
  : U unit :=
  let eye := eye_index (at2 (EyeRenderOrder (vrHmd L)) i) in
  let vp := {| vp_Width := float_of_int (w (Size (at2 (vrEyeRenderViewport L) eye)));
               vp_Height := float_of_int (h (Size (at2 (vrEyeRenderViewport L) eye)));
               TopLeftX := float_of_int (x (Pos (at2 (vrEyeRenderViewport L) eye)));
               TopLeftY := float_of_int (y (Pos (at2 (vrEyeRenderViewport L) eye)));
               MinDepth := float_lit 0;
               MaxDepth := float_lit 1 |} in
  through (d3dContext L) (RSSetViewports (d3dContext L) vp);;
  let currentEyePose := Posef_of_ovrPosef (at2 vrEyeRenderPose eye) in
  let projection :=
    ovrMatrix4f_Projection (Fov (at2 (vrEyeRenderDesc L) eye))
      (float_lit (1 # 100)) (float_lit 10000) true in
  let quatBodyRotation := Quatf_axis_angle UpVector (Anglef_Get BodyYaw) in
  let worldPose :=
    {| Rotation := Quatf_mul quatBodyRotation (Rotation currentEyePose);
       Translation :=
         Vector3f_add BodyPosition
           (Quatf_Rotate quatBodyRotation (Translation currentEyePose)) |} in
  let up := Quatf_Rotate (Rotation worldPose) UpVector in
  let forward := Quatf_Rotate (Rotation worldPose) ForwardVector in
  let view :=
    Matrix4f_LookAtRH (Translation worldPose)
      (Vector3f_add (Translation worldPose) forward) up in
  let mvp := Matrix4f_mul projection view in
  let transposedMvp := Matrix4f_Transposed mvp in
  through (d3dContext L)
    (Map (d3dContext L) (d3dConstantBuffer L) D3D11_MAP_WRITE_DISCARD);;
  emit (memcpy transposedMvp (sizeof_float * 16));;
  through (d3dContext L) (Unmap (d3dContext L) (d3dConstantBuffer L));;
  through (d3dContext L) (Draw (d3dContext L) 3 0).

Definition render_frame (L : Locals) (n : nat) : U unit :=
  emit (ovrHmd_BeginFrame 0);;
  vrEyeRenderPose <-
    call (ovrHmd_GetEyePoses 0 (vrHmdToEyeViewOffset L)) (eyePoses env n);;
  let f := [float_lit (2 # 10); float_lit (3 # 10); float_lit (2 # 10); float_lit 1] in
  through (d3dContext L)
    (ClearRenderTargetView (d3dContext L) (d3dEyeTextureRenderTargetView L) f);;
  through (d3dContext L)
    (ClearDepthStencilView (d3dContext L) (d3dDepthStencilView L)
       [D3D11_CLEAR_DEPTH; D3D11_CLEAR_STENCIL] (float_lit 1) 0);;
  through (d3dContext L)
    (OMSetRenderTargets (d3dContext L) (d3dEyeTextureRenderTargetView L)
       (d3dDepthStencilView L));;
  render_eye L vrEyeRenderPose 0;;
  render_eye L vrEyeRenderPose 1;;
  when (1 <? MultisampleCount)
    (through (d3dContext L)
       (ResolveSubresource (d3dContext L) (d3dIntermediaryTexture L)
          (d3dEyeTexture L) DXGI_FORMAT_R8G8B8A8_UNORM));;
  emit (ovrHmd_EndFrame vrEyeRenderPose (vrEyeTexture L)).

Fixpoint frame_loop (L : Locals) (fuel n : nat) (keepRunning : bool) : U bool :=
  if keepRunning then
    match fuel with
    | O => ret false
    | S fuel' =>
        keepRunning <- lift (pump (messages env n) keepRunning);;
        render_frame L n;;
        frame_loop L fuel' (S n) keepRunning
    end
  else ret true.

Definition cleanup (L : Locals) : U unit :=
  DestroyScene (globals L);;
  when (is_nonnull (d3dIntermediaryTextureShaderResourceView L))
    (through (d3dIntermediaryTextureShaderResourceView L)
       (Release (d3dIntermediaryTextureShaderResourceView L)));;
  when (is_nonnull (d3dIntermediaryTextureRenderTargetView L))
    (through (d3dIntermediaryTextureRenderTargetView L)
       (Release (d3dIntermediaryTextureRenderTargetView L)));;
  when (is_nonnull (d3dIntermediaryTexture L))
    (through (d3dIntermediaryTexture L) (Release (d3dIntermediaryTexture L)));;
  through (d3dDepthStencilView L) (Release (d3dDepthStencilView L));;
  through (d3dDepthStencilTexture L) (Release (d3dDepthStencilTexture L));;
  through (d3dEyeTextureRenderTargetView L) (Release (d3dEyeTextureRenderTargetView L));;
  through (d3dEyeTextureShaderResourceView L)
    (Release (d3dEyeTextureShaderResourceView L));;
  through (d3dEyeTexture L) (Release (d3dEyeTexture L));;
  through (d3dBackBufferRenderTargetView L) (Release (d3dBackBufferRenderTargetView L));;
  through (d3dSwapChain L) (Release (d3dSwapChain L));;
  through (d3dContext L) (Release (d3dContext L));;
  through (d3dDevice L) (Release (d3dDevice L));;
  emit ovrHmd_Destroy;;
  emit ovr_Shutdown.

(** The run from setup on, with a device. *)
Definition with_hmd (vrHmd : ovrHmdDesc) (fuel : nat) : U (option Z) :=
  L <- setup vrHmd;;
  left_loop <- frame_loop L fuel 0 true;;
  if left_loop then
    cleanup L;;
    ret (Some EXIT_SUCCESS)
  else ret None.

Definition WinMain_steps (fuel : nat) : U (option Z) :=
  emit SetProcessDPIAware;;
  emit ovr_Initialize;;
  vrHmd <- call (ovrHmd_Create 0) (hmd env);;
  match vrHmd with
  | None =>
      emit (MessageBox
              "Failed initializing HMD, make sure it is connected and turned on."
              "LibOVR error");;
      emit ovr_Shutdown;;
      ret (Some EXIT_FAILURE)
  | Some vrHmd => with_hmd vrHmd fuel
  end.

(** How a run ends. *)
Definition outcome_of (r : option (option Z)) : outcome :=
  match r with
  | Some (Some code) => Returned code
  | Some None => Running
  | None => Undefined
  end.

(** [WinMain]: how the run ends within [fuel] iterations of the frame
    loop, and the calls made. *)
Definition WinMain (fuel : nat) : outcome * list event :=
  (outcome_of (fst (WinMain_steps fuel)), snd (WinMain_steps fuel)).

End Program.

End Unchecked.

(** ** How a run ends

    The objects whose pointers the setup part calls through, in the order
    of their first call, and the objects that the cleanup part is the
    first to call through. *)
Definition called_through_in_setup : list handle :=
  [SwapChainObj; DeviceObj; BackBufferObj;
   BlobVertexShaderObj; BlobPixelShaderObj; ContextObj].

Definition called_through_in_cleanup : list handle :=
  [ConstantBufferObj; VertexBufferObj; InputLayoutObj; VertexShaderObj;
   PixelShaderObj; DepthStencilViewObj; DepthStencilTextureObj;
   EyeTextureRenderTargetViewObj; EyeTextureShaderResourceViewObj;
   EyeTextureObj; BackBufferRenderTargetViewObj].

(** How a run ends, from the three things that decide it: whether there
    is a device, which creation calls hand back their object, and whether
    a WM_QUIT is drained within [fuel] iterations. *)
Definition spec_outcome {sdk : OVR_SDK} (env : Env) (created : handle -> bool)
    (fuel : nat) : Unchecked.outcome :=
  match hmd env with
  | None => Unchecked.Returned EXIT_FAILURE
  | Some _ =>
      if negb (forallb created called_through_in_setup) then Unchecked.Undefined
      else if negb (loop_left env fuel 0) then Unchecked.Running
      else if forallb created called_through_in_cleanup
           then Unchecked.Returned EXIT_SUCCESS
           else Unchecked.Undefined
  end.

(** The pointers the cleanup part calls through without a test. *)
Definition cleanup_pointers {sdk : OVR_SDK} (L : Locals) : list ptr :=
  [g_d3dConstantBuffer (globals L); g_d3dVertexBuffer (globals L);
   g_d3dInputLayout (globals L); g_d3dVertexShader (globals L);
   g_d3dPixelShader (globals L);
   d3dDepthStencilView L; d3dDepthStencilTexture L;
   d3dEyeTextureRenderTargetView L; d3dEyeTextureShaderResourceView L;
   d3dEyeTexture L; d3dBackBufferRenderTargetView L;
   d3dSwapChain L; d3dContext L; d3dDevice L].

(** If [m] meets undefined behaviour, its last call goes through or is
    handed a null pointer. *)
Definition stops_at_null {sdk : OVR_SDK} {A} (m : Unchecked.U A) : Prop :=
  fst m = None ->
  exists calls e, snd m = calls ++ [e] /\ In nullptr (uses e).

(** ** Runs in which something goes wrong *)

Module Mishap.

(** Every creation call hands back its object. *)
Definition all_created : handle -> bool := fun _ => true.

(** [D3D11CreateDeviceAndSwapChain] fails (no suitable hardware): swap
    chain, device and context stay null. *)
Definition no_device_created : handle -> bool :=
  fun obj =>
    match obj with
    | SwapChainObj | DeviceObj | ContextObj => false
    | _ => true
    end.

(** The session of the example with a window that is never closed and a
    keyboard that is never touched. *)
Definition never_closed : Env (sdk := Sym.sdk) :=
  {| hmd := Some Example.device;
     fovTextureSize := fovTextureSize Example.session;
     eyeRenderDesc := eyeRenderDesc Example.session;
     messages := fun _ => [];
     eyePoses := eyePoses Example.session |}.

End Mishap.

(** * Properties *)

(** ** C integers in range *)

Lemma CInt_wrap_id z : CInt.is_int z -> CInt.wrap z = z.
Proof.
  unfold CInt.is_int, CInt.wrap, CInt.INT_MIN, CInt.INT_MAX. intros Hz.
  rewrite Z.mod_small; lia.
Qed.

Lemma CInt_to_UINT_id z : 0 <= z <= CInt.INT_MAX -> CInt.to_UINT z = z.
Proof.
  unfold CInt.to_UINT, CInt.INT_MAX. intros Hz. apply Z.mod_small. lia.
Qed.

Lemma CInt_max_spec a b : CInt.max a b = Z.max a b.
Proof. unfold CInt.max. destruct (Z.ltb_spec a b); lia. Qed.

(** ** Counting *)

Lemma count_app {sdk : OVR_SDK} p (s t : list event) :
  count p (s ++ t) = (count p s + count p t)%nat.
Proof. unfold count. now rewrite filter_app, length_app. Qed.

Lemma filter_concat_map {A B} (p : B -> bool) (f : A -> list B) (l : list A) :
  filter p (List.concat (map f l)) = List.concat (map (fun a => filter p (f a)) l).
Proof.
  induction l as [|a l IH]; cbn; [reflexivity|].
  now rewrite filter_app, IH.
Qed.

Lemma filter_none {A} (p q : A -> bool) (l : list A) :
  Forall (fun a => q a = true) l ->
  (forall a, q a = true -> p a = false) ->
  filter p l = [].
Proof.
  intros Hq Hpq. induction Hq as [|a l Ha _ IH]; cbn; [reflexivity|].
  now rewrite (Hpq a Ha).
Qed.

Lemma concat_nil_map {A B} (f : A -> list B) (l : list A) :
  (forall a, f a = []) -> List.concat (map f l) = [].
Proof.
  intros Hf. induction l as [|a l IH]; cbn; [reflexivity|].
  now rewrite Hf, IH.
Qed.

Lemma length_concat_const {A B} (f : A -> list B) (c : nat) (l : list A) :
  (forall a, List.length (f a) = c) ->
  List.length (List.concat (map f l)) = (List.length l * c)%nat.
Proof.
  intros Hf. induction l as [|a l IH]; cbn; [reflexivity|].
  rewrite length_app, Hf, IH. lia.
Qed.

(** Splits a membership in an explicit list into its cases and drops the
    cases whose event has another constructor. *)
Ltac in_cases H :=
  repeat (destruct H as [H|H]; [try discriminate H|]); try contradiction.

(** ** The writer monad, the pump and the loop *)

Section Basics.

Context {sdk : OVR_SDK}.
Variable MultisampleCount : Z.
Variable env : Env.

Lemma trace_bind {A B} (m : W event A) (k : A -> W event B) :
  trace (bind m k) = trace m ++ trace (k (result m)).
Proof. reflexivity. Qed.

Lemma result_bind {A B} (m : W event A) (k : A -> W event B) :
  result (bind m k) = result (k (result m)).
Proof. reflexivity. Qed.

Lemma pump_trace msgs keepRunning :
  trace (pump msgs keepRunning) = flat_map msg_events msgs ++ [PeekMessage None].
Proof.
  revert keepRunning. induction msgs as [|msg rest IH]; intros keepRunning.
  - reflexivity.
  - cbn [pump]. rewrite !trace_bind, IH.
    cbn [flat_map]. unfold msg_events, when.
    destruct (message msg =? WM_KEYDOWN); reflexivity.
Qed.

Lemma pump_result msgs keepRunning :
  result (pump msgs keepRunning) = keepRunning && negb (quit_in msgs).
Proof.
  revert keepRunning. induction msgs as [|msg rest IH]; intros keepRunning.
  - cbn. now rewrite andb_true_r.
  - cbn [pump]. rewrite !result_bind, IH. cbn [quit_in existsb].
    destruct (message msg =? WM_QUIT); cbn.
    + now rewrite andb_false_r.
    + reflexivity.
Qed.

Lemma frame_loop_left L fuel n :
  frame_loop MultisampleCount env L fuel n false = ret true.
Proof. destruct fuel; reflexivity. Qed.

Lemma frame_loop_trace L fuel n :
  trace (frame_loop MultisampleCount env L fuel n true) =
  List.concat (map (iteration_trace MultisampleCount env L)
                 (seq n (iterations env fuel n))).
Proof.
  revert n. induction fuel as [|fuel IH]; intros n.
  - reflexivity.
  - cbn [frame_loop iterations]. rewrite !trace_bind, pump_result. cbn [andb].
    destruct (quit_in (messages env n)); cbn [negb].
    + rewrite frame_loop_left. cbn. unfold iteration_trace.
      now rewrite !app_nil_r, pump_trace.
    + rewrite IH. cbn [seq map List.concat]. unfold iteration_trace at 2.
      now rewrite <- app_assoc.
Qed.

Lemma frame_loop_result L fuel n :
  result (frame_loop MultisampleCount env L fuel n true) = loop_left env fuel n.
Proof.
  revert n. induction fuel as [|fuel IH]; intros n.
  - reflexivity.
  - cbn [frame_loop loop_left]. rewrite !result_bind, pump_result. cbn [andb].
    destruct (quit_in (messages env n)); cbn [negb].
    + now rewrite frame_loop_left.
    + apply IH.
Qed.

(** A run with an HMD: setup, the iterations of the loop, and, once the
    loop is left, cleanup and the success status. *)
Lemma WinMain_with_hmd vrHmd fuel :
  hmd env = Some vrHmd ->
  WinMain MultisampleCount env fuel =
  (if loop_left env fuel 0 then Some EXIT_SUCCESS else None,
   [SetProcessDPIAware; ovr_Initialize; ovrHmd_Create 0] ++
   trace (setup MultisampleCount env vrHmd) ++
   List.concat
     (map (iteration_trace MultisampleCount env (locals MultisampleCount env vrHmd))
        (seq 0 (iterations env fuel 0))) ++
   (if loop_left env fuel 0
    then trace (cleanup (locals MultisampleCount env vrHmd)) else [])).
Proof.
  intros Hhmd. unfold WinMain.
  set (L := locals MultisampleCount env vrHmd).
  pose proof (frame_loop_trace L fuel 0) as Ht.
  pose proof (frame_loop_result L fuel 0) as Hr.
  unfold bind at 1 2 3. cbn [fst snd emit call]. rewrite Hhmd.
  change (fst ?m) with (result m). change (snd ?m) with (trace m).
  rewrite !result_bind, !trace_bind.
  change (result (setup MultisampleCount env vrHmd)) with L.
  rewrite Hr, Ht.
  destruct (loop_left env fuel 0); cbn [app]; rewrite ?trace_bind;
    cbn [ret trace snd result fst]; rewrite ?app_nil_r; reflexivity.
Qed.

Lemma WinMain_without_hmd fuel :
  hmd env = None ->
  WinMain MultisampleCount env fuel =
  (Some EXIT_FAILURE,
   [SetProcessDPIAware; ovr_Initialize; ovrHmd_Create 0;
    MessageBox "Failed initializing HMD, make sure it is connected and turned on."
      "LibOVR error";
    ovr_Shutdown]).
Proof.
  intros Hhmd. unfold WinMain.
  unfold bind at 1 2 3. cbn [fst snd emit call]. now rewrite Hhmd.
Qed.

(** When the first WM_QUIT is in the k-th batch after [n], the loop makes
    [k + 1] iterations and is left. *)
Lemma quit_ends_loop k : forall fuel n,
  quit_in (messages env (n + k)) = true ->
  (forall i, (i < k)%nat -> quit_in (messages env (n + i)) = false) ->
  (k < fuel)%nat ->
  iterations env fuel n = S k /\ loop_left env fuel n = true.
Proof.
  induction k as [|k IH]; intros fuel n Hq Hbefore Hfuel;
    (destruct fuel as [|fuel]; [lia|]); cbn [iterations loop_left].
  - rewrite Nat.add_0_r in Hq. now rewrite Hq.
  - pose proof (Hbefore 0%nat ltac:(lia)) as H0.
    rewrite Nat.add_0_r in H0. rewrite H0.
    destruct (IH fuel (S n)) as [Hi Hl].
    + now replace (S n + k)%nat with (n + S k)%nat by lia.
    + intros i Hi. replace (S n + i)%nat with (n + S i)%nat by lia.
      apply Hbefore. lia.
    + lia.
    + now rewrite Hi, Hl.
Qed.

Lemma first_quit_ends_loop k fuel :
  first_quit env k -> (k < fuel)%nat ->
  iterations env fuel 0 = S k /\ loop_left env fuel 0 = true.
Proof.
  intros [Hq Hbefore] Hfuel. now apply quit_ends_loop.
Qed.

(** Without a WM_QUIT the loop is never left. *)
Lemma no_quit_no_exit fuel : forall n,
  (forall i, quit_in (messages env i) = false) ->
  loop_left env fuel n = false /\ iterations env fuel n = fuel.
Proof.
  induction fuel as [|fuel IH]; intros n Hnever; cbn [loop_left iterations].
  - now split.
  - rewrite Hnever. destruct (IH (S n) Hnever) as [Hl Hi]. now rewrite Hl, Hi.
Qed.

End Basics.

(** ** The parts of a run *)

Section Parts.

Context {sdk : OVR_SDK}.
Variable MultisampleCount : Z.
Variable env : Env.

#[local] Abbreviation iteration_trace := (iteration_trace MultisampleCount env).
#[local] Abbreviation locals := (locals MultisampleCount env).
#[local] Abbreviation render_frame := (render_frame MultisampleCount env).
#[local] Abbreviation WinMain := (WinMain MultisampleCount env).

(** The rendering part, call by call. *)
Lemma render_frame_trace L n :
  trace (render_frame L n) =
  [ ovrHmd_BeginFrame 0;
    ovrHmd_GetEyePoses 0 (vrHmdToEyeViewOffset L);
    ClearRenderTargetView (d3dContext L) (d3dEyeTextureRenderTargetView L)
      [float_lit (2 # 10); float_lit (3 # 10); float_lit (2 # 10); float_lit 1];
    ClearDepthStencilView (d3dContext L) (d3dDepthStencilView L)
      [D3D11_CLEAR_DEPTH; D3D11_CLEAR_STENCIL] (float_lit 1) 0;
    OMSetRenderTargets (d3dContext L) (d3dEyeTextureRenderTargetView L)
      (d3dDepthStencilView L) ] ++
  spec_eye_events L (eyePoses env n) (at2 (EyeRenderOrder (vrHmd L)) 0) ++
  spec_eye_events L (eyePoses env n) (at2 (EyeRenderOrder (vrHmd L)) 1) ++
  (if 1 <? MultisampleCount
   then [ResolveSubresource (d3dContext L) (d3dIntermediaryTexture L)
           (d3dEyeTexture L) DXGI_FORMAT_R8G8B8A8_UNORM]
   else []) ++
  [ovrHmd_EndFrame (eyePoses env n) (vrEyeTexture L)].
Proof.
  unfold render_frame, when. destruct (1 <? MultisampleCount); reflexivity.
Qed.

Lemma msg_events_loop msg : Forall (fun e => is_loop_event e = true) (msg_events msg).
Proof.
  unfold msg_events. destruct (message msg =? WM_KEYDOWN); repeat constructor.
Qed.

Lemma pump_loop_events msgs keepRunning :
  Forall (fun e => is_loop_event e = true) (trace (pump msgs keepRunning)).
Proof.
  rewrite pump_trace. apply Forall_app. split.
  - apply Forall_flat_map. apply Forall_forall. intros msg _. apply msg_events_loop.
  - repeat constructor.
Qed.

Lemma render_frame_loop_events L n :
  Forall (fun e => is_loop_event e = true) (trace (render_frame L n)).
Proof.
  rewrite render_frame_trace. unfold spec_eye_events.
  destruct (1 <? MultisampleCount); repeat constructor.
Qed.

Lemma iteration_loop_events L n :
  Forall (fun e => is_loop_event e = true) (iteration_trace L n).
Proof.
  apply Forall_app. split; [apply pump_loop_events|apply render_frame_loop_events].
Qed.

Lemma loop_loop_events L l :
  Forall (fun e => is_loop_event e = true) (List.concat (map (iteration_trace L) l)).
Proof.
  apply Forall_concat. apply Forall_map. apply Forall_forall.
  intros n _. apply iteration_loop_events.
Qed.

Lemma setup_no_loop_events d :
  Forall (fun e => is_loop_event e = false) (trace (setup MultisampleCount env d)).
Proof.
  unfold setup. destruct (1 <? MultisampleCount);
    cbn -[CInt.to_UINT make_renderTargetSize Z.mul]; repeat constructor.
Qed.

Lemma cleanup_no_loop_events L :
  Forall (fun e => is_loop_event e = false) (trace (cleanup L)).
Proof.
  unfold cleanup, when, DestroyScene.
  destruct (d3dIntermediaryTextureShaderResourceView L),
           (d3dIntermediaryTextureRenderTargetView L),
           (d3dIntermediaryTexture L); cbn; repeat constructor.
Qed.

(** The events of the loop's kind in a run are those of its iterations. *)
Lemma WinMain_filter_loop p d fuel :
  hmd env = Some d ->
  (forall e, p e = true -> is_loop_event e = true) ->
  filter p (trace (WinMain fuel)) =
  List.concat (map (fun n => filter p (iteration_trace (locals d) n))
                 (seq 0 (iterations env fuel 0))).
Proof.
  intros Hhmd Hp. rewrite (WinMain_with_hmd _ _ d fuel Hhmd). cbn [trace snd].
  assert (Hout : forall s, Forall (fun e => is_loop_event e = false) s -> filter p s = []).
  { intros s Hs. apply (filter_none p (fun e => negb (is_loop_event e))).
    - eapply Forall_impl; [|exact Hs]. intros e He. cbn beta in He. now rewrite He.
    - intros e He. destruct (p e) eqn:Hpe; [|reflexivity].
      apply Hp in Hpe. rewrite Hpe in He. discriminate He. }
  rewrite !filter_app, filter_concat_map.
  rewrite (Hout [SetProcessDPIAware; ovr_Initialize; ovrHmd_Create 0])
    by (repeat constructor).
  rewrite (Hout (trace (setup MultisampleCount env d))) by apply setup_no_loop_events.
  rewrite (Hout (if loop_left env fuel 0 then _ else _)).
  - now rewrite app_nil_r.
  - destruct (loop_left env fuel 0); [apply cleanup_no_loop_events|constructor].
Qed.

(** An event of the loop's kind in a run is in one of its iterations. *)
Lemma WinMain_In_loop e d fuel :
  hmd env = Some d ->
  In e (trace (WinMain fuel)) ->
  is_loop_event e = true ->
  exists n, (n < iterations env fuel 0)%nat /\ In e (iteration_trace (locals d) n).
Proof.
  intros Hhmd Hin He. rewrite (WinMain_with_hmd _ _ d fuel Hhmd) in Hin.
  cbn [trace snd] in Hin.
  apply in_app_or in Hin. destruct Hin as [Hin|Hin].
  { in_cases Hin; subst e; discriminate He. }
  apply in_app_or in Hin. destruct Hin as [Hin|Hin].
  { pose proof (setup_no_loop_events d) as Hs.
    rewrite Forall_forall in Hs. apply Hs in Hin. congruence. }
  apply in_app_or in Hin. destruct Hin as [Hin|Hin].
  - apply in_concat in Hin. destruct Hin as [t [Ht Hin]].
    apply in_map_iff in Ht. destruct Ht as [n [<- Hn]].
    apply in_seq in Hn. exists n. split; [lia|assumption].
  - destruct (loop_left env fuel 0); [|contradiction].
    pose proof (cleanup_no_loop_events (locals d)) as Hs.
    rewrite Forall_forall in Hs. apply Hs in Hin. congruence.
Qed.

(** An event of another kind is in the setup or in the cleanup. *)
Lemma WinMain_In_outside_loop e d fuel :
  hmd env = Some d ->
  In e (trace (WinMain fuel)) ->
  is_loop_event e = false ->
  In e ([SetProcessDPIAware; ovr_Initialize; ovrHmd_Create 0] ++ trace (setup MultisampleCount env d)) \/
  (loop_left env fuel 0 = true /\ In e (trace (cleanup (locals d)))).
Proof.
  intros Hhmd Hin He. rewrite (WinMain_with_hmd _ _ d fuel Hhmd) in Hin.
  cbn [trace snd] in Hin.
  apply in_app_or in Hin. destruct Hin as [Hin|Hin].
  { left. apply in_or_app. now left. }
  apply in_app_or in Hin. destruct Hin as [Hin|Hin].
  { left. apply in_or_app. now right. }
  apply in_app_or in Hin. destruct Hin as [Hin|Hin].
  - pose proof (loop_loop_events (locals d) (seq 0 (iterations env fuel 0))) as Hs.
    rewrite Forall_forall in Hs. apply Hs in Hin. congruence.
  - right. destruct (loop_left env fuel 0); [now split|contradiction].
Qed.

End Parts.

(** ** The locals after setup *)

Section LocalsAfterSetup.

Context {sdk : OVR_SDK}.
Variable MultisampleCount : Z.
Variable env : Env.
Variable d : ovrHmdDesc.

#[local] Abbreviation L := (locals MultisampleCount env d).

Lemma locals_vrHmd : vrHmd L = d.
Proof. reflexivity. Qed.

Lemma locals_renderTargetSize :
  renderTargetSize L = make_renderTargetSize (ovrEyeDimsLeft env d) (ovrEyeDimsRight env d).
Proof. reflexivity. Qed.

Lemma locals_vrEyeRenderViewport :
  vrEyeRenderViewport L = make_vrEyeRenderViewport (renderTargetSize L).
Proof. reflexivity. Qed.

Lemma locals_vrEyeRenderDesc :
  vrEyeRenderDesc L =
  eyeRenderDesc env (Array2 (at2 (DefaultEyeFov d) 0) (at2 (DefaultEyeFov d) 1)).
Proof. reflexivity. Qed.

Lemma locals_d3dContext : d3dContext L = Some ContextObj.
Proof. reflexivity. Qed.

Lemma locals_d3dConstantBuffer : d3dConstantBuffer L = Some ConstantBufferObj.
Proof. reflexivity. Qed.

Lemma locals_d3dEyeTexture : d3dEyeTexture L = Some EyeTextureObj.
Proof. reflexivity. Qed.

Lemma locals_d3dIntermediaryTexture :
  d3dIntermediaryTexture L =
  if 1 <? MultisampleCount then Some IntermediaryTextureObj else nullptr.
Proof.
  unfold locals, setup. cbn -[Z.ltb CInt.to_UINT make_renderTargetSize Z.mul].
  destruct (1 <? MultisampleCount); reflexivity.
Qed.

Lemma locals_vrEyeTexture :
  vrEyeTexture L =
  make_vrEyeTexture MultisampleCount (renderTargetSize L) (vrEyeRenderViewport L)
    (Some EyeTextureObj) (Some EyeTextureShaderResourceViewObj)
    (if 1 <? MultisampleCount then Some IntermediaryTextureObj else nullptr)
    (if 1 <? MultisampleCount
     then Some IntermediaryTextureShaderResourceViewObj else nullptr).
Proof.
  unfold locals, setup. cbn -[Z.ltb CInt.to_UINT make_renderTargetSize Z.mul
                              make_vrEyeTexture make_vrEyeRenderViewport].
  destruct (1 <? MultisampleCount); reflexivity.
Qed.

End LocalsAfterSetup.

(** ** The stereo frame *)

Lemma spec_eye_events_are_eye_events {sdk : OVR_SDK} L poses eye :
  filter is_eye_event (spec_eye_events L poses eye) = spec_eye_events L poses eye.
Proof. reflexivity. Qed.

(** C1. In every frame the two eyes are handled in the order of the HMD's
    [EyeRenderOrder]; for each, the program sets that eye's viewport,
    uploads the transposed product of the projection (that eye's field of
    view, near 0.01, far 10000) and the right-handed look-at view of the
    world pose (body yaw 0.9 about the up axis times the tracked rotation;
    body position (0.5, 0.5, 0) plus the yaw-rotated tracked translation)
    as 16 floats into the constant buffer, and draws 3 vertices.  These
    are all the per-eye calls of a run, and the uploaded matrix is the
    function [spec_transform] of the eye's field of view and tracked
    pose. *)
Theorem frame_renders_both_eyes_in_hmd_order
    {sdk : OVR_SDK} (MultisampleCount : Z) (env : Env) (d : ovrHmdDesc) (fuel : nat) :
  hmd env = Some d ->
  let L := locals MultisampleCount env d in
  let eyes n :=
    spec_eye_events L (eyePoses env n) (at2 (EyeRenderOrder d) 0) ++
    spec_eye_events L (eyePoses env n) (at2 (EyeRenderOrder d) 1) in
  (forall n, exists head tail,
      trace (render_frame MultisampleCount env L n) = head ++ eyes n ++ tail /\
      filter is_eye_event head = [] /\ filter is_eye_event tail = []) /\
  filter is_eye_event (trace (WinMain MultisampleCount env fuel)) =
    List.concat (map eyes (seq 0 (iterations env fuel 0))) /\
  count is_BeginFrame (trace (WinMain MultisampleCount env fuel)) =
    iterations env fuel 0 /\
  vrEyeRenderViewport L = make_vrEyeRenderViewport (renderTargetSize L) /\
  vrEyeRenderDesc L =
    eyeRenderDesc env (Array2 (at2 (DefaultEyeFov d) 0) (at2 (DefaultEyeFov d) 1)) /\
  d3dContext L = Some ContextObj /\
  d3dConstantBuffer L = Some ConstantBufferObj.
Proof.
  intros Hhmd L eyes.
  assert (Hframe : forall n,
             filter is_eye_event (trace (render_frame MultisampleCount env L n)) = eyes n).
  { intros n. rewrite render_frame_trace. unfold eyes.
    destruct (1 <? MultisampleCount); reflexivity. }
  assert (Hpump : forall msgs keep, filter is_eye_event (trace (pump msgs keep)) = []).
  { intros msgs keep. apply (filter_none _ (fun e => negb (is_eye_event e))).
    - rewrite pump_trace. apply Forall_app. split.
      + apply Forall_flat_map. apply Forall_forall. intros msg _.
        unfold msg_events. destruct (message msg =? WM_KEYDOWN); repeat constructor.
      + repeat constructor.
    - intros e He. now destruct (is_eye_event e). }
  repeat split.
  - intros n. rewrite render_frame_trace.
    exists [ ovrHmd_BeginFrame 0;
             ovrHmd_GetEyePoses 0 (vrHmdToEyeViewOffset L);
             ClearRenderTargetView (d3dContext L) (d3dEyeTextureRenderTargetView L)
               [float_lit (2 # 10); float_lit (3 # 10); float_lit (2 # 10); float_lit 1];
             ClearDepthStencilView (d3dContext L) (d3dDepthStencilView L)
               [D3D11_CLEAR_DEPTH; D3D11_CLEAR_STENCIL] (float_lit 1) 0;
             OMSetRenderTargets (d3dContext L) (d3dEyeTextureRenderTargetView L)
               (d3dDepthStencilView L) ].
    exists ((if 1 <? MultisampleCount
             then [ResolveSubresource (d3dContext L) (d3dIntermediaryTexture L)
                     (d3dEyeTexture L) DXGI_FORMAT_R8G8B8A8_UNORM]
             else []) ++
            [ovrHmd_EndFrame (eyePoses env n) (vrEyeTexture L)]).
    split; [|split].
    + unfold eyes. now rewrite <- !app_assoc.
    + reflexivity.
    + destruct (1 <? MultisampleCount); reflexivity.
  - rewrite (WinMain_filter_loop _ _ is_eye_event d fuel Hhmd).
    + f_equal. apply map_ext. intros n. unfold iteration_trace.
      fold L. now rewrite filter_app, Hpump, Hframe.
    + intros e He. now destruct e.
  - unfold count. rewrite (WinMain_filter_loop _ _ is_BeginFrame d fuel Hhmd).
    + rewrite (length_concat_const _ 1%nat).
      * rewrite length_seq. lia.
      * intros n. unfold iteration_trace. rewrite filter_app, render_frame_trace.
        rewrite (filter_none is_BeginFrame (fun e => negb (is_BeginFrame e))
                   (trace (pump _ _))).
        -- destruct (1 <? MultisampleCount); reflexivity.
        -- rewrite pump_trace. apply Forall_app. split.
           ++ apply Forall_flat_map. apply Forall_forall. intros msg _.
              unfold msg_events. destruct (message msg =? WM_KEYDOWN); repeat constructor.
           ++ repeat constructor.
        -- intros e He. now destruct (is_BeginFrame e).
    + intros e He. now destruct e.
Qed.

Lemma frame_renders_both_eyes_in_hmd_order_witness :
  hmd Example.session = Some Example.device /\
  count is_BeginFrame (trace (WinMain (sdk := Sym.sdk) 4 Example.session 3)) = 2%nat.
Proof.
  split.
  - reflexivity.
  - exact (proj1 (proj2 (proj2
      (frame_renders_both_eyes_in_hmd_order 4 Example.session Example.device 3
         eq_refl)))).
Defined.

(** ** Counting the calls of the loop *)

Section LoopCounts.

Context {sdk : OVR_SDK}.
Variable MultisampleCount : Z.
Variable env : Env.

Lemma pump_no_render_events msgs keepRunning :
  Forall (fun e => is_render_event e = false) (trace (pump msgs keepRunning)).
Proof.
  rewrite pump_trace. apply Forall_app. split.
  - apply Forall_flat_map. apply Forall_forall. intros msg _.
    unfold msg_events. destruct (message msg =? WM_KEYDOWN); repeat constructor.
  - repeat constructor.
Qed.

Lemma pump_filter_render p msgs keepRunning :
  (forall e, p e = true -> is_render_event e = true) ->
  filter p (trace (pump msgs keepRunning)) = [].
Proof.
  intros Hp. apply (filter_none p (fun e => negb (is_render_event e))).
  - eapply Forall_impl; [|apply pump_no_render_events].
    intros e He. cbn beta in He. now rewrite He.
  - intros e He. destruct (p e) eqn:Hpe; [|reflexivity].
    apply Hp in Hpe. rewrite Hpe in He. discriminate He.
Qed.

Lemma render_event_is_loop_event (e : event) :
  is_render_event e = true -> is_loop_event e = true.
Proof. now destruct e. Qed.

(** When every frame has [c] events of a rendering kind [p], a run has
    [c] of them per iteration. *)
Lemma WinMain_count_render p c d fuel :
  hmd env = Some d ->
  (forall e, p e = true -> is_render_event e = true) ->
  (forall n, count p (trace (render_frame MultisampleCount env
                               (locals MultisampleCount env d) n)) = c) ->
  count p (trace (WinMain MultisampleCount env fuel)) =
  (iterations env fuel 0 * c)%nat.
Proof.
  intros Hhmd Hp Hc. unfold count.
  rewrite (WinMain_filter_loop _ _ p d fuel Hhmd).
  - rewrite (length_concat_const _ c); [now rewrite length_seq|].
    intros n. unfold iteration_trace.
    rewrite filter_app, pump_filter_render by exact Hp. apply Hc.
  - intros e He. apply render_event_is_loop_event. now apply Hp.
Qed.

(** An event of a rendering kind in a run is in one of its frames. *)
Lemma WinMain_In_frame e d fuel :
  hmd env = Some d ->
  In e (trace (WinMain MultisampleCount env fuel)) ->
  is_render_event e = true ->
  exists n, (n < iterations env fuel 0)%nat /\
            In e (trace (render_frame MultisampleCount env
                           (locals MultisampleCount env d) n)).
Proof.
  intros Hhmd Hin He.
  destruct (WinMain_In_loop _ _ e d fuel Hhmd Hin
              (render_event_is_loop_event e He)) as [n [Hn Hit]].
  exists n. split; [exact Hn|].
  unfold iteration_trace in Hit. apply in_app_or in Hit.
  destruct Hit as [Hit|Hit]; [|exact Hit].
  pose proof (pump_no_render_events (messages env n) true) as Hs.
  rewrite Forall_forall in Hs. apply Hs in Hit. congruence.
Qed.

End LoopCounts.

(** ** Multisampling *)

(** C5. The resolve of the multisampled eye texture into the intermediary
    texture is made in a frame exactly when [MultisampleCount] exceeds 1
    (once per frame then, never otherwise), and the texture and shader
    resource view handed to [ovrHmd_EndFrame] for both eyes are the
    intermediary ones when it does and the eye texture's own when it does
    not. *)
Theorem resolve_exactly_when_multisampling
    {sdk : OVR_SDK} (MultisampleCount : Z) (env : Env) (d : ovrHmdDesc) (fuel : nat) :
  hmd env = Some d ->
  let t := trace (WinMain MultisampleCount env fuel) in
  let L := locals MultisampleCount env d in
  (forall n, count is_Resolve (trace (render_frame MultisampleCount env L n)) =
             if 1 <? MultisampleCount then 1%nat else 0%nat) /\
  count is_Resolve t = (if 1 <? MultisampleCount then count is_EndFrame t else 0%nat) /\
  (forall this dst src fmt,
      In (ResolveSubresource this dst src fmt) t ->
      1 < MultisampleCount /\
      dst = Some IntermediaryTextureObj /\ src = Some EyeTextureObj) /\
  (forall poses texs i,
      In (ovrHmd_EndFrame poses texs) t ->
      pTexture (at2 texs i) =
        (if 1 <? MultisampleCount
         then Some IntermediaryTextureObj else Some EyeTextureObj) /\
      pSRView (at2 texs i) =
        (if 1 <? MultisampleCount
         then Some IntermediaryTextureShaderResourceViewObj
         else Some EyeTextureShaderResourceViewObj)).
Proof.
  intros Hhmd t L.
  assert (Hres : forall n,
             count is_Resolve (trace (render_frame MultisampleCount env L n)) =
             if 1 <? MultisampleCount then 1%nat else 0%nat).
  { intros n. rewrite render_frame_trace.
    destruct (1 <? MultisampleCount); reflexivity. }
  assert (Hend : forall n,
             count is_EndFrame (trace (render_frame MultisampleCount env L n)) = 1%nat).
  { intros n. rewrite render_frame_trace.
    destruct (1 <? MultisampleCount); reflexivity. }
  split; [exact Hres|]. split; [|split].
  - unfold t.
    rewrite (WinMain_count_render _ _ is_Resolve _ d fuel Hhmd
               ltac:(intros e He; now destruct e) Hres).
    rewrite (WinMain_count_render _ _ is_EndFrame _ d fuel Hhmd
               ltac:(intros e He; now destruct e) Hend).
    destruct (1 <? MultisampleCount); lia.
  - intros this dst src fmt Hin.
    destruct (WinMain_In_frame _ _ _ d fuel Hhmd Hin eq_refl) as [n [_ Hfr]].
    rewrite render_frame_trace in Hfr. fold L in Hfr.
    pose proof (locals_d3dIntermediaryTexture MultisampleCount env d) as Hint.
    fold L in Hint.
    destruct (Z.ltb_spec 1 MultisampleCount) as [Hms|Hms];
      cbn [app In spec_eye_events] in Hfr; in_cases Hfr.
    assert (Hdst : dst = d3dIntermediaryTexture L) by congruence.
    assert (Hsrc : src = d3dEyeTexture L) by congruence.
    rewrite Hdst, Hsrc, Hint. now repeat split.
  - intros poses texs i Hin.
    destruct (WinMain_In_frame _ _ _ d fuel Hhmd Hin eq_refl) as [n [_ Hfr]].
    rewrite render_frame_trace in Hfr. fold L in Hfr.
    assert (Htex : texs = vrEyeTexture L).
    { destruct (1 <? MultisampleCount); cbn [app In spec_eye_events] in Hfr;
        in_cases Hfr; congruence. }
    subst texs. unfold L. rewrite locals_vrEyeTexture. unfold make_vrEyeTexture.
    destruct (1 <? MultisampleCount); destruct i as [|i]; split; reflexivity.
Qed.

Lemma resolve_exactly_when_multisampling_witness :
  hmd Example.session = Some Example.device /\
  count is_Resolve (trace (WinMain (sdk := Sym.sdk) 4 Example.session 3)) =
  count is_EndFrame (trace (WinMain (sdk := Sym.sdk) 4 Example.session 3)).
Proof.
  split.
  - reflexivity.
  - exact (proj1 (proj2
      (resolve_exactly_when_multisampling 4 Example.session Example.device 3
         eq_refl))).
Defined.

(** ** The eye texture descriptors *)

(** C10. The two texture descriptors handed to [ovrHmd_EndFrame] agree in
    the API, the texture size, the texture pointer and the shader resource
    view pointer; descriptor 1 is descriptor 0 with its render viewport
    replaced by the right-eye viewport [vrEyeRenderViewport[1]], and
    descriptor 0 carries [vrEyeRenderViewport[0]]. *)
Theorem right_eye_texture_is_left_with_right_viewport
    {sdk : OVR_SDK} (MultisampleCount : Z) (env : Env) (d : ovrHmdDesc) (fuel : nat)
    (poses : array2 ovrPosef) (texs : array2 ovrD3D11Texture) :
  hmd env = Some d ->
  In (ovrHmd_EndFrame poses texs) (trace (WinMain MultisampleCount env fuel)) ->
  let L := locals MultisampleCount env d in
  Header_API (at2 texs 1) = Header_API (at2 texs 0) /\
  Header_TextureSize (at2 texs 1) = Header_TextureSize (at2 texs 0) /\
  pTexture (at2 texs 1) = pTexture (at2 texs 0) /\
  pSRView (at2 texs 1) = pSRView (at2 texs 0) /\
  at2 texs 1 = set_RenderViewport (at2 texs 0) (at2 (vrEyeRenderViewport L) 1) /\
  Header_RenderViewport (at2 texs 1) = at2 (vrEyeRenderViewport L) 1 /\
  Header_RenderViewport (at2 texs 0) = at2 (vrEyeRenderViewport L) 0.
Proof.
  intros Hhmd Hin L.
  destruct (WinMain_In_frame _ _ _ d fuel Hhmd Hin eq_refl) as [n [_ Hfr]].
  rewrite render_frame_trace in Hfr. fold L in Hfr.
  assert (Htex : texs = vrEyeTexture L).
  { destruct (1 <? MultisampleCount); cbn [app In spec_eye_events] in Hfr;
      in_cases Hfr; congruence. }
  subst texs. unfold L. rewrite locals_vrEyeTexture. unfold make_vrEyeTexture.
  destruct (1 <? MultisampleCount); repeat split; reflexivity.
Qed.

(** Finds an event in a computed trace. *)
Ltac find_event := vm_compute; repeat (try (left; reflexivity); right).

Lemma right_eye_texture_is_left_with_right_viewport_witness :
  let L := locals (sdk := Sym.sdk) 4 Example.session Example.device in
  hmd Example.session = Some Example.device /\
  In (ovrHmd_EndFrame (eyePoses Example.session 0) (vrEyeTexture L))
     (trace (WinMain 4 Example.session 3)) /\
  pTexture (at2 (vrEyeTexture L) 1) = pTexture (at2 (vrEyeTexture L) 0).
Proof.
  intros L.
  assert (Hin : In (ovrHmd_EndFrame (eyePoses Example.session 0) (vrEyeTexture L))
                   (trace (WinMain 4 Example.session 3))) by find_event.
  split; [reflexivity|]. split; [exact Hin|].
  exact (proj1 (proj2 (proj2
    (right_eye_texture_is_left_with_right_viewport 4 Example.session Example.device 3
       _ _ eq_refl Hin)))).
Defined.

(** ** The message pump *)

Section Pump.

Context {sdk : OVR_SDK}.

Lemma msg_events_recenter msgs :
  count is_RecenterPose (flat_map msg_events msgs) = List.length (filter is_keydown msgs).
Proof.
  induction msgs as [|msg rest IH]; [reflexivity|].
  cbn [flat_map filter]. rewrite count_app, IH.
  unfold msg_events, is_keydown. destruct (message msg =? WM_KEYDOWN); reflexivity.
Qed.

Lemma msg_events_dismiss msgs :
  count is_DismissHSWDisplay (flat_map msg_events msgs) =
  List.length (filter is_keydown msgs).
Proof.
  induction msgs as [|msg rest IH]; [reflexivity|].
  cbn [flat_map filter]. rewrite count_app, IH.
  unfold msg_events, is_keydown. destruct (message msg =? WM_KEYDOWN); reflexivity.
Qed.

Lemma msg_events_drained_keydown msgs :
  count (is_drained WM_KEYDOWN) (flat_map msg_events msgs) =
  List.length (filter is_keydown msgs).
Proof.
  induction msgs as [|msg rest IH]; [reflexivity|].
  cbn [flat_map filter]. rewrite count_app, IH.
  unfold msg_events, is_keydown, count. cbn [app filter is_drained].
  destruct (message msg =? WM_KEYDOWN); reflexivity.
Qed.

Lemma quit_in_iff msgs :
  quit_in msgs = true <-> exists msg, In msg msgs /\ message msg = WM_QUIT.
Proof.
  unfold quit_in. rewrite existsb_exists. split; intros [msg [Hin Hq]];
    exists msg; split; try assumption; now apply Z.eqb_eq.
Qed.

Lemma length_concat_ext {A B C} (f : A -> list B) (g : A -> list C) (l : list A) :
  (forall a, List.length (f a) = List.length (g a)) ->
  List.length (List.concat (map f l)) = List.length (List.concat (map g l)).
Proof.
  intros Hfg. induction l as [|a l IH]; [reflexivity|].
  cbn. now rewrite !length_app, Hfg, IH.
Qed.

End Pump.

(** C8. Each WM_KEYDOWN taken off the queue makes the program recenter
    the pose once and dismiss the health-and-safety warning once, and
    nothing else does: in the pump and in the whole run the numbers of the
    two calls equal the number of key-down messages drained.  A WM_QUIT in
    the drained messages clears [keepRunning], and the frame loop is left
    after the iteration that drained it. *)
Theorem keydown_recenters_and_dismisses
    {sdk : OVR_SDK} (MultisampleCount : Z) (env : Env) (fuel : nat) :
  let t := trace (WinMain MultisampleCount env fuel) in
  count is_RecenterPose t = count (is_drained WM_KEYDOWN) t /\
  count is_DismissHSWDisplay t = count (is_drained WM_KEYDOWN) t /\
  (forall msgs keepRunning,
      count is_RecenterPose (trace (pump msgs keepRunning)) =
        List.length (filter is_keydown msgs) /\
      count is_DismissHSWDisplay (trace (pump msgs keepRunning)) =
        List.length (filter is_keydown msgs)) /\
  (forall msgs,
      result (pump (sdk := sdk) msgs true) = false <->
      exists msg, In msg msgs /\ message msg = WM_QUIT) /\
  (forall L fuel' n,
      (exists msg, In msg (messages env n) /\ message msg = WM_QUIT) ->
      result (frame_loop MultisampleCount env L (S fuel') n true) = true /\
      trace (frame_loop MultisampleCount env L (S fuel') n true) =
        iteration_trace MultisampleCount env L n).
Proof.
  intros t.
  assert (Hpump : forall p msgs keepRunning,
             p (PeekMessage None) = false ->
             count p (trace (pump msgs keepRunning)) =
             count p (flat_map msg_events msgs)).
  { intros p msgs keepRunning Hp. rewrite pump_trace, count_app.
    unfold count at 2. cbn [filter]. rewrite Hp. cbn. lia. }
  assert (Hrun : forall p,
             p (PeekMessage None) = false ->
             (forall e, p e = true -> is_loop_event e = true) ->
             (forall e, p e = true -> is_render_event e = false) ->
             (forall msgs, count p (flat_map msg_events msgs) =
                           List.length (filter is_keydown msgs)) ->
             count p t = count (is_drained WM_KEYDOWN) t).
  { intros p Hnone Hloop Hrender Hmsgs. unfold t.
    destruct (hmd env) as [d|] eqn:Hhmd.
    - unfold count.
      rewrite (WinMain_filter_loop _ _ p d fuel Hhmd Hloop).
      rewrite (WinMain_filter_loop _ _ (is_drained WM_KEYDOWN) d fuel Hhmd)
        by (intros e He; now destruct e).
      apply length_concat_ext. intros n. unfold iteration_trace.
      rewrite !filter_app, !length_app.
      fold (count p (trace (pump (messages env n) true))).
      fold (count (is_drained WM_KEYDOWN) (trace (pump (messages env n) true))).
      rewrite !Hpump by (exact Hnone || reflexivity).
      rewrite Hmsgs, msg_events_drained_keydown. f_equal.
      rewrite (filter_none p is_render_event).
      + rewrite (filter_none (is_drained WM_KEYDOWN) is_render_event).
        * reflexivity.
        * rewrite render_frame_trace. unfold spec_eye_events.
          destruct (1 <? MultisampleCount); repeat constructor.
        * intros e He. now destruct e.
      + rewrite render_frame_trace. unfold spec_eye_events.
        destruct (1 <? MultisampleCount); repeat constructor.
      + intros e He. destruct (p e) eqn:Hpe; [|reflexivity].
        apply Hrender in Hpe. congruence.
    - rewrite (WinMain_without_hmd _ _ fuel Hhmd). cbn [trace snd].
      unfold count. cbn [filter is_drained].
      assert (Hout : forall e, is_loop_event e = false -> p e = false).
      { intros e He. destruct (p e) eqn:Hpe; [|reflexivity].
        apply Hloop in Hpe. congruence. }
      now rewrite !Hout by reflexivity. }
  split; [|split; [|split; [|split]]].
  - apply Hrun; try reflexivity.
    + intros e He. now destruct e.
    + intros e He. now destruct e.
    + apply msg_events_recenter.
  - apply Hrun; try reflexivity.
    + intros e He. now destruct e.
    + intros e He. now destruct e.
    + apply msg_events_dismiss.
  - intros msgs keepRunning. rewrite !Hpump by reflexivity.
    split; [apply msg_events_recenter|apply msg_events_dismiss].
  - intros msgs. rewrite pump_result. cbn [andb].
    rewrite negb_false_iff. apply quit_in_iff.
  - intros L fuel' n Hq. apply quit_in_iff in Hq.
    rewrite frame_loop_result, frame_loop_trace. cbn [loop_left iterations].
    rewrite Hq. split; [reflexivity|]. cbn. now rewrite app_nil_r.
Qed.

Lemma keydown_recenters_and_dismisses_witness :
  (exists msg, In msg (messages Example.session 1) /\ message msg = WM_QUIT) /\
  result (frame_loop (sdk := Sym.sdk) 4 Example.session
            (locals 4 Example.session Example.device) 1 1 true) = true.
Proof.
  assert (Hq : exists msg, In msg (messages Example.session 1) /\ message msg = WM_QUIT).
  { exists {| message := WM_QUIT; wParam := 0; lParam := 0 |}.
    split; [right; left; reflexivity|reflexivity]. }
  split; [exact Hq|].
  exact (proj1 (proj2 (proj2 (proj2 (proj2
    (keydown_recenters_and_dismisses 4 Example.session 3))))
      (locals 4 Example.session Example.device) 0%nat 1%nat Hq)).
Defined.

(** ** Leaving the loop *)

Lemma seq_snoc (k : nat) : seq 0 (S k) = seq 0 k ++ [k].
Proof. now rewrite seq_S. Qed.

Lemma concat_map_snoc {A B} (f : A -> list B) (l : list A) (a : A) :
  List.concat (map f (l ++ [a])) = List.concat (map f l) ++ f a.
Proof. now rewrite map_app, concat_app; cbn; rewrite app_nil_r. Qed.

Lemma count_concat_const {sdk : OVR_SDK} {A} p (f : A -> list event) (c : nat) (l : list A) :
  (forall a, In a l -> count p (f a) = c) ->
  count p (List.concat (map f l)) = (List.length l * c)%nat.
Proof.
  intros Hf. induction l as [|a l IH]; [reflexivity|].
  cbn [map List.concat List.length]. rewrite count_app, Hf by now left.
  rewrite IH; [lia|]. intros b Hb. apply Hf. now right.
Qed.

Lemma count_outside_loop {sdk : OVR_SDK} p (s : list event) :
  Forall (fun e => is_loop_event e = false) s ->
  (forall e, p e = true -> is_loop_event e = true) ->
  count p s = 0%nat.
Proof.
  intros Hs Hp. unfold count.
  rewrite (filter_none p (fun e => negb (is_loop_event e))); [reflexivity| |].
  - eapply Forall_impl; [|exact Hs]. intros e He. cbn beta in He. now rewrite He.
  - intros e He. destruct (p e) eqn:Hpe; [|reflexivity].
    apply Hp in Hpe. rewrite Hpe in He. discriminate He.
Qed.

Lemma count_render_in_pump {sdk : OVR_SDK} p msgs keepRunning :
  (forall e, p e = true -> is_render_event e = true) ->
  count p (trace (pump msgs keepRunning)) = 0%nat.
Proof.
  intros Hp. unfold count. now rewrite pump_filter_render.
Qed.

Lemma quit_in_count {sdk : OVR_SDK} msgs keepRunning :
  count (is_drained WM_QUIT) (trace (pump msgs keepRunning)) =
  List.length (filter (fun msg => message msg =? WM_QUIT) msgs).
Proof.
  rewrite pump_trace, count_app. unfold count at 2. cbn [filter is_drained].
  cbn [List.length]. rewrite Nat.add_0_r.
  induction msgs as [|msg rest IH]; [reflexivity|].
  cbn [flat_map filter]. rewrite count_app, IH.
  unfold msg_events, count. cbn [app filter is_drained].
  destruct (message msg =? WM_QUIT), (message msg =? WM_KEYDOWN); reflexivity.
Qed.

Lemma quit_in_length msgs :
  quit_in msgs =
  negb (Nat.eqb (List.length (filter (fun msg => message msg =? WM_QUIT) msgs)) 0).
Proof.
  induction msgs as [|msg rest IH]; [reflexivity|].
  cbn [quit_in existsb filter]. fold (quit_in rest).
  destruct (message msg =? WM_QUIT); [reflexivity|exact IH].
Qed.

(** C9. A WM_QUIT does not end the iteration that drains it: when the
    first WM_QUIT is drained in iteration [k], the run is everything up to
    that iteration (in which no WM_QUIT was drained and [k] frames were
    begun), then the pump of iteration [k] (which drains it and begins no
    frame), then one complete frame (begun once, two draws, the resolve
    exactly when multisampling, ended once, as its last call), then the
    cleanup part, in which no frame is begun; the program returns the
    success status. *)
Theorem quit_is_followed_by_one_last_frame
    {sdk : OVR_SDK} (MultisampleCount : Z) (env : Env) (d : ovrHmdDesc) (k fuel : nat) :
  hmd env = Some d ->
  first_quit env k ->
  (k < fuel)%nat ->
  let L := locals MultisampleCount env d in
  let drain := trace (pump (messages env k) true) in
  let frame := trace (render_frame MultisampleCount env L k) in
  exists before,
    trace (WinMain MultisampleCount env fuel) =
      before ++ drain ++ frame ++ trace (cleanup L) /\
    result (WinMain MultisampleCount env fuel) = Some EXIT_SUCCESS /\
    count (is_drained WM_QUIT) before = 0%nat /\
    count is_BeginFrame before = k /\
    (0 < count (is_drained WM_QUIT) drain)%nat /\
    count is_BeginFrame drain = 0%nat /\
    (exists mid,
        frame = ovrHmd_BeginFrame 0 :: mid ++
                [ovrHmd_EndFrame (eyePoses env k) (vrEyeTexture L)] /\
        count is_BeginFrame mid = 0%nat /\
        count is_EndFrame mid = 0%nat /\
        count is_Draw mid = 2%nat /\
        count is_Resolve mid = if 1 <? MultisampleCount then 1%nat else 0%nat) /\
    count is_BeginFrame (trace (cleanup L)) = 0%nat /\
    count (is_drained WM_QUIT) (frame ++ trace (cleanup L)) = 0%nat.
Proof.
  intros Hhmd Hfirst Hfuel L drain frame.
  destruct (first_quit_ends_loop env k fuel Hfirst Hfuel) as [Hit Hleft].
  pose proof (WinMain_with_hmd MultisampleCount env d fuel Hhmd) as Hrun.
  rewrite Hit, Hleft, seq_snoc, concat_map_snoc in Hrun. fold L in Hrun.
  set (loop_before :=
         List.concat (map (iteration_trace MultisampleCount env L) (seq 0 k))) in Hrun.
  destruct Hfirst as [Hquit Hnone].
  assert (Hframe0 : count (is_drained WM_QUIT) frame = 0%nat).
  { unfold frame. rewrite render_frame_trace. unfold spec_eye_events.
    destruct (1 <? MultisampleCount); reflexivity. }
  exists ([SetProcessDPIAware; ovr_Initialize; ovrHmd_Create 0] ++
          trace (setup MultisampleCount env d) ++ loop_before).
  split; [|split; [|split; [|split; [|split; [|split; [|split; [|split]]]]]]].
  - rewrite Hrun. cbn [trace snd]. unfold iteration_trace. fold drain frame.
    now rewrite <- !app_assoc.
  - now rewrite Hrun.
  - rewrite !count_app.
    rewrite (count_outside_loop _ (trace (setup MultisampleCount env d)))
      by (apply setup_no_loop_events || (intros e He; now destruct e)).
    unfold loop_before. rewrite (count_concat_const _ _ 0%nat).
    + cbn. lia.
    + intros n Hn. apply in_seq in Hn. unfold iteration_trace.
      rewrite count_app, quit_in_count.
      pose proof (Hnone n ltac:(lia)) as Hq. rewrite quit_in_length in Hq.
      apply negb_false_iff, Nat.eqb_eq in Hq. rewrite Hq.
      rewrite render_frame_trace. unfold spec_eye_events.
      destruct (1 <? MultisampleCount); reflexivity.
  - rewrite !count_app.
    rewrite (count_outside_loop _ (trace (setup MultisampleCount env d)))
      by (apply setup_no_loop_events || (intros e He; now destruct e)).
    unfold loop_before. rewrite (count_concat_const _ _ 1%nat).
    + rewrite length_seq. cbn. lia.
    + intros n _. unfold iteration_trace.
      rewrite count_app, count_render_in_pump by (intros e He; now destruct e).
      rewrite render_frame_trace. unfold spec_eye_events.
      destruct (1 <? MultisampleCount); reflexivity.
  - unfold drain. rewrite quit_in_count. rewrite quit_in_length in Hquit.
    apply negb_true_iff, Nat.eqb_neq in Hquit. lia.
  - unfold drain. apply count_render_in_pump. intros e He. now destruct e.
  - unfold frame. rewrite render_frame_trace.
    eexists. split; [|split; [|split; [|split]]].
    + cbn [app]. f_equal. rewrite !app_comm_cons, !app_assoc. reflexivity.
    + unfold spec_eye_events. destruct (1 <? MultisampleCount); reflexivity.
    + unfold spec_eye_events. destruct (1 <? MultisampleCount); reflexivity.
    + unfold spec_eye_events. destruct (1 <? MultisampleCount); reflexivity.
    + unfold spec_eye_events. destruct (1 <? MultisampleCount); reflexivity.
  - apply count_outside_loop; [apply cleanup_no_loop_events|].
    intros e He. now destruct e.
  - rewrite count_app, Hframe0.
    apply count_outside_loop; [apply cleanup_no_loop_events|].
    intros e He. now destruct e.
Qed.

Lemma quit_is_followed_by_one_last_frame_witness :
  hmd Example.session = Some Example.device /\
  first_quit Example.session 1 /\
  (1 < 3)%nat /\
  result (WinMain (sdk := Sym.sdk) 4 Example.session 3) = Some EXIT_SUCCESS.
Proof.
  assert (Hq : first_quit Example.session 1).
  { split; [reflexivity|]. intros i Hi. now replace i with 0%nat by lia. }
  split; [reflexivity|]. split; [exact Hq|]. split; [lia|].
  destruct (quit_is_followed_by_one_last_frame 4 Example.session Example.device 1 3
              eq_refl Hq ltac:(lia)) as [before [_ [Hres _]]].
  exact Hres.
Defined.

(** ** Creation calls that fail *)

Section Refinement.

Context {sdk : OVR_SDK}.
Variable MultisampleCount : Z.
Variable env : Env.
Variable created : handle -> bool.

Lemma U_fst_bind {A B} (m : Unchecked.U A) (k : A -> Unchecked.U B) :
  fst (Unchecked.bind m k) =
  match fst m with Some a => fst (k a) | None => None end.
Proof. unfold Unchecked.bind. now destruct (fst m). Qed.

Lemma U_snd_bind {A B} (m : Unchecked.U A) (k : A -> Unchecked.U B) :
  snd (Unchecked.bind m k) =
  snd m ++ match fst m with Some a => snd (k a) | None => [] end.
Proof. unfold Unchecked.bind. destruct (fst m); [reflexivity|]. cbn. now rewrite app_nil_r. Qed.

Lemma U_bind_lift {A B} (m : W event A) (k : A -> Unchecked.U B) :
  Unchecked.bind (Unchecked.lift m) k =
  (fst (k (result m)), trace m ++ snd (k (result m))).
Proof. reflexivity. Qed.

Lemma setup_refines d :
  (forall obj, created obj = true) ->
  Unchecked.setup MultisampleCount env created d =
  Unchecked.lift (setup MultisampleCount env d).
Proof.
  intros Hall.
  unfold Unchecked.setup, Unchecked.SetupScene, Unchecked.create_through,
    Unchecked.create, Unchecked.handed.
  rewrite !Hall.
  unfold setup.
  destruct (1 <? MultisampleCount); reflexivity.
Qed.

Lemma render_frame_refines L n c :
  d3dContext L = Some c ->
  Unchecked.render_frame MultisampleCount env L n =
  Unchecked.lift (render_frame MultisampleCount env L n).
Proof.
  intros Hc.
  unfold Unchecked.render_frame, Unchecked.render_eye, render_frame, render_eye,
    Unchecked.when, when.
  rewrite Hc.
  destruct (1 <? MultisampleCount); reflexivity.
Qed.

Lemma frame_loop_refines L c fuel : forall n keepRunning,
  d3dContext L = Some c ->
  Unchecked.frame_loop MultisampleCount env L fuel n keepRunning =
  Unchecked.lift (frame_loop MultisampleCount env L fuel n keepRunning).
Proof.
  induction fuel as [|fuel IH]; intros n keepRunning Hc.
  - now destruct keepRunning.
  - destruct keepRunning; [|reflexivity].
    cbn [Unchecked.frame_loop frame_loop].
    rewrite U_bind_lift, (render_frame_refines L n c Hc), U_bind_lift, (IH _ _ Hc).
    reflexivity.
Qed.

Lemma cleanup_refines L :
  forallb is_nonnull (cleanup_pointers L) = true ->
  Unchecked.cleanup L = Unchecked.lift (cleanup L).
Proof.
  unfold cleanup_pointers, Unchecked.cleanup, Unchecked.DestroyScene, cleanup, DestroyScene.
  destruct L as [? ? ? ? ? ? ? sc dev ctx bb dst dsv et etr ets it itr its cb [il vs ps gcb vb]].
  cbn [forallb globals g_d3dConstantBuffer g_d3dVertexBuffer g_d3dInputLayout
         g_d3dVertexShader g_d3dPixelShader d3dDepthStencilView d3dDepthStencilTexture
         d3dEyeTextureRenderTargetView d3dEyeTextureShaderResourceView
         d3dEyeTexture d3dBackBufferRenderTargetView d3dSwapChain d3dContext d3dDevice
         d3dIntermediaryTexture d3dIntermediaryTextureRenderTargetView
         d3dIntermediaryTextureShaderResourceView].
  intros H.
  repeat (apply andb_prop in H; destruct H as [?H H]).
  repeat match goal with
         | H : is_nonnull ?p = true |- _ =>
             destruct p; [clear H|discriminate H]
         end.
  destruct its, itr, it; reflexivity.
Qed.

Lemma cleanup_undefined L :
  forallb is_nonnull (cleanup_pointers L) = false ->
  fst (Unchecked.cleanup L) = None.
Proof.
  unfold cleanup_pointers, Unchecked.cleanup, Unchecked.DestroyScene.
  destruct L as [? ? ? ? ? ? ? sc dev ctx bb dst dsv et etr ets it itr its cb [il vs ps gcb vb]].
  cbn [forallb globals g_d3dConstantBuffer g_d3dVertexBuffer g_d3dInputLayout
         g_d3dVertexShader g_d3dPixelShader d3dDepthStencilView d3dDepthStencilTexture
         d3dEyeTextureRenderTargetView d3dEyeTextureShaderResourceView
         d3dEyeTexture d3dBackBufferRenderTargetView d3dSwapChain d3dContext d3dDevice
         d3dIntermediaryTexture d3dIntermediaryTextureRenderTargetView
         d3dIntermediaryTextureShaderResourceView].
  intros H.
  destruct gcb; [|reflexivity]. destruct vb; [|reflexivity].
  destruct il; [|reflexivity]. destruct vs; [|reflexivity].
  destruct ps; [|reflexivity].
  destruct its, itr, it;
  (destruct dsv; [|reflexivity]); (destruct dst; [|reflexivity]);
  (destruct etr; [|reflexivity]); (destruct ets; [|reflexivity]);
  (destruct et; [|reflexivity]); (destruct bb; [|reflexivity]);
  (destruct sc; [|reflexivity]); (destruct ctx; [|reflexivity]);
  (destruct dev; [|reflexivity]); discriminate H.
Qed.


Lemma is_nonnull_handed obj :
  is_nonnull (Unchecked.handed created obj) = created obj.
Proof. unfold Unchecked.handed. now destruct (created obj). Qed.

Lemma handed_created obj :
  created obj = true -> Unchecked.handed created obj = Some obj.
Proof. unfold Unchecked.handed. now intros ->. Qed.

Lemma handed_not_created obj :
  created obj = false -> Unchecked.handed created obj = nullptr.
Proof. unfold Unchecked.handed. now intros ->. Qed.

Lemma setup_defined d :
  forallb created called_through_in_setup = true ->
  exists L,
    fst (Unchecked.setup MultisampleCount env created d) = Some L /\
    d3dContext L = Some ContextObj /\
    forallb is_nonnull (cleanup_pointers L) =
    forallb created called_through_in_cleanup.
Proof.
  intros H. cbn [called_through_in_setup forallb] in H.
  repeat (apply andb_prop in H; destruct H as [?H H]).
  repeat match goal with
         | H : created _ = true |- _ => apply handed_created in H
         end.
  unfold Unchecked.setup, Unchecked.SetupScene, Unchecked.create_through,
    Unchecked.create.
  repeat match goal with
         | H : Unchecked.handed created _ = Some _ |- _ => rewrite !H
         end.
  destruct (1 <? MultisampleCount).
  - eexists. split; [reflexivity|]. split; [reflexivity|].
    unfold cleanup_pointers.
    cbn [forallb globals g_d3dConstantBuffer g_d3dVertexBuffer g_d3dInputLayout
         g_d3dVertexShader g_d3dPixelShader d3dDepthStencilView d3dDepthStencilTexture
         d3dEyeTextureRenderTargetView d3dEyeTextureShaderResourceView
         d3dEyeTexture d3dBackBufferRenderTargetView d3dSwapChain d3dContext d3dDevice
         called_through_in_cleanup fst snd].
    rewrite !is_nonnull_handed. cbn [is_nonnull]. now rewrite !andb_true_r.
  - eexists. split; [reflexivity|]. split; [reflexivity|].
    unfold cleanup_pointers.
    cbn [forallb globals g_d3dConstantBuffer g_d3dVertexBuffer g_d3dInputLayout
         g_d3dVertexShader g_d3dPixelShader d3dDepthStencilView d3dDepthStencilTexture
         d3dEyeTextureRenderTargetView d3dEyeTextureShaderResourceView
         d3dEyeTexture d3dBackBufferRenderTargetView d3dSwapChain d3dContext d3dDevice
         called_through_in_cleanup fst snd].
    rewrite !is_nonnull_handed. cbn [is_nonnull]. now rewrite !andb_true_r.
Qed.

Lemma setup_undefined d :
  forallb created called_through_in_setup = false ->
  fst (Unchecked.setup MultisampleCount env created d) = None.
Proof.
  intros H. cbn [called_through_in_setup forallb] in H.
  unfold Unchecked.setup, Unchecked.SetupScene, Unchecked.create_through,
    Unchecked.create, Unchecked.handed.
  destruct (created SwapChainObj); [|reflexivity].
  destruct (created DeviceObj); [|reflexivity].
  destruct (created BackBufferObj); [|reflexivity].
  destruct (created BlobVertexShaderObj);
    [|destruct (1 <? MultisampleCount); reflexivity].
  destruct (created BlobPixelShaderObj);
    [|destruct (1 <? MultisampleCount); reflexivity].
  destruct (created ContextObj);
    [discriminate H|destruct (1 <? MultisampleCount); reflexivity].
Qed.


Lemma Unchecked_WinMain_without_hmd fuel :
  hmd env = None ->
  Unchecked.WinMain MultisampleCount env created fuel =
  (Unchecked.Returned EXIT_FAILURE,
   [SetProcessDPIAware; ovr_Initialize; ovrHmd_Create 0;
    MessageBox "Failed initializing HMD, make sure it is connected and turned on."
      "LibOVR error";
    ovr_Shutdown]).
Proof.
  intros Hhmd. unfold Unchecked.WinMain, Unchecked.WinMain_steps.
  unfold Unchecked.bind at 1 2 3 4 5 6. cbn [fst snd Unchecked.emit Unchecked.call].
  now rewrite Hhmd.
Qed.

Lemma Unchecked_WinMain_with_hmd d fuel :
  hmd env = Some d ->
  Unchecked.WinMain MultisampleCount env created fuel =
  (Unchecked.outcome_of (fst (Unchecked.with_hmd MultisampleCount env created d fuel)),
   [SetProcessDPIAware; ovr_Initialize; ovrHmd_Create 0] ++
   snd (Unchecked.with_hmd MultisampleCount env created d fuel)).
Proof.
  intros Hhmd. unfold Unchecked.WinMain, Unchecked.WinMain_steps.
  unfold Unchecked.bind at 1 2 3 4 5 6. cbn [fst snd Unchecked.emit Unchecked.call].
  now rewrite Hhmd.
Qed.

(** When setup meets a null pointer the run ends there. *)
Lemma with_hmd_setup_undefined d fuel :
  fst (Unchecked.setup MultisampleCount env created d) = None ->
  Unchecked.with_hmd MultisampleCount env created d fuel =
  (None, snd (Unchecked.setup MultisampleCount env created d)).
Proof.
  intros H. unfold Unchecked.with_hmd. unfold Unchecked.bind at 1. now rewrite H.
Qed.

(** When setup is through, the loop runs as in the run without failures,
    and the cleanup part decides how the run ends. *)
Lemma with_hmd_setup_defined d fuel L :
  fst (Unchecked.setup MultisampleCount env created d) = Some L ->
  d3dContext L = Some ContextObj ->
  Unchecked.with_hmd MultisampleCount env created d fuel =
  (if loop_left env fuel 0
   then match fst (Unchecked.cleanup L) with
        | Some _ => Some (Some EXIT_SUCCESS)
        | None => None
        end
   else Some None,
   snd (Unchecked.setup MultisampleCount env created d) ++
   List.concat (map (iteration_trace MultisampleCount env L)
                  (seq 0 (iterations env fuel 0))) ++
   (if loop_left env fuel 0 then snd (Unchecked.cleanup L) else [])).
Proof.
  intros HL Hc. unfold Unchecked.with_hmd. unfold Unchecked.bind at 1. rewrite HL.
  rewrite (frame_loop_refines L ContextObj fuel 0 true Hc), U_bind_lift.
  change (fst (let r := ?m in (fst r, ?s ++ snd r))) with (fst m).
  change (snd (let r := ?m in (fst r, ?s ++ snd r))) with (s ++ snd m).
  rewrite frame_loop_result, frame_loop_trace.
  destruct (loop_left env fuel 0).
  - rewrite U_fst_bind, U_snd_bind.
    destruct (fst (Unchecked.cleanup L)); cbn [fst snd Unchecked.ret];
      now rewrite ?app_nil_r.
  - cbn [fst snd Unchecked.ret]. now rewrite !app_nil_r.
Qed.

(** How a run ends. *)
Lemma Unchecked_outcome fuel :
  fst (Unchecked.WinMain MultisampleCount env created fuel) =
  spec_outcome env created fuel.
Proof.
  unfold spec_outcome. destruct (hmd env) as [d|] eqn:Hhmd.
  - rewrite (Unchecked_WinMain_with_hmd d fuel Hhmd). cbn [fst].
    destruct (forallb created called_through_in_setup) eqn:Hsetup; cbn [negb].
    + destruct (setup_defined d Hsetup) as [L [HL [Hc Hcleanup]]].
      rewrite (with_hmd_setup_defined d fuel L HL Hc). cbn [fst].
      destruct (loop_left env fuel 0); cbn [negb]; [|reflexivity].
      rewrite <- Hcleanup.
      destruct (forallb is_nonnull (cleanup_pointers L)) eqn:Hp.
      * now rewrite (cleanup_refines L Hp).
      * now rewrite (cleanup_undefined L Hp).
    + now rewrite (with_hmd_setup_undefined d fuel (setup_undefined d Hsetup)).
  - now rewrite (Unchecked_WinMain_without_hmd fuel Hhmd).
Qed.

(** When every creation call hands back its object, the run is the one
    of [WinMain]. *)
Lemma WinMain_refines fuel :
  (forall obj, created obj = true) ->
  Unchecked.WinMain MultisampleCount env created fuel =
  (Unchecked.outcome_of (Some (result (WinMain MultisampleCount env fuel))),
   trace (WinMain MultisampleCount env fuel)).
Proof.
  intros Hall. destruct (hmd env) as [d|] eqn:Hhmd.
  - rewrite (Unchecked_WinMain_with_hmd d fuel Hhmd).
    rewrite (WinMain_with_hmd MultisampleCount env d fuel Hhmd).
    cbn [result trace fst snd].
    assert (HL : fst (Unchecked.setup MultisampleCount env created d) =
                 Some (locals MultisampleCount env d))
      by now rewrite (setup_refines d Hall).
    assert (Hc : d3dContext (locals MultisampleCount env d) = Some ContextObj)
      by reflexivity.
    rewrite (with_hmd_setup_defined d fuel _ HL Hc). cbn [fst snd].
    rewrite (setup_refines d Hall). cbn [Unchecked.lift snd].
    assert (Hp : forallb is_nonnull (cleanup_pointers (locals MultisampleCount env d)) = true).
    { unfold locals, setup. destruct (1 <? MultisampleCount); reflexivity. }
    rewrite (cleanup_refines _ Hp). cbn [Unchecked.lift fst snd].
    now destruct (loop_left env fuel 0).
  - rewrite (Unchecked_WinMain_without_hmd fuel Hhmd).
    now rewrite (WinMain_without_hmd MultisampleCount env fuel Hhmd).
Qed.

End Refinement.

Section Failing.

Context {sdk : OVR_SDK}.
Variable MultisampleCount : Z.
Variable env : Env.
Variable created : handle -> bool.

(** Setup begins no frame, wherever it ends. *)
Lemma setup_begins_no_frame d :
  count is_BeginFrame (snd (Unchecked.setup MultisampleCount env created d)) = 0%nat.
Proof.
  unfold Unchecked.setup, Unchecked.SetupScene, Unchecked.create_through,
    Unchecked.create, Unchecked.handed.
  destruct (created SwapChainObj); [|reflexivity].
  destruct (created DeviceObj); [|reflexivity].
  destruct (created BackBufferObj); [|reflexivity].
  destruct (created BlobVertexShaderObj);
    [|destruct (1 <? MultisampleCount); reflexivity].
  destruct (created BlobPixelShaderObj);
    [|destruct (1 <? MultisampleCount); reflexivity].
  destruct (created ContextObj); destruct (1 <? MultisampleCount); reflexivity.
Qed.

(** A run with a device in which setup calls through a null pointer. *)
Lemma WinMain_setup_undefined d fuel :
  hmd env = Some d ->
  forallb created called_through_in_setup = false ->
  Unchecked.WinMain MultisampleCount env created fuel =
  (Unchecked.Undefined,
   [SetProcessDPIAware; ovr_Initialize; ovrHmd_Create 0] ++
   snd (Unchecked.setup MultisampleCount env created d)).
Proof.
  intros Hhmd Hsetup.
  rewrite (Unchecked_WinMain_with_hmd _ _ _ d fuel Hhmd).
  now rewrite (with_hmd_setup_undefined _ _ _ d fuel
                 (setup_undefined _ _ _ d Hsetup)).
Qed.

Lemma setup_without_swap_chain d :
  created SwapChainObj = false ->
  exists calls,
    snd (Unchecked.setup MultisampleCount env created d) =
    calls ++ [GetBuffer nullptr 0 BackBufferObj].
Proof.
  intros H.
  unfold Unchecked.setup, Unchecked.create_through, Unchecked.handed.
  rewrite H.
  eexists [_; _; _; _; _; _; _]. reflexivity.
Qed.

End Failing.

(** ** The exit status *)

Lemma WinMain_frames_begun {sdk : OVR_SDK} MultisampleCount (env : Env) d fuel :
  hmd env = Some d ->
  count is_BeginFrame (trace (WinMain MultisampleCount env fuel)) = iterations env fuel 0.
Proof.
  intros Hhmd.
  rewrite (WinMain_count_render _ _ is_BeginFrame 1%nat d fuel Hhmd).
  - lia.
  - intros e He. now destruct e.
  - intros n. rewrite render_frame_trace. unfold spec_eye_events.
    destruct (1 <? MultisampleCount); reflexivity.
Qed.

Lemma iterations_positive {sdk : OVR_SDK} (env : Env) fuel n :
  (0 < fuel)%nat -> (0 < iterations env fuel n)%nat.
Proof.
  destruct fuel as [|fuel]; [lia|]. intros _. cbn [iterations].
  destruct (quit_in (messages env n)); lia.
Qed.

Lemma loop_left_ext {sdk : OVR_SDK} (env env' : Env) fuel : forall n,
  (forall i, quit_in (messages env' i) = quit_in (messages env i)) ->
  loop_left env' fuel n = loop_left env fuel n.
Proof.
  induction fuel as [|fuel IH]; intros n Hq; [reflexivity|].
  cbn [loop_left]. now rewrite Hq, (IH (S n) Hq).
Qed.

(** How a run ends depends on the environment only through the presence
    of a device and the batches of messages that hold a WM_QUIT. *)
Lemma spec_outcome_ext {sdk : OVR_SDK} (env env' : Env) created fuel :
  (hmd env' = None <-> hmd env = None) ->
  (forall i, quit_in (messages env' i) = quit_in (messages env i)) ->
  spec_outcome env' created fuel = spec_outcome env created fuel.
Proof.
  intros [H1 H2] Hq. unfold spec_outcome. rewrite (loop_left_ext env env' fuel 0 Hq).
  destruct (hmd env) as [d|], (hmd env') as [d'|]; try reflexivity.
  - discriminate (H1 eq_refl).
  - discriminate (H2 eq_refl).
Qed.




(** ** The size of the render target *)

Lemma cleanup_creates_nothing {sdk : OVR_SDK} (L : Locals) :
  Forall (fun e => acquires e = []) (trace (cleanup L)).
Proof.
  unfold cleanup, when, DestroyScene.
  destruct (d3dIntermediaryTextureShaderResourceView L),
           (d3dIntermediaryTextureRenderTargetView L),
           (d3dIntermediaryTexture L); cbn; repeat constructor.
Qed.

Lemma setup_textures {sdk : OVR_SDK} MultisampleCount (env : Env) d this desc out :
  In (CreateTexture2D this desc out) (trace (setup MultisampleCount env d)) ->
  Width desc =
    CInt.to_UINT (w (make_renderTargetSize (ovrEyeDimsLeft env d) (ovrEyeDimsRight env d))) /\
  Height desc =
    CInt.to_UINT (h (make_renderTargetSize (ovrEyeDimsLeft env d) (ovrEyeDimsRight env d))).
Proof.
  unfold setup, ovrEyeDimsLeft, ovrEyeDimsRight.
  destruct (1 <? MultisampleCount);
    cbn -[CInt.to_UINT make_renderTargetSize Z.mul]; intros H;
    in_cases H; inversion H; subst; now split.
Qed.

Lemma setup_creates_depth_and_eye_textures {sdk : OVR_SDK} MultisampleCount (env : Env) d :
  (exists desc,
      In (CreateTexture2D (Some DeviceObj) desc DepthStencilTextureObj)
         (trace (setup MultisampleCount env d))) /\
  (exists desc,
      In (CreateTexture2D (Some DeviceObj) desc EyeTextureObj)
         (trace (setup MultisampleCount env d))).
Proof.
  unfold setup.
  split; eexists; destruct (1 <? MultisampleCount);
    cbn -[CInt.to_UINT make_renderTargetSize Z.mul];
    repeat (try (left; reflexivity); right).
Qed.

(** C2. With recommended sizes that are texture sizes (non-negative, and
    a sum of widths that an [int] holds), the width of the shared render
    target is the sum of the widths returned by the left-eye and the
    right-eye size query and its height is the larger of the two heights;
    the depth-stencil texture and the eye texture are created, and every
    texture the program creates has exactly this width and height. *)
Theorem render_target_is_sum_of_widths_and_max_of_heights
    {sdk : OVR_SDK} (MultisampleCount : Z) (env : Env) (d : ovrHmdDesc) (fuel : nat) :
  hmd env = Some d ->
  let l := ovrEyeDimsLeft env d in
  let r := ovrEyeDimsRight env d in
  0 <= w l -> 0 <= w r -> w l + w r <= CInt.INT_MAX ->
  0 <= h l <= CInt.INT_MAX -> 0 <= h r <= CInt.INT_MAX ->
  let t := trace (WinMain MultisampleCount env fuel) in
  renderTargetSize (locals MultisampleCount env d) =
    {| w := w l + w r; h := Z.max (h l) (h r) |} /\
  (exists desc, In (CreateTexture2D (Some DeviceObj) desc DepthStencilTextureObj) t) /\
  (exists desc, In (CreateTexture2D (Some DeviceObj) desc EyeTextureObj) t) /\
  (forall this desc out,
      In (CreateTexture2D this desc out) t ->
      Width desc = w l + w r /\ Height desc = Z.max (h l) (h r)).
Proof.
  intros Hhmd l r Hwl Hwr Hsum Hhl Hhr t.
  assert (Hrts : make_renderTargetSize l r = {| w := w l + w r; h := Z.max (h l) (h r) |}).
  { unfold make_renderTargetSize, CInt.add. rewrite CInt_max_spec.
    rewrite CInt_wrap_id; [reflexivity|].
    unfold CInt.is_int, CInt.INT_MIN, CInt.INT_MAX in *. lia. }
  assert (Hin : forall e, In e (trace (setup MultisampleCount env d)) -> In e t).
  { intros e He. unfold t. rewrite (WinMain_with_hmd _ _ d fuel Hhmd).
    cbn [trace snd]. apply in_or_app. right. apply in_or_app. now left. }
  destruct (setup_creates_depth_and_eye_textures MultisampleCount env d)
    as [[dd Hd] [de He]].
  split; [|split; [|split]].
  - rewrite locals_renderTargetSize. exact Hrts.
  - exists dd. now apply Hin.
  - exists de. now apply Hin.
  - intros this desc out Hc.
    destruct (WinMain_In_outside_loop _ _ _ d fuel Hhmd Hc eq_refl) as [Hs|[_ Hs]].
    + apply in_app_or in Hs. destruct Hs as [Hs|Hs]; [in_cases Hs|].
      destruct (setup_textures _ _ _ _ _ _ Hs) as [HW HH].
      fold l r in HW, HH. rewrite Hrts in HW, HH. cbn [w h] in HW, HH.
      rewrite HW, HH.
      rewrite !CInt_to_UINT_id; [now split| |];
        unfold CInt.INT_MAX in *; lia.
    + pose proof (cleanup_creates_nothing (locals MultisampleCount env d)) as Hn.
      rewrite Forall_forall in Hn. apply Hn in Hs. discriminate Hs.
Qed.

Lemma render_target_is_sum_of_widths_and_max_of_heights_witness :
  let l := ovrEyeDimsLeft (sdk := Sym.sdk) Example.session Example.device in
  let r := ovrEyeDimsRight (sdk := Sym.sdk) Example.session Example.device in
  hmd Example.session = Some Example.device /\
  (0 <= w l /\ 0 <= w r /\ w l + w r <= CInt.INT_MAX) /\
  (0 <= h l <= CInt.INT_MAX /\ 0 <= h r <= CInt.INT_MAX) /\
  renderTargetSize (locals (sdk := Sym.sdk) 4 Example.session Example.device) =
  {| w := 1182 + 1182; h := Z.max 1461 1461 |}.
Proof.
  intros l r.
  assert (Hwl : 0 <= w l) by (cbv; discriminate).
  assert (Hwr : 0 <= w r) by (cbv; discriminate).
  assert (Hsum : w l + w r <= CInt.INT_MAX) by (cbv; discriminate).
  assert (Hhl : 0 <= h l <= CInt.INT_MAX) by (split; cbv; discriminate).
  assert (Hhr : 0 <= h r <= CInt.INT_MAX) by (split; cbv; discriminate).
  split; [reflexivity|]. split; [now repeat split|]. split; [now split|].
  exact (proj1
    (render_target_is_sum_of_widths_and_max_of_heights 4 Example.session
       Example.device 3 eq_refl Hwl Hwr Hsum Hhl Hhr)).
Defined.

(** ** The eye viewports *)

(** C3, as the claim states it, fails for a render target of odd width:
    with a width of 2365 the right viewport starts at 1183, not at
    2365 / 2 = 1182. *)
Lemma right_viewport_is_not_at_half_an_odd_width :
  x (Pos (at2 (make_vrEyeRenderViewport {| w := 2365; h := 1461 |}) 1)) = 1183 /\
  CInt.div 2365 2 = 1182 /\
  x (Pos (at2 (make_vrEyeRenderViewport {| w := 2365; h := 1461 |}) 1)) <>
  CInt.div (w {| w := 2365; h := 1461 |}) 2.
Proof.
  split; [reflexivity|]. split; [reflexivity|]. vm_compute. discriminate.
Qed.

(** C3, amended. For a render target of width [w] (a non-negative [int]
    below [INT_MAX]) and height [h], viewport 0 is at (0, 0), viewport 1
    is at ((w + 1) / 2, 0), the half width rounded up, and both have the
    size (w / 2, h); viewport 1 ends at the right edge of the target, and
    it starts at w / 2 exactly when [w] is even. *)
Theorem eye_viewports_split_the_render_target (rts : ovrSizei) :
  0 <= w rts < CInt.INT_MAX ->
  let vps := make_vrEyeRenderViewport rts in
  Pos (at2 vps 0) = {| x := 0; y := 0 |} /\
  Size (at2 vps 0) = {| w := w rts / 2; h := h rts |} /\
  Pos (at2 vps 1) = {| x := (w rts + 1) / 2; y := 0 |} /\
  Size (at2 vps 1) = {| w := w rts / 2; h := h rts |} /\
  x (Pos (at2 vps 1)) + w (Size (at2 vps 1)) = w rts /\
  (x (Pos (at2 vps 1)) = w rts / 2 <-> Z.even (w rts) = true).
Proof.
  intros Hw vps. unfold CInt.INT_MAX in Hw.
  assert (Hhalf : CInt.div (w rts) 2 = w rts / 2).
  { unfold CInt.div. rewrite Z.quot_div_nonneg by lia.
    apply CInt_wrap_id. unfold CInt.is_int, CInt.INT_MIN, CInt.INT_MAX.
    assert (0 <= w rts / 2 <= w rts) by (split; [apply Z.div_pos|apply Z.div_le_upper_bound]; lia).
    lia. }
  assert (Hup : CInt.div (CInt.add (w rts) 1) 2 = (w rts + 1) / 2).
  { unfold CInt.add. rewrite CInt_wrap_id
      by (unfold CInt.is_int, CInt.INT_MIN, CInt.INT_MAX; lia).
    unfold CInt.div. rewrite Z.quot_div_nonneg by lia.
    apply CInt_wrap_id. unfold CInt.is_int, CInt.INT_MIN, CInt.INT_MAX.
    assert (0 <= (w rts + 1) / 2 <= w rts + 1)
      by (split; [apply Z.div_pos|apply Z.div_le_upper_bound]; lia).
    lia. }
  unfold vps, make_vrEyeRenderViewport. cbn [at2 elt0 elt1 Pos Size x y w h].
  rewrite Hhalf, Hup.
  pose proof (Z.div_mod (w rts) 2 ltac:(lia)) as Hq.
  pose proof (Z.mod_pos_bound (w rts) 2 ltac:(lia)) as Hm.
  pose proof (Z.div_mod (w rts + 1) 2 ltac:(lia)) as Hq'.
  pose proof (Z.mod_pos_bound (w rts + 1) 2 ltac:(lia)) as Hm'.
  rewrite Zeven_mod, Z.eqb_eq.
  repeat split; try lia.
Qed.

Lemma eye_viewports_split_the_render_target_witness :
  0 <= 2365 < CInt.INT_MAX /\
  Pos (at2 (make_vrEyeRenderViewport {| w := 2365; h := 1461 |}) 1) =
  {| x := (2365 + 1) / 2; y := 0 |}.
Proof.
  assert (Hw : 0 <= 2365 < CInt.INT_MAX) by (unfold CInt.INT_MAX; lia).
  split; [exact Hw|].
  exact (proj1 (proj2 (proj2
    (eye_viewports_split_the_render_target {| w := 2365; h := 1461 |} Hw)))).
Defined.

(** ** The texture size queries *)

(** The two size queries of every run with an HMD: both pass
    [DefaultEyeFov[0]]. *)
Lemma fov_texture_size_queries
    {sdk : OVR_SDK} MultisampleCount (env : Env) (d : ovrHmdDesc) :
  filter is_GetFovTextureSize (trace (setup MultisampleCount env d)) =
  [ ovrHmd_GetFovTextureSize ovrEye_Left (at2 (DefaultEyeFov d) 0) (float_lit 1);
    ovrHmd_GetFovTextureSize ovrEye_Right (at2 (DefaultEyeFov d) 0) (float_lit 1) ].
Proof.
  unfold setup. destruct (1 <? MultisampleCount); reflexivity.
Qed.

(** C6. On an HMD whose two default fields of view differ, the right-eye
    size query is made with the left eye's field of view
    [DefaultEyeFov[0]], not with the right eye's own [DefaultEyeFov[1]]. *)
Theorem right_eye_size_query_passes_left_fov :
  filter is_GetFovTextureSize
    (trace (WinMain (sdk := Sym.sdk) MultisampleCount_source Example.session 3)) =
  [ ovrHmd_GetFovTextureSize (sdk := Sym.sdk) ovrEye_Left Example.fov_left (Sym.Lit 1);
    ovrHmd_GetFovTextureSize (sdk := Sym.sdk) ovrEye_Right Example.fov_left (Sym.Lit 1) ] /\
  at2 (DefaultEyeFov (sdk := Sym.sdk) Example.device) 0 = Example.fov_left /\
  at2 (DefaultEyeFov (sdk := Sym.sdk) Example.device) 1 = Example.fov_right /\
  Example.fov_right <> Example.fov_left.
Proof.
  split; [vm_compute; reflexivity|]. split; [reflexivity|]. split; [reflexivity|].
  unfold Example.fov_right, Example.fov_left. intros H.
  injection H as _ H. discriminate H.
Qed.

(** ** Acquisition and release of Direct3D objects *)

Lemma flat_map_nil {A B} (f : A -> list B) (l : list A) :
  Forall (fun a => f a = []) l -> flat_map f l = [].
Proof.
  intros Hf. induction Hf as [|a l Ha _ IH]; cbn; [reflexivity|].
  now rewrite Ha, IH.
Qed.

Lemma loop_event_handles {sdk : OVR_SDK} (e : event) :
  is_loop_event e = true -> acquires e = [] /\ releases e = [].
Proof. destruct e; cbn; intros H; (discriminate H || now split). Qed.

Section Handles.

Context {sdk : OVR_SDK}.
Variable MultisampleCount : Z.
Variable env : Env.
Variable d : ovrHmdDesc.

Lemma loop_acquires_nothing L l :
  acquisition_order
    (List.concat (map (iteration_trace MultisampleCount env L) l)) = [].
Proof.
  apply flat_map_nil. eapply Forall_impl; [|apply loop_loop_events].
  intros e He. now apply loop_event_handles.
Qed.

Lemma loop_releases_nothing L l :
  release_order
    (List.concat (map (iteration_trace MultisampleCount env L) l)) = [].
Proof.
  apply flat_map_nil. eapply Forall_impl; [|apply loop_loop_events].
  intros e He. now apply loop_event_handles.
Qed.

Lemma setup_acquisition_order :
  acquisition_order (trace (setup MultisampleCount env d)) =
  [ SwapChainObj; DeviceObj; ContextObj; BackBufferObj;
    BackBufferRenderTargetViewObj;
    DepthStencilTextureObj; DepthStencilViewObj;
    EyeTextureObj; EyeTextureShaderResourceViewObj; EyeTextureRenderTargetViewObj ] ++
  (if 1 <? MultisampleCount
   then [ IntermediaryTextureObj; IntermediaryTextureShaderResourceViewObj;
          IntermediaryTextureRenderTargetViewObj ]
   else []) ++
  [ BlobVertexShaderObj; VertexShaderObj; BlobPixelShaderObj; PixelShaderObj;
    InputLayoutObj; VertexBufferObj; ConstantBufferObj ].
Proof.
  unfold setup. destruct (1 <? MultisampleCount); reflexivity.
Qed.

Lemma setup_release_order :
  release_order (trace (setup MultisampleCount env d)) =
  [BackBufferObj; BlobPixelShaderObj; BlobVertexShaderObj].
Proof.
  unfold setup. destruct (1 <? MultisampleCount); reflexivity.
Qed.

Lemma cleanup_release_order :
  release_order (trace (cleanup (locals MultisampleCount env d))) =
  [ ConstantBufferObj; VertexBufferObj; InputLayoutObj; VertexShaderObj;
    PixelShaderObj ] ++
  (if 1 <? MultisampleCount
   then [ IntermediaryTextureShaderResourceViewObj;
          IntermediaryTextureRenderTargetViewObj; IntermediaryTextureObj ]
   else []) ++
  [ DepthStencilViewObj; DepthStencilTextureObj;
    EyeTextureRenderTargetViewObj; EyeTextureShaderResourceViewObj; EyeTextureObj;
    BackBufferRenderTargetViewObj; SwapChainObj; ContextObj; DeviceObj ].
Proof.
  unfold locals, setup. destruct (1 <? MultisampleCount); reflexivity.
Qed.

Lemma cleanup_acquisition_order L :
  acquisition_order (trace (cleanup L)) = [].
Proof.
  apply flat_map_nil. apply cleanup_creates_nothing.
Qed.

End Handles.

(** C4, as the claim states it, fails: in the run of the example the
    order of the releases is not the reverse of the order of the
    acquisitions (the vertex shader, acquired before the pixel shader, is
    also released before it, and the back-buffer texture and the shader
    blobs are released during setup). *)
Lemma release_order_is_not_reverse_acquisition_order :
  result (WinMain (sdk := Sym.sdk) MultisampleCount_source Example.session 3) =
    Some EXIT_SUCCESS /\
  release_order (trace (WinMain (sdk := Sym.sdk) MultisampleCount_source
                          Example.session 3)) <>
  rev (acquisition_order (trace (WinMain (sdk := Sym.sdk) MultisampleCount_source
                                   Example.session 3))).
Proof.
  split; [vm_compute; reflexivity|]. vm_compute. discriminate.
Qed.

(** C4, amended. In a run that ends, every Direct3D object acquired during
    setup is released exactly once and nothing else is released: the
    back-buffer texture and the two shader blobs during setup, all the
    others in the cleanup part, in the fixed order of [DestroyScene]
    followed by WinMain's own releases (the intermediary objects only
    when they were created; each view before its texture; swap chain,
    context and device last). *)
Theorem every_acquired_object_is_released_once
    {sdk : OVR_SDK} (MultisampleCount : Z) (env : Env) (d : ovrHmdDesc) (k fuel : nat) :
  hmd env = Some d ->
  first_quit env k ->
  (k < fuel)%nat ->
  let t := trace (WinMain MultisampleCount env fuel) in
  acquisition_order t =
    [ SwapChainObj; DeviceObj; ContextObj; BackBufferObj;
      BackBufferRenderTargetViewObj;
      DepthStencilTextureObj; DepthStencilViewObj;
      EyeTextureObj; EyeTextureShaderResourceViewObj;
      EyeTextureRenderTargetViewObj ] ++
    (if 1 <? MultisampleCount
     then [ IntermediaryTextureObj; IntermediaryTextureShaderResourceViewObj;
            IntermediaryTextureRenderTargetViewObj ]
     else []) ++
    [ BlobVertexShaderObj; VertexShaderObj; BlobPixelShaderObj; PixelShaderObj;
      InputLayoutObj; VertexBufferObj; ConstantBufferObj ] /\
  release_order t =
    [ BackBufferObj; BlobPixelShaderObj; BlobVertexShaderObj ] ++
    release_order (trace (cleanup (locals MultisampleCount env d))) /\
  release_order (trace (cleanup (locals MultisampleCount env d))) =
    [ ConstantBufferObj; VertexBufferObj; InputLayoutObj; VertexShaderObj;
      PixelShaderObj ] ++
    (if 1 <? MultisampleCount
     then [ IntermediaryTextureShaderResourceViewObj;
            IntermediaryTextureRenderTargetViewObj; IntermediaryTextureObj ]
     else []) ++
    [ DepthStencilViewObj; DepthStencilTextureObj;
      EyeTextureRenderTargetViewObj; EyeTextureShaderResourceViewObj; EyeTextureObj;
      BackBufferRenderTargetViewObj; SwapChainObj; ContextObj; DeviceObj ] /\
  NoDup (acquisition_order t) /\
  Permutation (acquisition_order t) (release_order t) /\
  (forall obj, count_occ handle_eq_dec (release_order t) obj =
               count_occ handle_eq_dec (acquisition_order t) obj) /\
  (forall obj, In obj (acquisition_order t) ->
               count_occ handle_eq_dec (release_order t) obj = 1%nat).
Proof.
  intros Hhmd Hq Hk t.
  destruct (first_quit_ends_loop env k fuel Hq Hk) as [_ Hleft].
  assert (Hacq : acquisition_order t =
                 acquisition_order (trace (setup MultisampleCount env d))).
  { unfold t. rewrite (WinMain_with_hmd _ _ d fuel Hhmd), Hleft. cbn [trace snd].
    unfold acquisition_order at 1. rewrite !flat_map_app.
    fold (acquisition_order (trace (setup MultisampleCount env d))).
    fold (acquisition_order
            (List.concat (map (iteration_trace MultisampleCount env
                                 (locals MultisampleCount env d))
                            (seq 0 (iterations env fuel 0))))).
    fold (acquisition_order (trace (cleanup (locals MultisampleCount env d)))).
    rewrite loop_acquires_nothing, cleanup_acquisition_order.
    cbn. now rewrite app_nil_r. }
  assert (Hrel : release_order t =
                 release_order (trace (setup MultisampleCount env d)) ++
                 release_order (trace (cleanup (locals MultisampleCount env d)))).
  { unfold t. rewrite (WinMain_with_hmd _ _ d fuel Hhmd), Hleft. cbn [trace snd].
    unfold release_order at 1. rewrite !flat_map_app.
    fold (release_order (trace (setup MultisampleCount env d))).
    fold (release_order
            (List.concat (map (iteration_trace MultisampleCount env
                                 (locals MultisampleCount env d))
                            (seq 0 (iterations env fuel 0))))).
    fold (release_order (trace (cleanup (locals MultisampleCount env d)))).
    rewrite loop_releases_nothing. reflexivity. }
  rewrite Hacq, Hrel, setup_acquisition_order, setup_release_order,
    cleanup_release_order.
  assert (Hcount : forall obj,
    count_occ handle_eq_dec
      ([BackBufferObj; BlobPixelShaderObj; BlobVertexShaderObj] ++
       [ConstantBufferObj; VertexBufferObj; InputLayoutObj; VertexShaderObj;
        PixelShaderObj] ++
       (if 1 <? MultisampleCount
        then [IntermediaryTextureShaderResourceViewObj;
              IntermediaryTextureRenderTargetViewObj; IntermediaryTextureObj]
        else []) ++
       [DepthStencilViewObj; DepthStencilTextureObj;
        EyeTextureRenderTargetViewObj; EyeTextureShaderResourceViewObj;
        EyeTextureObj; BackBufferRenderTargetViewObj; SwapChainObj; ContextObj;
        DeviceObj]) obj =
    count_occ handle_eq_dec
      ([SwapChainObj; DeviceObj; ContextObj; BackBufferObj;
        BackBufferRenderTargetViewObj; DepthStencilTextureObj;
        DepthStencilViewObj; EyeTextureObj; EyeTextureShaderResourceViewObj;
        EyeTextureRenderTargetViewObj] ++
       (if 1 <? MultisampleCount
        then [IntermediaryTextureObj; IntermediaryTextureShaderResourceViewObj;
              IntermediaryTextureRenderTargetViewObj]
        else []) ++
       [BlobVertexShaderObj; VertexShaderObj; BlobPixelShaderObj; PixelShaderObj;
        InputLayoutObj; VertexBufferObj; ConstantBufferObj]) obj).
  { intros obj. destruct (1 <? MultisampleCount); destruct obj; reflexivity. }
  assert (Hnodup : NoDup
      ([SwapChainObj; DeviceObj; ContextObj; BackBufferObj;
        BackBufferRenderTargetViewObj; DepthStencilTextureObj;
        DepthStencilViewObj; EyeTextureObj; EyeTextureShaderResourceViewObj;
        EyeTextureRenderTargetViewObj] ++
       (if 1 <? MultisampleCount
        then [IntermediaryTextureObj; IntermediaryTextureShaderResourceViewObj;
              IntermediaryTextureRenderTargetViewObj]
        else []) ++
       [BlobVertexShaderObj; VertexShaderObj; BlobPixelShaderObj; PixelShaderObj;
        InputLayoutObj; VertexBufferObj; ConstantBufferObj])).
  { apply (NoDup_count_occ handle_eq_dec). intros obj.
    destruct (1 <? MultisampleCount); destruct obj; cbn; lia. }
  split; [reflexivity|]. split; [reflexivity|]. split; [reflexivity|].
  split; [exact Hnodup|]. split; [|split].
  - apply (Permutation_count_occ handle_eq_dec). intros obj. symmetry. apply Hcount.
  - exact Hcount.
  - intros obj Hin. rewrite Hcount.
    apply (NoDup_count_occ' handle_eq_dec); assumption.
Qed.

Lemma every_acquired_object_is_released_once_witness :
  hmd Example.session = Some Example.device /\
  first_quit Example.session 1 /\
  (1 < 3)%nat /\
  NoDup (acquisition_order
           (trace (WinMain (sdk := Sym.sdk) MultisampleCount_source Example.session 3))).
Proof.
  assert (Hq : first_quit Example.session 1).
  { split; [reflexivity|]. intros i Hi. now replace i with 0%nat by lia. }
  split; [reflexivity|]. split; [exact Hq|]. split; [lia|].
  exact (proj1 (proj2 (proj2 (proj2
    (every_acquired_object_is_released_once MultisampleCount_source Example.session
       Example.device 1 3 eq_refl Hq ltac:(lia)))))).
Defined.
(** * Further properties *)

(** ** The window procedure *)

(** X1. [WndProc] posts the quit message, with exit code 0, exactly for
    WM_CLOSE and WM_DESTROY; whatever the message, it then hands it to
    [DefWindowProc], as its last call, and returns what that returns. *)
Theorem WndProc_posts_quit_exactly_on_close_and_destroy
    (answer : Z -> Z -> Z -> Z -> Z) (hwnd msg wParam lParam : Z) :
  let run := WndProc answer hwnd msg wParam lParam in
  result run = answer hwnd msg wParam lParam /\
  (In (PostQuitMessage 0) (trace run) <-> msg = WM_CLOSE \/ msg = WM_DESTROY) /\
  (forall code, In (PostQuitMessage code) (trace run) -> code = 0) /\
  (exists before,
      trace run = before ++ [DefWindowProc hwnd msg wParam lParam] /\
      (List.length before <= 1)%nat) /\
  (forall h' m' w' l', In (DefWindowProc h' m' w' l') (trace run) ->
     (h', m', w', l') = (hwnd, msg, wParam, lParam)).
Proof.
  intros run.
  assert (Hb : (msg =? WM_CLOSE) || (msg =? WM_DESTROY) = true <->
               msg = WM_CLOSE \/ msg = WM_DESTROY)
    by now rewrite orb_true_iff, !Z.eqb_eq.
  unfold run, WndProc.
  destruct ((msg =? WM_CLOSE) || (msg =? WM_DESTROY)).
  - split; [reflexivity|]. split; [|split; [|split]].
    + split; [intros _; now apply Hb|intros _; now left].
    + intros code [H|[H|[]]]; [now inversion H|discriminate H].
    + exists [PostQuitMessage 0]. split; [reflexivity|cbn; lia].
    + intros h' m' w' l' [H|[H|[]]]; [discriminate H|now inversion H].
  - split; [reflexivity|]. split; [|split; [|split]].
    + split; [intros [H|[]]; discriminate H|].
      intros H. apply Hb in H. discriminate H.
    + intros code [H|[]]. discriminate H.
    + exists []. split; [reflexivity|cbn; lia].
    + intros h' m' w' l' [H|[]]. now inversion H.
Qed.

(** ** The eye viewports, pixel by pixel *)

(** X2. For a render target of width [w] (0 <= w < INT_MAX) and height
    [h], no pixel lies in both eye viewports, every pixel of either
    viewport lies in the render target, and a pixel of the render target
    lies in neither viewport exactly when [w] is odd and the pixel is in
    the middle column w / 2. *)
Theorem eye_viewports_partition_the_render_target (rts : ovrSizei) (cx cy : Z) :
  0 <= w rts < CInt.INT_MAX ->
  0 <= h rts ->
  let vp0 := at2 (make_vrEyeRenderViewport rts) 0 in
  let vp1 := at2 (make_vrEyeRenderViewport rts) 1 in
  let inside := (0 <=? cx) && (cx <? w rts) && (0 <=? cy) && (cy <? h rts) in
  in_viewport vp0 cx cy && in_viewport vp1 cx cy = false /\
  (in_viewport vp0 cx cy || in_viewport vp1 cx cy = true -> inside = true) /\
  (inside = true ->
   (in_viewport vp0 cx cy || in_viewport vp1 cx cy = false <->
    Z.odd (w rts) = true /\ cx = w rts / 2)).
Proof.
  intros Hw Hh vp0 vp1 inside. unfold CInt.INT_MAX in Hw.
  assert (Hhalf : CInt.div (w rts) 2 = w rts / 2).
  { unfold CInt.div. rewrite Z.quot_div_nonneg by lia.
    apply CInt_wrap_id. unfold CInt.is_int, CInt.INT_MIN, CInt.INT_MAX.
    assert (0 <= w rts / 2 <= w rts)
      by (split; [apply Z.div_pos|apply Z.div_le_upper_bound]; lia).
    lia. }
  assert (Hup : CInt.div (CInt.add (w rts) 1) 2 = (w rts + 1) / 2).
  { unfold CInt.add. rewrite CInt_wrap_id
      by (unfold CInt.is_int, CInt.INT_MIN, CInt.INT_MAX; lia).
    unfold CInt.div. rewrite Z.quot_div_nonneg by lia.
    apply CInt_wrap_id. unfold CInt.is_int, CInt.INT_MIN, CInt.INT_MAX.
    assert (0 <= (w rts + 1) / 2 <= w rts + 1)
      by (split; [apply Z.div_pos|apply Z.div_le_upper_bound]; lia).
    lia. }
  unfold vp0, vp1, inside, in_viewport, make_vrEyeRenderViewport.
  cbn [at2 elt0 elt1 Pos Size x y w h]. rewrite Hhalf, Hup.
  pose proof (Z.div_mod (w rts) 2 ltac:(lia)) as Hq.
  pose proof (Z.mod_pos_bound (w rts) 2 ltac:(lia)) as Hm.
  pose proof (Z.div_mod (w rts + 1) 2 ltac:(lia)) as Hq'.
  pose proof (Z.mod_pos_bound (w rts + 1) 2 ltac:(lia)) as Hm'.
  rewrite Zodd_mod, Z.eqb_eq.
  repeat match goal with
         | |- context [?a <=? ?b] => destruct (Z.leb_spec a b)
         | |- context [?a <? ?b] => destruct (Z.ltb_spec a b)
         end; cbn; repeat split; intros; try discriminate; try lia.
Qed.

Lemma WndProc_posts_quit_exactly_on_close_and_destroy_witness :
  In (PostQuitMessage 0) (trace (WndProc (fun _ _ _ _ => 0) 1 WM_CLOSE 0 0)).
Proof.
  apply (proj1 (proj2
    (WndProc_posts_quit_exactly_on_close_and_destroy (fun _ _ _ _ => 0) 1 WM_CLOSE 0 0))).
  left. reflexivity.
Defined.

Lemma eye_viewports_partition_the_render_target_witness :
  0 <= 2365 < CInt.INT_MAX /\ 0 <= 1461 /\
  in_viewport (at2 (make_vrEyeRenderViewport {| w := 2365; h := 1461 |}) 0) 1182 7 &&
  in_viewport (at2 (make_vrEyeRenderViewport {| w := 2365; h := 1461 |}) 1) 1182 7 = false.
Proof.
  assert (Hw : 0 <= 2365 < CInt.INT_MAX) by (unfold CInt.INT_MAX; lia).
  assert (Hh : 0 <= 1461) by lia.
  split; [exact Hw|]. split; [exact Hh|].
  exact (proj1 (eye_viewports_partition_the_render_target
                  {| w := 2365; h := 1461 |} 1182 7 Hw Hh)).
Defined.

(** ** The viewports and the recommended sizes *)

(** X3. The source assumes that both eyes are recommended the same
    texture width.  When they are, each eye viewport has exactly the
    recommended width and at least the recommended height of its eye, and
    the right viewport starts where the left one ends.  When they are
    not, both viewports are narrower than the wider of the two
    recommendations. *)
Theorem viewports_fit_recommended_sizes_when_widths_agree (l r : ovrSizei) :
  0 <= w l -> 0 <= w r -> w l + w r < CInt.INT_MAX ->
  let vps := make_vrEyeRenderViewport (make_renderTargetSize l r) in
  (w l = w r ->
   w (Size (at2 vps 0)) = w l /\ w (Size (at2 vps 1)) = w r /\
   x (Pos (at2 vps 1)) = x (Pos (at2 vps 0)) + w (Size (at2 vps 0))) /\
  (w l <> w r ->
   w (Size (at2 vps 0)) < Z.max (w l) (w r) /\
   w (Size (at2 vps 1)) < Z.max (w l) (w r)) /\
  h l <= h (Size (at2 vps 0)) /\ h r <= h (Size (at2 vps 1)).
Proof.
  intros Hl Hr Hsum vps. unfold CInt.INT_MAX in Hsum.
  assert (Hwsum : w (make_renderTargetSize l r) = w l + w r).
  { cbn [make_renderTargetSize w]. unfold CInt.add. apply CInt_wrap_id.
    unfold CInt.is_int, CInt.INT_MIN, CInt.INT_MAX. lia. }
  assert (Hhmax : h (make_renderTargetSize l r) = Z.max (h l) (h r)).
  { cbn [make_renderTargetSize h]. apply CInt_max_spec. }
  assert (Hhalf : CInt.div (w l + w r) 2 = (w l + w r) / 2).
  { unfold CInt.div. rewrite Z.quot_div_nonneg by lia.
    apply CInt_wrap_id. unfold CInt.is_int, CInt.INT_MIN, CInt.INT_MAX.
    assert (0 <= (w l + w r) / 2 <= w l + w r)
      by (split; [apply Z.div_pos|apply Z.div_le_upper_bound]; lia).
    lia. }
  assert (Hup : CInt.div (CInt.add (w l + w r) 1) 2 = (w l + w r + 1) / 2).
  { unfold CInt.add. rewrite CInt_wrap_id
      by (unfold CInt.is_int, CInt.INT_MIN, CInt.INT_MAX; lia).
    unfold CInt.div. rewrite Z.quot_div_nonneg by lia.
    apply CInt_wrap_id. unfold CInt.is_int, CInt.INT_MIN, CInt.INT_MAX.
    assert (0 <= (w l + w r + 1) / 2 <= w l + w r + 1)
      by (split; [apply Z.div_pos|apply Z.div_le_upper_bound]; lia).
    lia. }
  unfold vps, make_vrEyeRenderViewport.
  cbn [at2 elt0 elt1 Pos Size x y w h]. rewrite Hwsum, Hhmax, Hhalf, Hup.
  pose proof (Z.div_mod (w l + w r) 2 ltac:(lia)) as Hq.
  pose proof (Z.mod_pos_bound (w l + w r) 2 ltac:(lia)) as Hm.
  pose proof (Z.div_mod (w l + w r + 1) 2 ltac:(lia)) as Hq'.
  pose proof (Z.mod_pos_bound (w l + w r + 1) 2 ltac:(lia)) as Hm'.
  repeat split; intros; lia.
Qed.

Lemma viewports_fit_recommended_sizes_when_widths_agree_witness :
  w (Size (at2 (make_vrEyeRenderViewport
                  (make_renderTargetSize {| w := 1182; h := 1461 |}
                                         {| w := 1182; h := 1400 |})) 0)) = 1182.
Proof.
  exact (proj1 (proj1
    (viewports_fit_recommended_sizes_when_widths_agree
       {| w := 1182; h := 1461 |} {| w := 1182; h := 1400 |}
       ltac:(cbv; discriminate) ltac:(cbv; discriminate) ltac:(cbv; reflexivity))
    eq_refl)).
Defined.

(** ** The messages the pump hands on *)

Lemma messages_app {sdk : OVR_SDK} (s t : list event) :
  drained (s ++ t) = drained s ++ drained t /\
  translated (s ++ t) = translated s ++ translated t /\
  dispatched (s ++ t) = dispatched s ++ dispatched t.
Proof.
  unfold drained, translated, dispatched. now rewrite !flat_map_app.
Qed.

Lemma msg_events_messages {sdk : OVR_SDK} (msgs : list MSG) :
  drained (flat_map msg_events msgs) = msgs /\
  translated (flat_map msg_events msgs) = msgs /\
  dispatched (flat_map msg_events msgs) = msgs.
Proof.
  unfold drained, translated, dispatched.
  induction msgs as [|msg rest [IH1 [IH2 IH3]]]; [now repeat split|].
  cbn [flat_map]. rewrite !flat_map_app, IH1, IH2, IH3.
  unfold msg_events. destruct (message msg =? WM_KEYDOWN); now repeat split.
Qed.

Lemma messages_of_render_frame {sdk : OVR_SDK} MultisampleCount (env : Env) L n :
  drained (trace (render_frame MultisampleCount env L n)) = [] /\
  translated (trace (render_frame MultisampleCount env L n)) = [] /\
  dispatched (trace (render_frame MultisampleCount env L n)) = [].
Proof.
  rewrite render_frame_trace. unfold spec_eye_events.
  destruct (1 <? MultisampleCount); now repeat split.
Qed.

(** X4. The pump hands every message it takes off the queue to
    [TranslateMessage] and to [DispatchMessage], once each and in the
    order of the queue, WM_QUIT and the messages behind it included; in a
    whole run the messages dispatched are those of the batches of the
    iterations made, in order, and none when there is no HMD. *)
Theorem every_drained_message_is_dispatched
    {sdk : OVR_SDK} (MultisampleCount : Z) (env : Env) (fuel : nat) :
  (forall msgs keepRunning,
      drained (trace (pump msgs keepRunning)) = msgs /\
      translated (trace (pump msgs keepRunning)) = msgs /\
      dispatched (trace (pump msgs keepRunning)) = msgs) /\
  let t := trace (WinMain MultisampleCount env fuel) in
  translated t = drained t /\
  dispatched t = drained t /\
  drained t =
    match hmd env with
    | Some _ => flat_map (messages env) (seq 0 (iterations env fuel 0))
    | None => []
    end.
Proof.
  assert (Hpump : forall msgs keepRunning,
      drained (trace (pump (sdk := sdk) msgs keepRunning)) = msgs /\
      translated (trace (pump (sdk := sdk) msgs keepRunning)) = msgs /\
      dispatched (trace (pump (sdk := sdk) msgs keepRunning)) = msgs).
  { intros msgs keepRunning. rewrite pump_trace.
    destruct (msg_events_messages msgs) as [H1 [H2 H3]].
    unfold drained, translated, dispatched in *.
    rewrite !flat_map_app, H1, H2, H3. cbn. now rewrite app_nil_r. }
  split; [exact Hpump|]. intros t. unfold t.
  destruct (hmd env) as [d|] eqn:Hhmd.
  - rewrite (WinMain_with_hmd _ _ d fuel Hhmd). cbn [trace snd].
    set (L := locals MultisampleCount env d).
    assert (Hout : forall s, Forall (fun e => is_loop_event e = false) s ->
                   drained s = [] /\ translated s = [] /\ dispatched s = []).
    { intros s Hs. unfold drained, translated, dispatched.
      repeat split; apply flat_map_nil; (eapply Forall_impl; [|exact Hs]);
        intros e He; destruct e; try reflexivity; discriminate He. }
    assert (Hloop : forall l,
      drained (List.concat (map (iteration_trace MultisampleCount env L) l)) =
        flat_map (messages env) l /\
      translated (List.concat (map (iteration_trace MultisampleCount env L) l)) =
        flat_map (messages env) l /\
      dispatched (List.concat (map (iteration_trace MultisampleCount env L) l)) =
        flat_map (messages env) l).
    { induction l as [|n l [IH1 [IH2 IH3]]]; [now repeat split|].
      cbn [map List.concat flat_map].
      destruct (messages_app (iteration_trace MultisampleCount env L n)
                  (List.concat (map (iteration_trace MultisampleCount env L) l)))
        as [A1 [A2 A3]].
      destruct (messages_app (trace (pump (messages env n) true))
                  (trace (render_frame MultisampleCount env L n)))
        as [B1 [B2 B3]].
      destruct (Hpump (messages env n) true) as [H1 [H2 H3]].
      destruct (messages_of_render_frame MultisampleCount env L n) as [F1 [F2 F3]].
      rewrite A1, A2, A3, IH1, IH2, IH3. unfold iteration_trace.
      rewrite B1, B2, B3, H1, H2, H3, F1, F2, F3, !app_nil_r.
      now repeat split. }
    destruct (Hout (trace (setup MultisampleCount env d))
                (setup_no_loop_events _ _ d)) as [S1 [S2 S3]].
    destruct (Hout (if loop_left env fuel 0 then trace (cleanup L) else []))
      as [C1 [C2 C3]].
    { destruct (loop_left env fuel 0); [apply cleanup_no_loop_events|constructor]. }
    destruct (Hloop (seq 0 (iterations env fuel 0))) as [L1 [L2 L3]].
    unfold drained, translated, dispatched in *.
    rewrite !flat_map_app, S1, S2, S3, C1, C2, C3, L1, L2, L3. cbn.
    now rewrite !app_nil_r.
  - rewrite (WinMain_without_hmd _ _ fuel Hhmd). now repeat split.
Qed.

Lemma every_drained_message_is_dispatched_witness :
  dispatched (trace (pump (sdk := Sym.sdk) Example.key_then_quit true)) =
  Example.key_then_quit.
Proof.
  exact (proj2 (proj2
    (proj1 (every_drained_message_is_dispatched (sdk := Sym.sdk) 4 Example.session 3)
       Example.key_then_quit true))).
Defined.

(** ** Null and dangling pointers *)

Section Scoping.

Context {sdk : OVR_SDK}.

Lemma live_after_neutral live (e : event) :
  acquires e = [] -> releases e = [] -> live_after live e = live.
Proof.
  intros Ha Hr. unfold live_after. rewrite Ha, Hr. cbn [app].
  induction live as [|obj live IH]; [reflexivity|].
  cbn [filter]. destruct (in_dec handle_eq_dec obj []) as [[]|_]. cbn [negb].
  now rewrite IH.
Qed.

Lemma scoped_app live (s t : list event) :
  scoped live (s ++ t) = scoped live s && scoped (live_at_end live s) t.
Proof.
  revert live. induction s as [|e s IH]; intros live; [reflexivity|].
  cbn [app scoped live_at_end]. now rewrite IH, andb_assoc.
Qed.

Lemma live_at_end_app live (s t : list event) :
  live_at_end live (s ++ t) = live_at_end (live_at_end live s) t.
Proof.
  revert live. induction s as [|e s IH]; intros live; [reflexivity|].
  cbn [app live_at_end]. apply IH.
Qed.

(** Calls that go through no pointer and neither acquire nor release. *)
Lemma scoped_neutral live (s : list event) :
  Forall (fun e => uses e = [] /\ acquires e = [] /\ releases e = []) s ->
  scoped live s = true /\ live_at_end live s = live.
Proof.
  intros Hs. induction Hs as [|e s [Hu [Ha Hr]] _ [IH1 IH2]]; [now split|].
  cbn [scoped live_at_end]. rewrite Hu, (live_after_neutral live e Ha Hr).
  now split.
Qed.

Lemma pump_scoped live msgs keepRunning :
  scoped live (trace (pump msgs keepRunning)) = true /\
  live_at_end live (trace (pump msgs keepRunning)) = live.
Proof.
  apply scoped_neutral. rewrite pump_trace. apply Forall_app. split.
  - apply Forall_flat_map. apply Forall_forall. intros msg _.
    unfold msg_events. destruct (message msg =? WM_KEYDOWN); now repeat constructor.
  - now repeat constructor.
Qed.

Variable MultisampleCount : Z.
Variable env : Env.
Variable d : ovrHmdDesc.

(** The objects held when setup is done. *)
Let held : list handle :=
  live_at_end []
    ([SetProcessDPIAware; ovr_Initialize; ovrHmd_Create 0] ++
     trace (setup MultisampleCount env d)).

Lemma setup_scoped :
  scoped []
    ([SetProcessDPIAware; ovr_Initialize; ovrHmd_Create 0] ++
     trace (setup MultisampleCount env d)) = true.
Proof.
  unfold setup. destruct (1 <? MultisampleCount); reflexivity.
Qed.

Lemma render_frame_scoped n :
  scoped held (trace (render_frame MultisampleCount env
                        (locals MultisampleCount env d) n)) = true /\
  live_at_end held (trace (render_frame MultisampleCount env
                             (locals MultisampleCount env d) n)) = held.
Proof.
  unfold held, render_frame, locals, setup, make_vrEyeTexture.
  destruct (1 <? MultisampleCount); split; reflexivity.
Qed.

Lemma cleanup_scoped :
  scoped held (trace (cleanup (locals MultisampleCount env d))) = true /\
  live_at_end held (trace (cleanup (locals MultisampleCount env d))) = [].
Proof.
  unfold held, locals, setup, make_vrEyeTexture.
  destruct (1 <? MultisampleCount); split; reflexivity.
Qed.

Lemma loop_scoped l :
  scoped held
    (List.concat (map (iteration_trace MultisampleCount env
                         (locals MultisampleCount env d)) l)) = true /\
  live_at_end held
    (List.concat (map (iteration_trace MultisampleCount env
                         (locals MultisampleCount env d)) l)) = held.
Proof.
  induction l as [|n l [IH1 IH2]]; [now split|].
  cbn [map List.concat]. unfold iteration_trace at 1 3.
  destruct (pump_scoped held (messages env n) true) as [P1 P2].
  destruct (render_frame_scoped n) as [F1 F2].
  rewrite !scoped_app, !live_at_end_app, P1, P2, F1, F2, IH1, IH2. now split.
Qed.

End Scoping.

(** In the run in which every creation call hands back its object, each
    pointer that a call goes through or is handed points to an object
    acquired earlier and not released since, and nothing is held when the
    program returns. *)
Lemma WinMain_scoped
    {sdk : OVR_SDK} (MultisampleCount : Z) (env : Env) (fuel : nat) :
  let run := WinMain MultisampleCount env fuel in
  scoped [] (trace run) = true /\
  (forall code, result run = Some code -> live_at_end [] (trace run) = []).
Proof.
  intros run. unfold run.
  destruct (hmd env) as [d|] eqn:Hhmd.
  - rewrite (WinMain_with_hmd _ _ d fuel Hhmd). cbn [trace result fst snd].
    pose proof (setup_scoped MultisampleCount env d) as S1.
    destruct (loop_scoped MultisampleCount env d (seq 0 (iterations env fuel 0)))
      as [L1 L2].
    destruct (cleanup_scoped MultisampleCount env d) as [C1 C2].
    rewrite app_assoc.
    rewrite (scoped_app _ (_ ++ trace (setup MultisampleCount env d))).
    rewrite (live_at_end_app _ (_ ++ trace (setup MultisampleCount env d))).
    rewrite (scoped_app _ (List.concat _)), (live_at_end_app _ (List.concat _)).
    rewrite S1, L1, L2.
    destruct (loop_left env fuel 0).
    + rewrite C1, C2. now split.
    + split; [reflexivity|]. intros code Hcode. discriminate Hcode.
  - rewrite (WinMain_without_hmd _ _ fuel Hhmd). now split.
Qed.

(** *** The outcome [Undefined] is a call with a null pointer *)

Section Stops.

Context {sdk : OVR_SDK}.
Variable MultisampleCount : Z.
Variable env : Env.
Variable created : handle -> bool.

Lemma stops_defined {A} (m : Unchecked.U A) a : fst m = Some a -> stops_at_null m.
Proof. intros H Hn. rewrite H in Hn. discriminate Hn. Qed.

Lemma stops_bind {A B} (m : Unchecked.U A) (k : A -> Unchecked.U B) :
  stops_at_null m -> (forall a, stops_at_null (k a)) ->
  stops_at_null (Unchecked.bind m k).
Proof.
  intros Hm Hk. unfold stops_at_null. rewrite U_fst_bind, U_snd_bind.
  destruct (fst m) as [a|] eqn:Ha.
  - intros Hn. destruct (Hk a Hn) as [calls [e [Hs He]]].
    exists (snd m ++ calls), e. split; [|exact He]. now rewrite Hs, app_assoc.
  - intros _. destruct (Hm Ha) as [calls [e [Hs He]]].
    exists calls, e. split; [|exact He]. now rewrite app_nil_r.
Qed.

Lemma stops_through p e : In p (uses e) -> stops_at_null (Unchecked.through p e).
Proof.
  intros Hin. destruct p as [obj|]; [now apply (stops_defined _ tt)|].
  intros _. now exists [], e.
Qed.

Lemma stops_through_both p q e :
  In p (uses e) -> In q (uses e) ->
  stops_at_null (Unchecked.through (Unchecked.both p q) e).
Proof.
  intros Hp Hq. destruct p as [a|]; [destruct q as [b|]|].
  - now apply (stops_defined _ tt).
  - intros _. now exists [], e.
  - intros _. now exists [], e.
Qed.

Lemma stops_when b (m : Unchecked.U unit) :
  stops_at_null m -> stops_at_null (Unchecked.when b m).
Proof. destruct b; [trivial|]. intros _. now apply (stops_defined _ tt). Qed.

Ltac stops :=
  repeat (apply stops_bind; [|intros ?]);
  try (apply stops_when);
  first
    [ apply stops_through_both; cbn [uses In]; tauto
    | apply stops_through; cbn [uses In]; tauto
    | eapply stops_defined; reflexivity ].

Lemma SetupScene_stops dev ctx : stops_at_null (Unchecked.SetupScene created dev ctx).
Proof.
  unfold Unchecked.SetupScene, Unchecked.create_through, Unchecked.create.
  stops.
Qed.

Lemma setup_stops d : stops_at_null (Unchecked.setup MultisampleCount env created d).
Proof.
  unfold Unchecked.setup, Unchecked.create_through, Unchecked.create.
  repeat (apply stops_bind; [|intros ?]);
    try (destruct (1 <? MultisampleCount)); try apply SetupScene_stops; stops.
Qed.

Lemma render_frame_stops L n :
  stops_at_null (Unchecked.render_frame MultisampleCount env L n).
Proof.
  unfold Unchecked.render_frame, Unchecked.render_eye. stops.
Qed.

Lemma frame_loop_stops L fuel : forall n keepRunning,
  stops_at_null (Unchecked.frame_loop MultisampleCount env L fuel n keepRunning).
Proof.
  induction fuel as [|fuel IH]; intros n keepRunning.
  - destruct keepRunning; eapply stops_defined; reflexivity.
  - destruct keepRunning; [|eapply stops_defined; reflexivity].
    cbn [Unchecked.frame_loop].
    apply stops_bind; [eapply stops_defined; reflexivity|intros b].
    apply stops_bind; [apply render_frame_stops|intros _]. apply IH.
Qed.

Lemma cleanup_stops L : stops_at_null (Unchecked.cleanup L).
Proof.
  unfold Unchecked.cleanup, Unchecked.DestroyScene. stops.
Qed.

Lemma with_hmd_stops d fuel :
  stops_at_null (Unchecked.with_hmd MultisampleCount env created d fuel).
Proof.
  unfold Unchecked.with_hmd.
  apply stops_bind; [apply setup_stops|intros L].
  apply stops_bind; [apply frame_loop_stops|intros [|]].
  - apply stops_bind; [apply cleanup_stops|intros _].
    eapply stops_defined; reflexivity.
  - eapply stops_defined; reflexivity.
Qed.

Lemma scoped_null_call live calls (e : event) :
  In nullptr (uses e) -> scoped live (calls ++ [e]) = false.
Proof.
  intros Hin. rewrite scoped_app. cbn [scoped].
  assert (H : forallb (is_live (live_at_end live calls)) (uses e) = false).
  { induction (uses e) as [|p l IH]; [contradiction|].
    cbn [forallb]. destruct Hin as [->|Hin]; [reflexivity|].
    rewrite (IH Hin). apply andb_false_r. }
  rewrite H. apply andb_false_r.
Qed.

(** A run with the outcome [Undefined] has made a call with a null
    pointer. *)
Lemma undefined_not_scoped fuel :
  fst (Unchecked.WinMain MultisampleCount env created fuel) = Unchecked.Undefined ->
  scoped [] (snd (Unchecked.WinMain MultisampleCount env created fuel)) = false.
Proof.
  destruct (hmd env) as [d|] eqn:Hhmd.
  - rewrite (Unchecked_WinMain_with_hmd _ _ _ d fuel Hhmd). cbn [fst snd].
    intros Hu.
    destruct (with_hmd_stops d fuel) as [calls [e [Hs He]]].
    { destruct (fst (Unchecked.with_hmd MultisampleCount env created d fuel))
        as [[code|]|]; [discriminate Hu|discriminate Hu|reflexivity]. }
    rewrite Hs, app_assoc. now apply scoped_null_call.
  - rewrite (Unchecked_WinMain_without_hmd _ _ _ fuel Hhmd). discriminate.
Qed.

End Stops.

(** X5. When every creation call hands back its object, no call of the
    run goes through a null pointer, and each interface pointer that a
    call goes through or is handed (the pointers inside the LibOVR
    configuration and the eye texture descriptors included) points to an
    object that was acquired earlier and has not been released since: no
    call gets a null pointer, nothing is used after its release, nothing
    is released twice; when the program returns it holds no Direct3D
    object any more.  The assumption is needed, since the program checks
    no creation call: a run that ends in a call through a null pointer
    has made a call with a null pointer, and with a device this is what
    happens as soon as a creation call fails for one of the objects setup
    calls through. *)
Theorem no_pointer_is_null_or_dangling_when_creation_succeeds
    {sdk : OVR_SDK} (MultisampleCount : Z) (env : Env)
    (created : handle -> bool) (fuel : nat) :
  let run := Unchecked.WinMain MultisampleCount env created fuel in
  ((forall obj, created obj = true) ->
     fst run <> Unchecked.Undefined /\
     scoped [] (snd run) = true /\
     (forall code, fst run = Unchecked.Returned code ->
        live_at_end [] (snd run) = [])) /\
  (fst run = Unchecked.Undefined -> scoped [] (snd run) = false) /\
  (forall d, hmd env = Some d ->
     forallb created called_through_in_setup = false ->
     scoped [] (snd run) = false).
Proof.
  intros run. unfold run. split; [|split].
  - intros Hall. rewrite (WinMain_refines _ _ _ fuel Hall). cbn [fst snd].
    destruct (WinMain_scoped MultisampleCount env fuel) as [Hs Hl].
    split; [|split].
    + destruct (result (WinMain MultisampleCount env fuel)); discriminate.
    + exact Hs.
    + intros code Hcode. apply (Hl code).
      destruct (result (WinMain MultisampleCount env fuel)) as [c|];
        [|discriminate Hcode].
      cbn [Unchecked.outcome_of] in Hcode. congruence.
  - apply undefined_not_scoped.
  - intros d Hhmd Hsetup. apply undefined_not_scoped.
    now rewrite (WinMain_setup_undefined _ _ _ d fuel Hhmd Hsetup).
Qed.

Lemma no_pointer_is_null_or_dangling_when_creation_succeeds_witness :
  ((forall obj, Mishap.all_created obj = true) /\
   fst (Unchecked.WinMain (sdk := Sym.sdk) 4 Example.session Mishap.all_created 3) =
     Unchecked.Returned EXIT_SUCCESS /\
   scoped [] (snd (Unchecked.WinMain (sdk := Sym.sdk) 4 Example.session
                     Mishap.all_created 3)) = true /\
   live_at_end [] (snd (Unchecked.WinMain (sdk := Sym.sdk) 4 Example.session
                          Mishap.all_created 3)) = []) /\
  (hmd Example.session = Some Example.device /\
   forallb Mishap.no_device_created called_through_in_setup = false /\
   fst (Unchecked.WinMain (sdk := Sym.sdk) 4 Example.session
          Mishap.no_device_created 3) = Unchecked.Undefined /\
   scoped [] (snd (Unchecked.WinMain (sdk := Sym.sdk) 4 Example.session
                     Mishap.no_device_created 3)) = false).
Proof.
  assert (Hr : fst (Unchecked.WinMain (sdk := Sym.sdk) 4 Example.session
                      Mishap.all_created 3) = Unchecked.Returned EXIT_SUCCESS)
    by (vm_compute; reflexivity).
  assert (Hu : fst (Unchecked.WinMain (sdk := Sym.sdk) 4 Example.session
                      Mishap.no_device_created 3) = Unchecked.Undefined)
    by (vm_compute; reflexivity).
  split.
  - split; [reflexivity|]. split; [exact Hr|].
    pose proof (proj1 (no_pointer_is_null_or_dangling_when_creation_succeeds
                         4 Example.session Mishap.all_created 3)
                  (fun _ => eq_refl)) as H.
    split; [exact (proj1 (proj2 H))|exact (proj2 (proj2 H) EXIT_SUCCESS Hr)].
  - split; [reflexivity|]. split; [reflexivity|]. split; [exact Hu|].
    exact (proj1 (proj2 (no_pointer_is_null_or_dangling_when_creation_succeeds
                           4 Example.session Mishap.no_device_created 3)) Hu).
Defined.

(** ** Mapping the constant buffer *)

Section Mapping.

Context {sdk : OVR_SDK}.

Lemma map_ok_skip mapped (e : event) t :
  is_render_event e = false -> map_ok mapped (e :: t) = map_ok mapped t.
Proof. destruct e, mapped; cbn; intros H; (discriminate H || reflexivity). Qed.

Lemma map_ok_skip_all mapped (s t : list event) :
  Forall (fun e => is_render_event e = false) s ->
  map_ok mapped (s ++ t) = map_ok mapped t.
Proof.
  intros Hs. induction Hs as [|e s He _ IH]; [reflexivity|].
  cbn [app]. now rewrite map_ok_skip.
Qed.

Lemma outside_loop_no_render (s : list event) :
  Forall (fun e => is_loop_event e = false) s ->
  Forall (fun e => is_render_event e = false) s.
Proof.
  apply Forall_impl. intros e He. destruct (is_render_event e) eqn:Hr; [|reflexivity].
  apply render_event_is_loop_event in Hr. congruence.
Qed.

Variable MultisampleCount : Z.
Variable env : Env.
Variable d : ovrHmdDesc.

Lemma map_ok_frame n t :
  map_ok None (trace (render_frame MultisampleCount env
                        (locals MultisampleCount env d) n) ++ t) =
  map_ok None t.
Proof.
  rewrite render_frame_trace. unfold spec_eye_events.
  rewrite locals_d3dConstantBuffer.
  destruct (1 <? MultisampleCount); reflexivity.
Qed.

Lemma map_ok_loop l t :
  map_ok None (List.concat (map (iteration_trace MultisampleCount env
                                   (locals MultisampleCount env d)) l) ++ t) =
  map_ok None t.
Proof.
  induction l as [|n l IH]; [reflexivity|].
  cbn [map List.concat]. unfold iteration_trace at 1.
  rewrite <- !app_assoc.
  rewrite (map_ok_skip_all None _ _ (pump_no_render_events _ _)).
  now rewrite map_ok_frame.
Qed.

End Mapping.


(** ** The buffers of the scene and their use in the frame *)

Lemma setup_In_run {sdk : OVR_SDK} MultisampleCount (env : Env) d fuel (e : event) :
  hmd env = Some d ->
  In e (trace (setup MultisampleCount env d)) ->
  In e (trace (WinMain MultisampleCount env fuel)).
Proof.
  intros Hhmd He. rewrite (WinMain_with_hmd _ _ d fuel Hhmd). cbn [trace snd].
  apply in_or_app. right. apply in_or_app. now left.
Qed.

Ltac find_in_setup :=
  unfold setup, SetupScene;
  match goal with
  | |- context [1 <? ?ms] => destruct (1 <? ms)
  end;
  cbn -[CInt.to_UINT make_renderTargetSize Z.mul];
  repeat (try (left; reflexivity); right).



(** ** The life of the LibOVR library and of the HMD session *)

Section Lifecycle.

Context {sdk : OVR_SDK}.
Variable MultisampleCount : Z.
Variable env : Env.
Variable d : ovrHmdDesc.

Lemma loop_count_outside p l :
  (forall e, p e = true -> is_loop_event e = false) ->
  count p (List.concat (map (iteration_trace MultisampleCount env
                               (locals MultisampleCount env d)) l)) = 0%nat.
Proof.
  intros Hp. unfold count.
  rewrite (filter_none p is_loop_event); [reflexivity|apply loop_loop_events|].
  intros e He. destruct (p e) eqn:Hpe; [|reflexivity].
  apply Hp in Hpe. congruence.
Qed.

Lemma cleanup_ends_with_destroy_and_shutdown :
  trace (cleanup (locals MultisampleCount env d)) =
  map (fun obj => Release (Some obj))
      (release_order (trace (cleanup (locals MultisampleCount env d)))) ++
  [ovrHmd_Destroy; ovr_Shutdown].
Proof.
  unfold locals, setup. destruct (1 <? MultisampleCount); reflexivity.
Qed.

Lemma setup_lifecycle_counts :
  count is_ovr_Initialize (trace (setup MultisampleCount env d)) = 0%nat /\
  count is_ovr_Shutdown (trace (setup MultisampleCount env d)) = 0%nat /\
  count is_ovrHmd_Destroy (trace (setup MultisampleCount env d)) = 0%nat.
Proof.
  unfold setup. destruct (1 <? MultisampleCount); now repeat split.
Qed.

End Lifecycle.

(** X8. LibOVR is initialized before anything else but the DPI call, and
    so before every call into Direct3D, and never again.  A run that
    returns ends with [ovr_Shutdown], called once, on both exit paths:
    after [ovrHmd_Destroy], itself called once and after every other call
    on the session, when there was an HMD; with no call on a session at
    all when there was none.  A run that has not returned has destroyed
    and shut down nothing. *)
Theorem libovr_is_initialized_first_and_shut_down_last
    {sdk : OVR_SDK} (MultisampleCount : Z) (env : Env) (fuel : nat) :
  let run := WinMain MultisampleCount env fuel in
  (exists rest,
      trace run = SetProcessDPIAware :: ovr_Initialize :: rest /\
      count is_ovr_Initialize rest = 0%nat) /\
  (result run = Some EXIT_SUCCESS ->
   exists body,
     trace run = body ++ [ovrHmd_Destroy; ovr_Shutdown] /\
     count is_ovr_Shutdown body = 0%nat /\
     count is_ovrHmd_Destroy body = 0%nat) /\
  (result run = Some EXIT_FAILURE ->
   exists body,
     trace run = body ++ [ovr_Shutdown] /\
     count is_ovr_Shutdown body = 0%nat /\
     count is_ovrHmd_Destroy body = 0%nat /\
     count is_session_call body = 0%nat /\
     count is_d3d_event body = 0%nat) /\
  (result run = None ->
   count is_ovr_Shutdown (trace run) = 0%nat /\
   count is_ovrHmd_Destroy (trace run) = 0%nat).
Proof.
  intros run. unfold run.
  destruct (hmd env) as [d|] eqn:Hhmd.
  - rewrite (WinMain_with_hmd _ _ d fuel Hhmd). cbn [trace result fst snd].
    set (L := locals MultisampleCount env d).
    set (loop := List.concat (map (iteration_trace MultisampleCount env L)
                                (seq 0 (iterations env fuel 0)))).
    destruct (setup_lifecycle_counts MultisampleCount env d) as [S1 [S2 S3]].
    assert (L1 : count is_ovr_Initialize loop = 0%nat)
      by (apply loop_count_outside; intros e He; now destruct e).
    assert (L2 : count is_ovr_Shutdown loop = 0%nat)
      by (apply loop_count_outside; intros e He; now destruct e).
    assert (L3 : count is_ovrHmd_Destroy loop = 0%nat)
      by (apply loop_count_outside; intros e He; now destruct e).
    assert (Hrel : forall p objs, (forall this, p (Release this) = false) ->
                   count p (map (fun obj => Release (Some obj)) objs) = 0%nat).
    { intros p objs Hp. unfold count. induction objs as [|obj objs IH]; [reflexivity|].
      cbn [map filter]. now rewrite Hp. }
    pose proof (cleanup_ends_with_destroy_and_shutdown MultisampleCount env d) as Hc.
    fold L in Hc.
    set (released := map (fun obj => Release (Some obj))
                         (release_order (trace (cleanup L)))) in Hc.
    split; [|split; [|split]].
    + exists ([ovrHmd_Create 0] ++ trace (setup MultisampleCount env d) ++ loop ++
              (if loop_left env fuel 0 then trace (cleanup L) else [])).
      split; [reflexivity|].
      rewrite !count_app, S1, L1.
      destruct (loop_left env fuel 0); [|reflexivity].
      rewrite Hc, count_app. unfold released. now rewrite Hrel.
    + intros Hres. destruct (loop_left env fuel 0); [|discriminate Hres].
      exists ([SetProcessDPIAware; ovr_Initialize; ovrHmd_Create 0] ++
              trace (setup MultisampleCount env d) ++ loop ++ released).
      split; [|split].
      * rewrite Hc. now rewrite <- !app_assoc.
      * rewrite !count_app, S2, L2. unfold released. now rewrite Hrel.
      * rewrite !count_app, S3, L3. unfold released. now rewrite Hrel.
    + intros Hres. destruct (loop_left env fuel 0); discriminate Hres.
    + intros Hres. destruct (loop_left env fuel 0); [discriminate Hres|].
      rewrite !count_app, S2, S3, L2, L3. now split.
  - rewrite (WinMain_without_hmd _ _ fuel Hhmd). cbn [trace result fst snd].
    split; [|split; [|split]].
    + eexists. split; reflexivity.
    + intros Hres. discriminate Hres.
    + intros _.
      exists [ SetProcessDPIAware; ovr_Initialize; ovrHmd_Create 0;
               MessageBox
                 "Failed initializing HMD, make sure it is connected and turned on."
                 "LibOVR error" ].
      now repeat split.
    + intros Hres. discriminate Hres.
Qed.

Lemma libovr_is_initialized_first_and_shut_down_last_witness :
  result (WinMain (sdk := Sym.sdk) 4 Example.no_device 3) = Some EXIT_FAILURE /\
  exists body,
    trace (WinMain (sdk := Sym.sdk) 4 Example.no_device 3) = body ++ [ovr_Shutdown] /\
    count is_session_call body = 0%nat.
Proof.
  assert (Hr : result (WinMain (sdk := Sym.sdk) 4 Example.no_device 3) = Some EXIT_FAILURE)
    by reflexivity.
  split; [exact Hr|].
  destruct (proj1 (proj2 (proj2
    (libovr_is_initialized_first_and_shut_down_last 4 Example.no_device 3))) Hr)
    as [body [H1 [_ [_ [H4 _]]]]].
  exists body. split; [exact H1|exact H4].
Defined.

(** ** What is bound, resolved and handed over fits what was created *)

Lemma In_setup_or_cleanup {sdk : OVR_SDK} MultisampleCount (env : Env) d fuel (e : event) :
  hmd env = Some d ->
  In e (trace (WinMain MultisampleCount env fuel)) ->
  is_loop_event e = false ->
  acquires e <> [] \/ is_session_call e = true ->
  In e (trace (setup MultisampleCount env d)).
Proof.
  intros Hhmd Hin Hloop Hkind.
  destruct (WinMain_In_outside_loop _ _ e d fuel Hhmd Hin Hloop) as [Hs|[_ Hc]].
  - apply in_app_or in Hs. destruct Hs as [Hs|Hs]; [|exact Hs].
    in_cases Hs; subst e; destruct Hkind as [H|H]; (now contradiction H) || discriminate H.
  - exfalso. revert Hc Hkind. unfold cleanup, when, DestroyScene.
    destruct (d3dIntermediaryTextureShaderResourceView (locals MultisampleCount env d)),
             (d3dIntermediaryTextureRenderTargetView (locals MultisampleCount env d)),
             (d3dIntermediaryTexture (locals MultisampleCount env d));
      cbn [trace snd bind emit ret fst app is_nonnull]; intros Hc Hkind;
      in_cases Hc; subst e; destruct Hkind as [H|H];
      (now contradiction H) || discriminate H.
Qed.

(** X9. The render target view and the depth-stencil view that every
    frame clears and binds are the views of the eye texture and of the
    depth-stencil texture, and these two textures were created with the
    same width, height and sample count, the first bindable as a render
    target, the second as a depth-stencil, whose view has the texture's
    format. *)
Theorem bound_color_and_depth_targets_match
    {sdk : OVR_SDK} (MultisampleCount : Z) (env : Env) (d : ovrHmdDesc) (fuel : nat) :
  hmd env = Some d ->
  let t := trace (WinMain MultisampleCount env fuel) in
  exists colorDesc depthDesc dsvDesc,
    In (CreateTexture2D (Some DeviceObj) colorDesc EyeTextureObj) t /\
    In (CreateRenderTargetView (Some DeviceObj) (Some EyeTextureObj)
          EyeTextureRenderTargetViewObj) t /\
    In (CreateTexture2D (Some DeviceObj) depthDesc DepthStencilTextureObj) t /\
    In (CreateDepthStencilView (Some DeviceObj) (Some DepthStencilTextureObj) dsvDesc
          DepthStencilViewObj) t /\
    Width colorDesc = Width depthDesc /\
    Height colorDesc = Height depthDesc /\
    SampleDesc_Count colorDesc = SampleDesc_Count depthDesc /\
    In D3D11_BIND_RENDER_TARGET (BindFlags colorDesc) /\
    In D3D11_BIND_DEPTH_STENCIL (BindFlags depthDesc) /\
    dsv_Format dsvDesc = Format depthDesc /\
    (forall this view depthStencilView,
        In (OMSetRenderTargets this view depthStencilView) t ->
        view = Some EyeTextureRenderTargetViewObj /\
        depthStencilView = Some DepthStencilViewObj) /\
    (forall this view color,
        In (ClearRenderTargetView this view color) t ->
        view = Some EyeTextureRenderTargetViewObj) /\
    (forall this view flags depth stencil,
        In (ClearDepthStencilView this view flags depth stencil) t ->
        view = Some DepthStencilViewObj).
Proof.
  intros Hhmd t. subst t.
  set (rts := make_renderTargetSize (ovrEyeDimsLeft env d) (ovrEyeDimsRight env d)).
  exists (make_texdesc MultisampleCount rts), (make_dtd MultisampleCount rts).
  exists {| dsv_Format := DXGI_FORMAT_D24_UNORM_S8_UINT;
            ViewDimension := D3D11_DSV_DIMENSION_TEXTURE2DMS |}.
  assert (Hframe : forall e, In e (trace (WinMain MultisampleCount env fuel)) ->
            is_render_event e = true ->
            exists n, In e (trace (render_frame MultisampleCount env
                                     (locals MultisampleCount env d) n))).
  { intros e He Hr. destruct (WinMain_In_frame _ _ e d fuel Hhmd He Hr) as [n [_ Hn]].
    now exists n. }
  assert (Hrtv : d3dEyeTextureRenderTargetView (locals MultisampleCount env d) =
                 Some EyeTextureRenderTargetViewObj) by reflexivity.
  assert (Hdsv : d3dDepthStencilView (locals MultisampleCount env d) =
                 Some DepthStencilViewObj) by reflexivity.
  split; [apply (setup_In_run MultisampleCount env d fuel _ Hhmd); find_in_setup|].
  split; [apply (setup_In_run MultisampleCount env d fuel _ Hhmd); find_in_setup|].
  split; [apply (setup_In_run MultisampleCount env d fuel _ Hhmd); find_in_setup|].
  split; [apply (setup_In_run MultisampleCount env d fuel _ Hhmd); find_in_setup|].
  split; [reflexivity|]. split; [reflexivity|]. split; [reflexivity|].
  split; [right; now left|]. split; [now left|]. split; [reflexivity|].
  split; [|split].
  - intros this view dsv Hin. destruct (Hframe _ Hin eq_refl) as [k Hk].
    rewrite render_frame_trace in Hk. unfold spec_eye_events in Hk.
    rewrite Hrtv, Hdsv in Hk.
    destruct (1 <? MultisampleCount); cbn [app In] in Hk; in_cases Hk;
      split; congruence.
  - intros this view color Hin. destruct (Hframe _ Hin eq_refl) as [k Hk].
    rewrite render_frame_trace in Hk. unfold spec_eye_events in Hk.
    rewrite Hrtv in Hk.
    destruct (1 <? MultisampleCount); cbn [app In] in Hk; in_cases Hk; congruence.
  - intros this view flags depth stencil Hin. destruct (Hframe _ Hin eq_refl) as [k Hk].
    rewrite render_frame_trace in Hk. unfold spec_eye_events in Hk.
    rewrite Hdsv in Hk.
    destruct (1 <? MultisampleCount); cbn [app In] in Hk; in_cases Hk; congruence.
Qed.

Lemma bound_color_and_depth_targets_match_witness :
  hmd Example.session = Some Example.device /\
  exists colorDesc depthDesc,
    In (CreateTexture2D (sdk := Sym.sdk) (Some DeviceObj) colorDesc EyeTextureObj)
       (trace (WinMain 4 Example.session 3)) /\
    In (CreateTexture2D (sdk := Sym.sdk) (Some DeviceObj) depthDesc DepthStencilTextureObj)
       (trace (WinMain 4 Example.session 3)) /\
    SampleDesc_Count colorDesc = SampleDesc_Count depthDesc.
Proof.
  split; [reflexivity|].
  destruct (bound_color_and_depth_targets_match (sdk := Sym.sdk) 4
              Example.session Example.device 3 eq_refl)
    as [colorDesc [depthDesc [dsvDesc [H1 [_ [H3 [_ [_ [_ [H7 _]]]]]]]]]].
  exists colorDesc, depthDesc. split; [exact H1|]. split; [exact H3|exact H7].
Defined.

(** X10. For a sample count of at least 1, the texture handed to
    [ovrHmd_EndFrame] for either eye was created single-sampled and
    bindable as a shader resource, with the width and height that its
    descriptor's [TextureSize] announces (for a size that fits a
    [UINT]), and the view handed over with it is the shader resource
    view created of that very texture.  Every resolve goes from the eye
    texture into a texture of the same format, width and height, in that
    format. *)
Theorem compositor_gets_a_single_sample_texture
    {sdk : OVR_SDK} (MultisampleCount : Z) (env : Env) (d : ovrHmdDesc) (fuel : nat) :
  hmd env = Some d ->
  1 <= MultisampleCount ->
  let t := trace (WinMain MultisampleCount env fuel) in
  (forall poses texs i,
      In (ovrHmd_EndFrame poses texs) t ->
      exists obj srv desc,
        pTexture (at2 texs i) = Some obj /\
        pSRView (at2 texs i) = Some srv /\
        In (CreateTexture2D (Some DeviceObj) desc obj) t /\
        In (CreateShaderResourceView (Some DeviceObj) (Some obj) srv) t /\
        SampleDesc_Count desc = 1 /\
        In D3D11_BIND_SHADER_RESOURCE (BindFlags desc) /\
        Width desc = CInt.to_UINT (w (Header_TextureSize (at2 texs i))) /\
        Height desc = CInt.to_UINT (h (Header_TextureSize (at2 texs i)))) /\
  (forall this dst src format,
      In (ResolveSubresource this dst src format) t ->
      exists dstDesc srcDesc,
        dst = Some IntermediaryTextureObj /\ src = Some EyeTextureObj /\
        In (CreateTexture2D (Some DeviceObj) dstDesc IntermediaryTextureObj) t /\
        In (CreateTexture2D (Some DeviceObj) srcDesc EyeTextureObj) t /\
        Format dstDesc = format /\ Format srcDesc = format /\
        Width dstDesc = Width srcDesc /\ Height dstDesc = Height srcDesc /\
        SampleDesc_Count dstDesc = 1).
Proof.
  intros Hhmd Hms t. subst t.
  set (rts := make_renderTargetSize (ovrEyeDimsLeft env d) (ovrEyeDimsRight env d)).
  assert (Hframe : forall e, In e (trace (WinMain MultisampleCount env fuel)) ->
            is_render_event e = true ->
            exists n, In e (trace (render_frame MultisampleCount env
                                     (locals MultisampleCount env d) n))).
  { intros e He Hr. destruct (WinMain_In_frame _ _ e d fuel Hhmd He Hr) as [n [_ Hn]].
    now exists n. }
  split.
  - intros poses texs i Hin. destruct (Hframe _ Hin eq_refl) as [k Hk].
    rewrite render_frame_trace in Hk.
    assert (Htex : texs = vrEyeTexture (locals MultisampleCount env d)).
    { destruct (1 <? MultisampleCount); cbn [app In spec_eye_events] in Hk;
        in_cases Hk; congruence. }
    subst texs. clear Hk. rewrite locals_vrEyeTexture, locals_renderTargetSize.
    fold rts. unfold make_vrEyeTexture.
    destruct (Z.ltb_spec 1 MultisampleCount) as [Hlt|Hle].
    + exists IntermediaryTextureObj, IntermediaryTextureShaderResourceViewObj,
             (make_intermediary_texdesc rts).
      assert (H1 : In (CreateTexture2D (Some DeviceObj) (make_intermediary_texdesc rts)
                         IntermediaryTextureObj)
                      (trace (WinMain MultisampleCount env fuel))).
      { apply (setup_In_run MultisampleCount env d fuel _ Hhmd).
        unfold setup. apply Z.ltb_lt in Hlt. rewrite Hlt.
        cbn -[CInt.to_UINT make_renderTargetSize Z.mul].
        repeat (try (left; reflexivity); right). }
      assert (H2 : In (CreateShaderResourceView (Some DeviceObj)
                         (Some IntermediaryTextureObj)
                         IntermediaryTextureShaderResourceViewObj)
                      (trace (WinMain MultisampleCount env fuel))).
      { apply (setup_In_run MultisampleCount env d fuel _ Hhmd).
        unfold setup. apply Z.ltb_lt in Hlt. rewrite Hlt.
        cbn -[CInt.to_UINT make_renderTargetSize Z.mul].
        repeat (try (left; reflexivity); right). }
      destruct i as [|i]; cbn [at2 elt0 elt1 set_RenderViewport pTexture pSRView
                               Header_TextureSize];
        (repeat split; try assumption; try reflexivity; now left).
    + assert (MultisampleCount = 1) by lia. subst MultisampleCount.
      exists EyeTextureObj, EyeTextureShaderResourceViewObj, (make_texdesc 1 rts).
      assert (H1 : In (CreateTexture2D (Some DeviceObj) (make_texdesc 1 rts) EyeTextureObj)
                      (trace (WinMain 1 env fuel))).
      { apply (setup_In_run 1 env d fuel _ Hhmd). unfold setup.
        cbn -[CInt.to_UINT make_renderTargetSize Z.mul].
        repeat (try (left; reflexivity); right). }
      assert (H2 : In (CreateShaderResourceView (Some DeviceObj) (Some EyeTextureObj)
                         EyeTextureShaderResourceViewObj)
                      (trace (WinMain 1 env fuel))).
      { apply (setup_In_run 1 env d fuel _ Hhmd). unfold setup.
        cbn -[CInt.to_UINT make_renderTargetSize Z.mul].
        repeat (try (left; reflexivity); right). }
      destruct i as [|i]; cbn [at2 elt0 elt1 set_RenderViewport pTexture pSRView
                               Header_TextureSize];
        (repeat split; try assumption; try reflexivity; now left).
  - intros this dst src format Hin. destruct (Hframe _ Hin eq_refl) as [k Hk].
    rewrite render_frame_trace in Hk.
    rewrite locals_d3dIntermediaryTexture, locals_d3dEyeTexture in Hk.
    destruct (1 <? MultisampleCount) eqn:Hlt; cbn [app In spec_eye_events] in Hk;
      in_cases Hk.
    exists (make_intermediary_texdesc rts), (make_texdesc MultisampleCount rts).
    assert (Hd : dst = Some IntermediaryTextureObj) by congruence.
    assert (Hs : src = Some EyeTextureObj) by congruence.
    assert (Hf : DXGI_FORMAT_R8G8B8A8_UNORM = format) by congruence.
    split; [exact Hd|]. split; [exact Hs|].
    split.
    { apply (setup_In_run MultisampleCount env d fuel _ Hhmd).
      unfold setup. rewrite Hlt.
      cbn -[CInt.to_UINT make_renderTargetSize Z.mul].
      repeat (try (left; reflexivity); right). }
    split.
    { apply (setup_In_run MultisampleCount env d fuel _ Hhmd).
      unfold setup. rewrite Hlt.
      cbn -[CInt.to_UINT make_renderTargetSize Z.mul].
      repeat (try (left; reflexivity); right). }
    repeat split; try exact Hf; reflexivity.
Qed.

Lemma compositor_gets_a_single_sample_texture_witness :
  hmd Example.session = Some Example.device /\ 1 <= 4 /\
  exists obj desc,
    pTexture (at2 (vrEyeTexture (locals (sdk := Sym.sdk) 4 Example.session
                                   Example.device)) 0) = Some obj /\
    In (CreateTexture2D (sdk := Sym.sdk) (Some DeviceObj) desc obj)
       (trace (WinMain 4 Example.session 3)) /\
    SampleDesc_Count desc = 1.
Proof.
  assert (Hin : In (ovrHmd_EndFrame (sdk := Sym.sdk) (eyePoses Example.session 0)
                      (vrEyeTexture (locals 4 Example.session Example.device)))
                   (trace (WinMain 4 Example.session 3))) by find_event.
  split; [reflexivity|]. split; [lia|].
  destruct (proj1 (compositor_gets_a_single_sample_texture (sdk := Sym.sdk) 4
                     Example.session Example.device 3 eq_refl ltac:(lia))
              _ _ 0%nat Hin)
    as [obj [srv [desc [H1 [_ [H3 [_ [H5 _]]]]]]]].
  exists obj, desc. split; [exact H1|]. split; [exact H3|exact H5].
Defined.

(** X11. What [ovrHmd_ConfigureRendering] is told fits what was created:
    the device, context and swap chain are those of
    [D3D11CreateDeviceAndSwapChain], the back-buffer view is the render
    target view created of buffer 0 of that swap chain, the announced
    size and sample count are those the swap chain was created with, and
    the fields of view are the HMD's default ones, each eye its own. *)
Theorem rendering_is_configured_with_what_was_created
    {sdk : OVR_SDK} (MultisampleCount : Z) (env : Env) (d : ovrHmdDesc) (fuel : nat)
    (cfg : ovrD3D11Config) (caps : list ovrDistortionCaps)
    (fovs : array2 (ovrFovPort float)) :
  hmd env = Some d ->
  let t := trace (WinMain MultisampleCount env fuel) in
  In (ovrHmd_ConfigureRendering cfg caps fovs) t ->
  exists levels scd,
    In (D3D11CreateDeviceAndSwapChain levels scd) t /\
    pDevice cfg = Some DeviceObj /\
    pDeviceContext cfg = Some ContextObj /\
    pSwapChain cfg = Some SwapChainObj /\
    In (GetBuffer (pSwapChain cfg) 0 BackBufferObj) t /\
    In (CreateRenderTargetView (pDevice cfg) (Some BackBufferObj)
          BackBufferRenderTargetViewObj) t /\
    pBackBufferRT cfg = Some BackBufferRenderTargetViewObj /\
    BufferDesc_Width scd = CInt.to_UINT (w (RTSize cfg)) /\
    BufferDesc_Height scd = CInt.to_UINT (h (RTSize cfg)) /\
    scd_SampleDesc_Count scd = CInt.to_UINT (Multisample cfg) /\
    RTSize cfg = Resolution d /\
    at2 fovs 0 = at2 (DefaultEyeFov d) 0 /\
    at2 fovs 1 = at2 (DefaultEyeFov d) 1.
Proof.
  intros Hhmd t Hin. subst t.
  apply (In_setup_or_cleanup _ _ d fuel _ Hhmd) in Hin;
    [|reflexivity|right; reflexivity].
  exists [D3D_FEATURE_LEVEL_11_0; D3D_FEATURE_LEVEL_10_1].
  exists {| BufferCount := 1;
            BufferDesc_Format := DXGI_FORMAT_R8G8B8A8_UNORM;
            BufferDesc_Width := CInt.to_UINT (w (Resolution d));
            BufferDesc_Height := CInt.to_UINT (h (Resolution d));
            RefreshRate_Numerator := 0;
            RefreshRate_Denominator := 1;
            scd_SampleDesc_Count := CInt.to_UINT MultisampleCount;
            Windowed := false |}.
  assert (Hcfg : cfg = {| cfg_API := ovrRenderAPI_D3D11;
                          RTSize := Resolution d;
                          Multisample := MultisampleCount;
                          pDevice := Some DeviceObj;
                          pDeviceContext := Some ContextObj;
                          pBackBufferRT := Some BackBufferRenderTargetViewObj;
                          pSwapChain := Some SwapChainObj |} /\
                 fovs = Array2 (at2 (DefaultEyeFov d) 0) (at2 (DefaultEyeFov d) 1)).
  { revert Hin. unfold setup. destruct (1 <? MultisampleCount);
      cbn -[CInt.to_UINT make_renderTargetSize Z.mul]; intros Hin;
      in_cases Hin; inversion Hin; now split. }
  destruct Hcfg as [-> ->]. cbn [pDevice pDeviceContext pSwapChain pBackBufferRT
                                 RTSize Multisample at2 elt0 elt1].
  split; [apply (setup_In_run MultisampleCount env d fuel _ Hhmd); find_in_setup|].
  split; [reflexivity|]. split; [reflexivity|]. split; [reflexivity|].
  split; [apply (setup_In_run MultisampleCount env d fuel _ Hhmd); find_in_setup|].
  split; [apply (setup_In_run MultisampleCount env d fuel _ Hhmd); find_in_setup|].
  now repeat split.
Qed.

Lemma rendering_is_configured_with_what_was_created_witness :
  exists cfg caps fovs,
    hmd Example.session = Some Example.device /\
    In (ovrHmd_ConfigureRendering (sdk := Sym.sdk) cfg caps fovs)
       (trace (WinMain 4 Example.session 3)) /\
    at2 fovs 1 = Example.fov_right.
Proof.
  eexists. eexists. eexists.
  assert (Hin : In (ovrHmd_ConfigureRendering (sdk := Sym.sdk)
                      {| cfg_API := ovrRenderAPI_D3D11;
                         RTSize := {| w := 1920; h := 1080 |};
                         Multisample := 4;
                         pDevice := Some DeviceObj;
                         pDeviceContext := Some ContextObj;
                         pBackBufferRT := Some BackBufferRenderTargetViewObj;
                         pSwapChain := Some SwapChainObj |}
                      [ovrDistortionCap_Chromatic; ovrDistortionCap_TimeWarp;
                       ovrDistortionCap_Overdrive; ovrDistortionCap_Vignette]
                      (Array2 Example.fov_left Example.fov_right))
                   (trace (WinMain 4 Example.session 3))) by find_event.
  split; [reflexivity|]. split; [exact Hin|].
  destruct (rendering_is_configured_with_what_was_created (sdk := Sym.sdk) 4
              Example.session Example.device 3 _ _ _ eq_refl Hin)
    as [levels [scd [_ [_ [_ [_ [_ [_ [_ [_ [_ [_ [_ [_ H]]]]]]]]]]]]]].
  exact H.
Defined.

(** ** The scene *)


